(** * InsightAgent: the deterministic rule pipeline

    A shallow embedding of the Python sources

    - [insight_agent/agents.py]        (value coercion, the four category
                                        analyzers, the status decider),
    - [insight_agent/graph.py]         (the aggregation node and the linear
                                        workflow),
    - [insight_agent/column_mapper.py] (fuzzy column matching, the mapping
                                        with its fallback, normalisation),
    - [insight_agent/schemas.py]       (the records exchanged),
    - [insight_agent/engine.py]        (the request, the response and
                                        [analyze]),

    followed by the properties of the specification stated on it.

    Python objects are modelled as follows.  A [float] is an IEEE-754
    binary64 number ([spec_float] with precision 53 and exponent bound 1024),
    with the arithmetic and the comparisons of the standard library's
    executable specification.  A [str] is a [string] holding its UTF-8 bytes;
    [lower], [strip] and the numeric parser act on the ASCII range.  A [dict]
    is an insertion-ordered association list: with [str] keys for the records
    and the tables of the sources, with keys of any hashable kind where a
    decoded JSON document can put them.  A call that may raise returns a
    [result].  The language-model calls are parameters. *)

From Stdlib Require Import ZArith List String Ascii Bool Lia.
From Stdlib Require Import Permutation Sorted DecimalString.
From Stdlib Require Import SpecFloat.
Import ListNotations.

Set Implicit Arguments.
Set Warnings "-register-all".

(* ================================================================= *)
(** * The Python runtime the sources rely on *)

Module Py.

(** ** Exceptions *)

Inductive exn : Type :=
| TypeError
| ValueError
| OverflowError
| ZeroDivisionError
| RecursionError.

Inductive result (A : Type) : Type :=
| Ok (a : A)
| Raise (e : exn).

Arguments Ok {A} a.
Arguments Raise {A} e.

Definition bind {A B : Type} (m : result A) (k : A -> result B) : result B :=
  match m with
  | Ok a => k a
  | Raise e => Raise e
  end.

Notation "x <- m ;; k" := (bind m (fun x => k))
  (at level 61, m at next level, right associativity).

(** ** Binary64 floats *)

Definition float : Type := spec_float.

Definition prec : Z := 53.
Definition emax : Z := 1024.

Definition fadd : float -> float -> float := SFadd prec emax.
Definition fmul : float -> float -> float := SFmul prec emax.
Definition fdiv : float -> float -> float := SFdiv prec emax.

(** [a < b], [a <= b], [a > b] and [a == b] on floats; every comparison with
    a NaN is false. *)
Definition flt (a b : float) : bool := SFltb a b.
Definition fle (a b : float) : bool := SFleb a b.
Definition fgt (a b : float) : bool := SFltb b a.
Definition feq (a b : float) : bool := SFeqb a b.

Definition fzero : float := S754_zero false.

(** The float nearest to an integer (ties to even). *)
Definition float_of_Z (z : Z) : float := binary_normalize prec emax z 0 false.

(** The float nearest to [m * 10^e] for [0 <= m], with the sign [neg]: the
    value of a decimal literal and of a decimal string. *)
Definition float_of_decimal (neg : bool) (m e : Z) : float :=
  match m with
  | Z0 => S754_zero neg
  | Zpos _ =>
      if (0 <=? e)%Z then
        binary_normalize prec emax
          (if neg then (- (m * 10 ^ e))%Z else (m * 10 ^ e)%Z) 0 neg
      else
        let '(q, ez, l) := SFdiv_core_binary prec emax m 0 (10 ^ (- e))%Z 0 in
        binary_round_aux prec emax neg q ez l
  | Zneg _ => S754_nan
  end.

(** A literal [m * 10^e] of the source text, such as [0.7 = lit 7 (-1)]. *)
Definition lit (m e : Z) : float :=
  if (0 <=? m)%Z then float_of_decimal false m e
  else float_of_decimal true (- m) e.

(** [float(z)] for an [int]: a value beyond the float range raises. *)
Definition float_of_int (z : Z) : result float :=
  match float_of_Z z with
  | S754_infinity _ => Raise OverflowError
  | f => Ok f
  end.

(** [int(x)] for a float: truncation towards zero. *)
Definition int_of_float (x : float) : result Z :=
  match x with
  | S754_nan => Raise ValueError
  | S754_infinity _ => Raise OverflowError
  | S754_zero _ => Ok 0%Z
  | S754_finite s m e =>
      let a := if (0 <=? e)%Z then (Zpos m * 2 ^ e)%Z
               else (Zpos m / 2 ^ (- e))%Z in
      Ok (if s then (- a)%Z else a)
  end.

(** [a / b] on floats. *)
Definition truediv (a b : float) : result float :=
  if feq b fzero then Raise ZeroDivisionError else Ok (fdiv a b).

(** [sum(xs)]: the accumulator starts at the integer 0 and the terms are
    added from left to right.  (Interpreters from 3.12 on also carry a
    compensation term through this loop; the sum of no term and of one term
    is the same, and nothing below depends on the rounding of longer sums.) *)
Definition sum (xs : list float) : float := fold_left fadd xs fzero.

(** ** Strings *)

Definition string_of_Z (z : Z) : string := NilZero.string_of_int (Z.to_int z).

Definition code (c : ascii) : nat := nat_of_ascii c.

Definition is_space (c : ascii) : bool :=
  let n := code c in
  ((9 <=? n) && (n <=? 13) || (28 <=? n) && (n <=? 32))%nat.

Definition is_digit (c : ascii) : bool :=
  let n := code c in ((48 <=? n) && (n <=? 57))%nat.

Definition digit_val (c : ascii) : Z := Z.of_nat (code c - 48).

Definition lower_char (c : ascii) : ascii :=
  let n := code c in
  if ((65 <=? n) && (n <=? 90))%nat then ascii_of_nat (n + 32) else c.

(** [s.lower()] *)
Fixpoint lower (s : string) : string :=
  match s with
  | EmptyString => EmptyString
  | String c s' => String (lower_char c) (lower s')
  end.

Fixpoint lstrip_chars (cs : list ascii) : list ascii :=
  match cs with
  | c :: cs' => if is_space c then lstrip_chars cs' else cs
  | [] => []
  end.

Definition strip_chars (cs : list ascii) : list ascii :=
  rev (lstrip_chars (rev (lstrip_chars cs))).

(** [s.strip()] *)
Definition strip (s : string) : string :=
  string_of_list_ascii (strip_chars (list_ascii_of_string s)).

(** [s.replace(c, "")] for a one-character [c]. *)
Fixpoint remove_char (c : ascii) (s : string) : string :=
  match s with
  | EmptyString => EmptyString
  | String d s' =>
      if Ascii.eqb c d then remove_char c s' else String d (remove_char c s')
  end.

(** [sub in s] *)
Fixpoint contains (sub s : string) : bool :=
  prefix sub s ||
  match s with
  | EmptyString => false
  | String _ s' => contains sub s'
  end.

(** [x in xs] for a list of strings. *)
Definition mem (x : string) (xs : list string) : bool :=
  existsb (String.eqb x) xs.

(** ** [float(s)] for a string

    The grammar of the language reference: an optional sign, then [inf],
    [infinity] or [nan] in any case, or a decimal number whose digit groups
    may be separated by single underscores, with an optional exponent;
    surrounding whitespace is ignored.  [None] stands for [ValueError]. *)

Fixpoint digitpart_tail (cs : list ascii) (acc n : Z) : Z * Z * list ascii :=
  match cs with
  | c :: cs' =>
      if is_digit c then digitpart_tail cs' (10 * acc + digit_val c)%Z (n + 1)%Z
      else if Ascii.eqb c "_" then
        match cs' with
        | d :: cs'' =>
            if is_digit d
            then digitpart_tail cs'' (10 * acc + digit_val d)%Z (n + 1)%Z
            else (acc, n, cs)
        | [] => (acc, n, cs)
        end
      else (acc, n, cs)
  | [] => (acc, n, cs)
  end.

(** A digit group read after the digits [acc]: the number read so far, how
    many digits this group added to [n], and the unread characters. *)
Definition digitpart (cs : list ascii) (acc n : Z) : option (Z * Z * list ascii) :=
  match cs with
  | c :: cs' =>
      if is_digit c
      then Some (digitpart_tail cs' (10 * acc + digit_val c)%Z (n + 1)%Z)
      else None
  | [] => None
  end.

(** The digits of a number without its point, the count of digits after the
    point, and the unread characters. *)
Definition number (cs : list ascii) : option (Z * Z * list ascii) :=
  match digitpart cs 0 0 with
  | Some (m, _, rest) =>
      match rest with
      | c :: rest' =>
          if Ascii.eqb c "."
          then match digitpart rest' m 0 with
               | Some r => Some r
               | None => Some (m, 0%Z, rest')
               end
          else Some (m, 0%Z, rest)
      | [] => Some (m, 0%Z, rest)
      end
  | None =>
      match cs with
      | c :: rest => if Ascii.eqb c "." then digitpart rest 0 0 else None
      | [] => None
      end
  end.

Definition sign (cs : list ascii) : bool * list ascii :=
  match cs with
  | c :: cs' =>
      if Ascii.eqb c "-" then (true, cs')
      else if Ascii.eqb c "+" then (false, cs')
      else (false, cs)
  | [] => (false, cs)
  end.

(** The exponent part, which must end the string. *)
Definition exponent (cs : list ascii) : option Z :=
  match cs with
  | [] => Some 0%Z
  | c :: cs' =>
      if Ascii.eqb c "e" || Ascii.eqb c "E" then
        let '(neg, ds) := sign cs' in
        match digitpart ds 0 0 with
        | Some (ev, _, []) => Some (if neg then (- ev)%Z else ev)
        | _ => None
        end
      else None
  end.

Definition float_of_str (s : string) : option float :=
  let '(neg, body) := sign (strip_chars (list_ascii_of_string s)) in
  let word := lower (string_of_list_ascii body) in
  if String.eqb word "inf" || String.eqb word "infinity"
  then Some (S754_infinity neg)
  else if String.eqb word "nan" then Some S754_nan
  else match number body with
       | Some (m, k, rest) =>
           match exponent rest with
           | Some ev => Some (float_of_decimal neg m (ev - k))
           | None => None
           end
       | None => None
       end.

(** ** [f"{x:.Nf}"]: fixed notation with [nd] digits after the point,
    correctly rounded (ties to even on the exact binary value). *)

Definition round_half_even (a b : Z) : Z :=
  let q := (a / b)%Z in
  match (2 * (a mod b) ?= b)%Z with
  | Lt => q
  | Gt => (q + 1)%Z
  | Eq => if Z.even q then q else (q + 1)%Z
  end.

Fixpoint zeros (n : nat) : string :=
  match n with
  | O => EmptyString
  | S n' => String "0" (zeros n')
  end.

Definition zfill (w : nat) (s : string) : string :=
  (zeros (w - String.length s) ++ s)%string.

(** The digits of [n / 10^nd] for a natural [n]. *)
Definition fixed_digits (nd : nat) (n : Z) : string :=
  let scale := (10 ^ Z.of_nat nd)%Z in
  let ip := string_of_Z (n / scale) in
  match nd with
  | O => ip
  | S _ => (ip ++ "." ++ zfill nd (string_of_Z (n mod scale)))%string
  end.

Definition format_f (nd : nat) (x : float) : string :=
  match x with
  | S754_nan => "nan"%string
  | S754_infinity s => if s then "-inf"%string else "inf"%string
  | S754_zero s =>
      ((if s then "-" else "") ++ fixed_digits nd 0)%string
  | S754_finite s m e =>
      let scale := (10 ^ Z.of_nat nd)%Z in
      let n := if (0 <=? e)%Z then (Zpos m * 2 ^ e * scale)%Z
               else round_half_even (Zpos m * scale) (2 ^ (- e)) in
      ((if s then "-" else "") ++ fixed_digits nd n)%string
  end.

(** ** Values and dictionaries *)

(** The values a record can hold: what a JSON document decodes to. *)
Inductive value : Type :=
| VNone
| VBool (b : bool)
| VInt (z : Z)
| VFloat (f : float)
| VStr (s : string)
| VList (l : list value)
| VDict (d : list (string * value)).

(** [bool(v)] *)
Definition truthy (v : value) : bool :=
  match v with
  | VNone => false
  | VBool b => b
  | VInt z => negb (z =? 0)%Z
  | VFloat f => negb (feq f fzero)
  | VStr s => negb (String.eqb s "")
  | VList l => match l with [] => false | _ :: _ => true end
  | VDict d => match d with [] => false | _ :: _ => true end
  end.

(** [float(v)] *)
Definition float_of_value (v : value) : result float :=
  match v with
  | VBool b => Ok (float_of_Z (if b then 1 else 0))
  | VInt z => float_of_int z
  | VFloat f => Ok f
  | VStr s =>
      match float_of_str s with
      | Some f => Ok f
      | None => Raise ValueError
      end
  | VNone | VList _ | VDict _ => Raise TypeError
  end.

(** The interpreter's bound on the decimal digits of an [int] that is turned
    into text ([sys.int_max_str_digits], 4300 unless configured otherwise). *)
Definition int_max_str_digits : Z := 4300.

(** [str(v)].  An [int] of more than [int_max_str_digits] digits has no
    text: the conversion raises [ValueError].  The text of a float and the
    text of a container are what [repr] gives; on a container [repr] may
    raise as well (the [ValueError] of such an [int] inside it, a
    [RecursionError] on nesting beyond the interpreter's depth). *)
Definition str_of (repr : value -> result string) (v : value) : result string :=
  match v with
  | VStr s => Ok s
  | VNone => Ok "None"%string
  | VBool b => Ok (if b then "True"%string else "False"%string)
  | VInt z =>
      if (10 ^ int_max_str_digits <=? Z.abs z)%Z then Raise ValueError
      else Ok (string_of_Z z)
  | VFloat _ | VList _ | VDict _ => repr v
  end.

(** A [dict] with [str] keys, in insertion order. *)
Definition dict (V : Type) : Type := list (string * V).

(** [d.get(k)] *)
Fixpoint dget {V : Type} (d : dict V) (k : string) : option V :=
  match d with
  | [] => None
  | (k', v) :: d' => if String.eqb k k' then Some v else dget d' k
  end.

(** [d.get(k, dflt)] *)
Definition dget_default {V : Type} (d : dict V) (k : string) (dflt : V) : V :=
  match dget d k with
  | Some v => v
  | None => dflt
  end.

(** [d[k] = v]: a present key keeps its place, a new one goes last. *)
Fixpoint dset {V : Type} (d : dict V) (k : string) (v : V) : dict V :=
  match d with
  | [] => [(k, v)]
  | (k', v') :: d' =>
      if String.eqb k k' then (k', v) :: d' else (k', v') :: dset d' k v
  end.

(** [list(d.keys())] *)
Definition keys {V : Type} (d : dict V) : list string := map fst d.

(** ** Dictionaries with keys of any hashable kind

    A record and a mapping given by a caller have [str] keys.  What
    [json.loads] decodes can bring other keys and other values into a
    mapping, and from there into a normalized record. *)

(** [hash(v)] is defined for every decoded value but a list and a
    dictionary. *)
Definition hashable (v : value) : bool :=
  match v with
  | VList _ | VDict _ => false
  | _ => true
  end.

(** A finite number as the pair [(m, e)] that stands for [m * 2^e]. *)
Definition dyadic (v : value) : option (Z * Z) :=
  match v with
  | VBool b => Some (if b then 1%Z else 0%Z, 0%Z)
  | VInt z => Some (z, 0%Z)
  | VFloat (S754_zero _) => Some (0%Z, 0%Z)
  | VFloat (S754_finite s m e) => Some (if s then Zneg m else Zpos m, e)
  | _ => None
  end.

Definition dyadic_eqb (a b : Z * Z) : bool :=
  let e := Z.min (snd a) (snd b) in
  (fst a * 2 ^ (snd a - e) =? fst b * 2 ^ (snd b - e))%Z.

(** When two hashable values are one key: the same text, [None] twice, or
    numbers of the same exact value, whether [bool], [int] or [float]
    ([True], [1] and [1.0] are one key, and so are [0] and [-0.0]).  The
    decoder has a single NaN object, which is one key by identity. *)
Definition key_eqb (a b : value) : bool :=
  match a, b with
  | VStr s, VStr t => String.eqb s t
  | VNone, VNone => true
  | VFloat S754_nan, VFloat S754_nan => true
  | VFloat (S754_infinity s), VFloat (S754_infinity t) => Bool.eqb s t
  | _, _ =>
      match dyadic a, dyadic b with
      | Some x, Some y => dyadic_eqb x y
      | _, _ => false
      end
  end.

Definition anydict : Type := list (value * value).

(** [d.get(k)] *)
Fixpoint aget (d : anydict) (k : value) : option value :=
  match d with
  | [] => None
  | (k', v) :: d' => if key_eqb k k' then Some v else aget d' k
  end.

(** [d.get(k, dflt)] *)
Definition aget_default (d : anydict) (k dflt : value) : value :=
  match aget d k with
  | Some v => v
  | None => dflt
  end.

(** [d[k] = v] for a hashable [k]: a present key keeps its place and its
    own key object, a new one goes last. *)
Fixpoint aset (d : anydict) (k v : value) : anydict :=
  match d with
  | [] => [(k, v)]
  | (k', v') :: d' =>
      if key_eqb k k' then (k', v) :: d' else (k', v') :: aset d' k v
  end.

(** [d[k] = v] *)
Definition setitem (d : anydict) (k v : value) : result anydict :=
  if hashable k then Ok (aset d k v) else Raise TypeError.

(** A dictionary with [str] keys and values seen as one with any keys. *)
Definition of_strs (d : dict string) : anydict :=
  map (fun kv => (VStr (fst kv), VStr (snd kv))) d.

(** A record seen as a dictionary with any keys. *)
Definition of_record (d : dict value) : anydict :=
  map (fun kv => (VStr (fst kv), snd kv)) d.

(** The items under a [str] key, in order: all that [d.get(k)] and
    [d.get(k, dflt)] can reach for a string [k]. *)
Definition str_items (d : anydict) : dict value :=
  flat_map
    (fun kv =>
       match fst kv with
       | VStr k => [(k, snd kv)]
       | _ => []
       end)
    d.

(** [list(d.keys())] restricted to the [str] keys. *)
Definition str_keys (d : anydict) : list string := keys (str_items d).

(** The characters of a string, each with the bytes of its UTF-8 encoding: a
    character starts at every byte that is not a continuation byte. *)
Definition is_continuation (c : ascii) : bool :=
  let n := code c in ((128 <=? n) && (n <=? 191))%nat.

Fixpoint characters (s : string) : list string :=
  match s with
  | EmptyString => []
  | String c s' =>
      let continued :=
        match s' with
        | String d _ => is_continuation d
        | EmptyString => false
        end in
      match characters s' with
      | p :: ps =>
          if continued then String c p :: ps
          else String c EmptyString :: p :: ps
      | [] => [String c EmptyString]
      end
  end.

End Py.

Import Py.
Open Scope string_scope.

(* ================================================================= *)
(** * schemas.py *)

Inductive AdStatus : Type := PAUSE | FIX | TEST | KEEP.

Inductive InsightCategory : Type :=
| ROAS | CTR | CONVERSION | FREQUENCY | SPEND | CREATIVE.

Module InsightRecommendation.
Record t : Type := mk {
  category : InsightCategory;
  condition : string;
  recommendation : string;
  priority : string;
  affected_ads : list string;
  metrics : dict float
}.
End InsightRecommendation.

Module AdInsight.
Record t : Type := mk {
  ad_id : string;
  ad_name : string;
  status : AdStatus;
  recommendations : list string;
  metrics : dict float;
  issues : list string
}.
End AdInsight.

(* ================================================================= *)
(** * agents.py *)

(** [_get_value(row, key, default)]: the same body in each of the five agent
    classes and in [InsightGraph]. *)
Definition _get_value (row : dict value) (key : string) (default : float)
  : result float :=
  let value := dget_default row key (VFloat default) in
  match value with
  | VStr s =>
      let s' := strip (remove_char "," (remove_char "%" s)) in
      match float_of_value (VStr s') with
      | Ok f => Ok f
      | Raise _ => Ok default
      end
  | _ => if truthy value then float_of_value value else Ok default
  end.

(** [str(row.get(key, "unknown"))] *)
Definition str_field (repr : value -> result string) (row : dict value)
  (key : string) : result string :=
  str_of repr (dget_default row key (VStr "unknown")).

(** [for row in data: ...] where the body appends to [insights]. *)
Fixpoint for_each {A B : Type} (body : A -> result (list B)) (data : list A)
  (insights : list B) : result (list B) :=
  match data with
  | [] => Ok insights
  | row :: rest =>
      new <- body row ;;
      for_each body rest (insights ++ new)
  end.

Module ROASAgent.

(** What one iteration of the loop appends. *)
Definition analyze_row (repr : value -> result string) (row : dict value)
  : result (list InsightRecommendation.t) :=
  roas <- _get_value row "roas" fzero ;;
  spend <- _get_value row "spend" fzero ;;
  frequency <- _get_value row "frequency" fzero ;;
  ad_id <- str_field repr row "ad_id" ;;
  if fle (lit 10 (-1)) roas && fle roas (lit 20 (-1)) then
    Ok [InsightRecommendation.mk ROAS
          ("ROAS " ++ format_f 2 roas ++ " (1-2 range)")
          "Test 2-3 new hooks/thumbnails; rotate in new ad creative; cap frequency to avoid fatigue"
          "high" [ad_id]
          [("roas", roas); ("spend", spend); ("frequency", frequency)]]
  else if flt roas (lit 10 (-1)) && fgt spend (lit 50 0) then
    Ok [InsightRecommendation.mk ROAS
          ("ROAS " ++ format_f 2 roas ++ " (unprofitable)")
          "Pause immediately or reduce budget by 75%; audit targeting and creative quality"
          "high" [ad_id]
          [("roas", roas); ("spend", spend)]]
  else if fgt roas (lit 30 (-1)) then
    Ok [InsightRecommendation.mk ROAS
          ("ROAS " ++ format_f 2 roas ++ " (high performance)")
          "Scale budget by 20-30%; create lookalike audiences; duplicate winning creative"
          "medium" [ad_id]
          [("roas", roas); ("spend", spend)]]
  else Ok [].

Definition analyze (repr : value -> result string) (data : list (dict value))
  : result (list InsightRecommendation.t) :=
  for_each (analyze_row repr) data [].

End ROASAgent.

Module CTRAgent.

Definition analyze_row (repr : value -> result string) (row : dict value)
  : result (list InsightRecommendation.t) :=
  ctr <- _get_value row "ctr" fzero ;;
  ctr_7d <- _get_value row "ctr_7d" fzero ;;
  ctr_prev_7d <- _get_value row "ctr_prev_7d" fzero ;;
  ctr_drop <- _get_value row "ctr_drop" fzero ;;
  impressions <- _get_value row "impressions" fzero ;;
  ad_id <- str_field repr row "ad_id" ;;
  if fgt ctr_drop (lit 30 0)
     || (fgt ctr_prev_7d (lit 0 0)
         && flt ctr_7d (fmul ctr_prev_7d (lit 7 (-1)))) then
    Ok [InsightRecommendation.mk CTR
          ("CTR dropped " ++ format_f 1 ctr_drop ++ "% vs previous period")
          "Creative fatigue detected; rotate in fresh ad creative; test new angles/hooks"
          "high" [ad_id]
          [("ctr", ctr); ("ctr_7d", ctr_7d); ("ctr_prev_7d", ctr_prev_7d);
           ("ctr_drop", ctr_drop)]]
  else if flt ctr (lit 10 (-1)) && fgt impressions (lit 1000 0) then
    n <- int_of_float impressions ;;
    Ok [InsightRecommendation.mk CTR
          ("Low CTR " ++ format_f 2 ctr ++ "% with " ++ string_of_Z n
             ++ " impressions")
          "Poor creative engagement; test stronger hooks, better visuals, or clearer CTA"
          "high" [ad_id]
          [("ctr", ctr); ("impressions", impressions)]]
  else if fgt ctr (lit 30 (-1)) then
    Ok [InsightRecommendation.mk CTR
          ("Strong CTR " ++ format_f 2 ctr ++ "%")
          "High engagement; scale impressions, create similar variants, analyze winning elements"
          "medium" [ad_id]
          [("ctr", ctr); ("impressions", impressions)]]
  else Ok [].

Definition analyze (repr : value -> result string) (data : list (dict value))
  : result (list InsightRecommendation.t) :=
  for_each (analyze_row repr) data [].

End CTRAgent.

Module ConversionAgent.

Definition analyze_row (repr : value -> result string) (row : dict value)
  : result (list InsightRecommendation.t) :=
  atc_to_purchase <- _get_value row "atc_to_purchase" fzero ;;
  ctr <- _get_value row "ctr" fzero ;;
  add_to_cart <- _get_value row "add_to_cart" fzero ;;
  purchases <- _get_value row "purchases" fzero ;;
  ad_id <- str_field repr row "ad_id" ;;
  if fgt ctr (lit 15 (-1)) && flt atc_to_purchase (lit 20 0)
     && fgt add_to_cart (lit 10 0) then
    Ok [InsightRecommendation.mk CONVERSION
          ("CTR " ++ format_f 2 ctr ++ "% healthy but ATC→Purchase "
             ++ format_f 1 atc_to_purchase ++ "% < 20%")
          "Audit landing page and checkout flow; check for friction, page speed, trust signals; review pricing and shipping"
          "high" [ad_id]
          [("ctr", ctr); ("atc_to_purchase", atc_to_purchase);
           ("add_to_cart", add_to_cart)]]
  else if flt add_to_cart (lit 5 0) && fgt ctr (lit 10 (-1)) then
    n <- int_of_float add_to_cart ;;
    Ok [InsightRecommendation.mk CONVERSION
          ("Low cart adds (" ++ string_of_Z n ++ ") despite clicks")
          "Landing page issue; ensure message match, improve product presentation, add urgency/scarcity"
          "high" [ad_id]
          [("add_to_cart", add_to_cart); ("ctr", ctr)]]
  else if fgt atc_to_purchase (lit 30 0) then
    Ok [InsightRecommendation.mk CONVERSION
          ("Strong ATC→Purchase rate " ++ format_f 1 atc_to_purchase ++ "%")
          "Excellent conversion funnel; scale traffic to this flow, document winning elements"
          "low" [ad_id]
          [("atc_to_purchase", atc_to_purchase); ("purchases", purchases)]]
  else Ok [].

Definition analyze (repr : value -> result string) (data : list (dict value))
  : result (list InsightRecommendation.t) :=
  for_each (analyze_row repr) data [].

End ConversionAgent.

Module FrequencyAgent.

Definition analyze_row (repr : value -> result string) (row : dict value)
  : result (list InsightRecommendation.t) :=
  frequency <- _get_value row "frequency" fzero ;;
  ctr <- _get_value row "ctr" fzero ;;
  ctr_drop <- _get_value row "ctr_drop" fzero ;;
  ad_id <- str_field repr row "ad_id" ;;
  if fgt frequency (lit 35 (-1))
     && (fgt ctr_drop (lit 20 0) || flt ctr (lit 10 (-1))) then
    Ok [InsightRecommendation.mk FREQUENCY
          ("Frequency " ++ format_f 2 frequency ++ " with performance decline")
          "Ad fatigue detected; cap frequency at 3, expand audience, or rotate creative"
          "high" [ad_id]
          [("frequency", frequency); ("ctr", ctr); ("ctr_drop", ctr_drop)]]
  else if fgt frequency (lit 50 (-1)) then
    Ok [InsightRecommendation.mk FREQUENCY
          ("Very high frequency " ++ format_f 2 frequency)
          "Audience saturation; expand targeting, add exclusions, or pause for creative refresh"
          "high" [ad_id]
          [("frequency", frequency)]]
  else Ok [].

Definition analyze (repr : value -> result string) (data : list (dict value))
  : result (list InsightRecommendation.t) :=
  for_each (analyze_row repr) data [].

End FrequencyAgent.

Module StatusDecisionAgent.

Import InsightRecommendation.

(** The [if]/[elif] chain of [decide_status]: the status, the
    recommendations and the issues with which the matched branch leaves. *)
Definition cascade (roas ctr spend frequency : float)
  (ad_insights high_priority_issues : list InsightRecommendation.t)
  : AdStatus * list string * list string :=
  if flt roas (lit 10 (-1)) && fgt spend (lit 50 0) then
    (PAUSE, [], ["Unprofitable: ROAS " ++ format_f 2 roas])
  else if fgt frequency (lit 50 (-1)) && flt ctr (lit 5 (-1)) then
    (PAUSE, [],
     ["Severe fatigue: Frequency " ++ format_f 2 frequency ++ ", CTR "
        ++ format_f 2 ctr ++ "%"])
  else if (2 <=? List.length high_priority_issues)%nat then
    (FIX, map recommendation high_priority_issues,
     map condition high_priority_issues)
  else if fle (lit 10 (-1)) roas && fle roas (lit 25 (-1))
          || fgt ctr (lit 20 (-1)) && flt roas (lit 20 (-1)) then
    (TEST, map recommendation ad_insights, [])
  else if fgt roas (lit 25 (-1)) && fgt ctr (lit 15 (-1)) then
    (KEEP, ["Continue monitoring; performing well"], [])
  else (KEEP, [], []).

(** [if not recommendations: recommendations = [... ad_insights[:3]]] *)
Definition default_recommendations (recommendations : list string)
  (ad_insights : list InsightRecommendation.t) : list string :=
  match recommendations with
  | [] => map recommendation (firstn 3 ad_insights)
  | _ :: _ => recommendations
  end.

(** [[i for i in insights if ad_id in i.affected_ads]] *)
Definition insights_for (ad_id : string)
  (insights : list InsightRecommendation.t) : list InsightRecommendation.t :=
  filter (fun i => mem ad_id (affected_ads i)) insights.

Definition decide_status (repr : value -> result string) (row : dict value)
  (insights : list InsightRecommendation.t) : result AdInsight.t :=
  ad_id <- str_field repr row "ad_id" ;;
  ad_name <- str_field repr row "ad_name" ;;
  let ad_insights := insights_for ad_id insights in
  roas <- _get_value row "roas" fzero ;;
  ctr <- _get_value row "ctr" fzero ;;
  spend <- _get_value row "spend" fzero ;;
  frequency <- _get_value row "frequency" fzero ;;
  let high_priority_issues :=
    filter (fun i => String.eqb (priority i) "high") ad_insights in
  let '(status, recommendations, issues) :=
    cascade roas ctr spend frequency ad_insights high_priority_issues in
  let recommendations := default_recommendations recommendations ad_insights in
  Ok (AdInsight.mk ad_id ad_name status (firstn 5 recommendations)
        [("roas", roas); ("ctr", ctr); ("spend", spend);
         ("frequency", frequency)]
        issues).

End StatusDecisionAgent.

(* ================================================================= *)
(** * graph.py *)

(** [xs.sort(key=key)]: the sort of the language is stable; insertion from
    the right, each element going before the first one whose key is not
    smaller, is the stable sort written out.  A list has one stable sort
    ([sort_by_unique] below), so the algorithm chosen does not matter. *)
Fixpoint insert_by {A : Type} (key : A -> nat) (x : A) (l : list A) : list A :=
  match l with
  | [] => [x]
  | y :: l' =>
      if (key x <=? key y)%nat then x :: l else y :: insert_by key x l'
  end.

Fixpoint sort_by {A : Type} (key : A -> nat) (l : list A) : list A :=
  match l with
  | [] => []
  | x :: l' => insert_by key x (sort_by key l')
  end.

(** [[f(row) for row in data]] for an [f] that may raise. *)
Fixpoint map_result {A B : Type} (f : A -> result B) (l : list A)
  : result (list B) :=
  match l with
  | [] => Ok []
  | x :: l' =>
      y <- f x ;;
      ys <- map_result f l' ;;
      Ok (y :: ys)
  end.

Module InsightGraph.

Record MetricsOverview : Type := {
  total_spend : float;
  total_revenue : float;
  overall_roas : float;
  total_purchases : float;
  total_clicks : float;
  total_impressions : float;
  overall_ctr : float;
  total_ads : nat
}.

Record AnalysisState : Type := {
  normalized_data : list (dict value);
  roas_insights : list InsightRecommendation.t;
  ctr_insights : list InsightRecommendation.t;
  conversion_insights : list InsightRecommendation.t;
  frequency_insights : list InsightRecommendation.t;
  all_insights : list InsightRecommendation.t;
  ad_insights : list AdInsight.t;
  metrics_overview : option MetricsOverview
}.

(** The state [engine.analyze] starts the graph with. *)
Definition initial_state (data : list (dict value)) : AnalysisState :=
  {| normalized_data := data;
     roas_insights := []; ctr_insights := [];
     conversion_insights := []; frequency_insights := [];
     all_insights := []; ad_insights := [];
     metrics_overview := None |}.

(** The four analysis nodes; the annotated lists are merged with
    [operator.add]. *)
Definition _analyze_roas (repr : value -> result string) (state : AnalysisState)
  : result AnalysisState :=
  insights <- ROASAgent.analyze repr (normalized_data state) ;;
  Ok {| normalized_data := normalized_data state;
        roas_insights := roas_insights state ++ insights;
        ctr_insights := ctr_insights state;
        conversion_insights := conversion_insights state;
        frequency_insights := frequency_insights state;
        all_insights := all_insights state;
        ad_insights := ad_insights state;
        metrics_overview := metrics_overview state |}.

Definition _analyze_ctr (repr : value -> result string) (state : AnalysisState)
  : result AnalysisState :=
  insights <- CTRAgent.analyze repr (normalized_data state) ;;
  Ok {| normalized_data := normalized_data state;
        roas_insights := roas_insights state;
        ctr_insights := ctr_insights state ++ insights;
        conversion_insights := conversion_insights state;
        frequency_insights := frequency_insights state;
        all_insights := all_insights state;
        ad_insights := ad_insights state;
        metrics_overview := metrics_overview state |}.

Definition _analyze_conversion (repr : value -> result string)
  (state : AnalysisState) : result AnalysisState :=
  insights <- ConversionAgent.analyze repr (normalized_data state) ;;
  Ok {| normalized_data := normalized_data state;
        roas_insights := roas_insights state;
        ctr_insights := ctr_insights state;
        conversion_insights := conversion_insights state ++ insights;
        frequency_insights := frequency_insights state;
        all_insights := all_insights state;
        ad_insights := ad_insights state;
        metrics_overview := metrics_overview state |}.

Definition _analyze_frequency (repr : value -> result string)
  (state : AnalysisState) : result AnalysisState :=
  insights <- FrequencyAgent.analyze repr (normalized_data state) ;;
  Ok {| normalized_data := normalized_data state;
        roas_insights := roas_insights state;
        ctr_insights := ctr_insights state;
        conversion_insights := conversion_insights state;
        frequency_insights := frequency_insights state ++ insights;
        all_insights := all_insights state;
        ad_insights := ad_insights state;
        metrics_overview := metrics_overview state |}.

Definition priority_order : dict nat :=
  [("high", 0%nat); ("medium", 1%nat); ("low", 2%nat)].

(** The sort key [lambda x: priority_order.get(x.priority, 3)]. *)
Definition priority_rank (x : InsightRecommendation.t) : nat :=
  dget_default priority_order (InsightRecommendation.priority x) 3%nat.

(** The first half of [_aggregate_insights]: the four lists one after the
    other, then sorted in place. *)
Definition merged_insights (state : AnalysisState)
  : list InsightRecommendation.t :=
  sort_by priority_rank
    ((((([] ++ roas_insights state) ++ ctr_insights state)
         ++ conversion_insights state) ++ frequency_insights state)).

(** [sum(self._get_value(row, key, 0) for row in data)] *)
Definition total (data : list (dict value)) (key : string) : result float :=
  xs <- map_result (fun row => _get_value row key fzero) data ;;
  Ok (sum xs).

(** The second half of [_aggregate_insights]. *)
Definition overview (data : list (dict value)) : result MetricsOverview :=
  total_spend <- total data "spend" ;;
  total_revenue <- total data "purchase_value" ;;
  total_purchases <- total data "purchases" ;;
  total_clicks <- total data "clicks" ;;
  total_impressions <- total data "impressions" ;;
  overall_roas <-
    (if fgt total_spend (lit 0 0) then truediv total_revenue total_spend
     else Ok (lit 0 0)) ;;
  overall_ctr <-
    (if fgt total_impressions (lit 0 0) then
       q <- truediv total_clicks total_impressions ;;
       Ok (fmul q (lit 100 0))
     else Ok (lit 0 0)) ;;
  Ok {| total_spend := total_spend;
        total_revenue := total_revenue;
        overall_roas := overall_roas;
        total_purchases := total_purchases;
        total_clicks := total_clicks;
        total_impressions := total_impressions;
        overall_ctr := overall_ctr;
        total_ads := List.length data |}.

Definition _aggregate_insights (state : AnalysisState)
  : result AnalysisState :=
  let all_insights := merged_insights state in
  metrics_overview <- overview (normalized_data state) ;;
  Ok {| normalized_data := normalized_data state;
        roas_insights := roas_insights state;
        ctr_insights := ctr_insights state;
        conversion_insights := conversion_insights state;
        frequency_insights := frequency_insights state;
        all_insights := all_insights;
        ad_insights := ad_insights state;
        metrics_overview := Some metrics_overview |}.

Definition _decide_status (repr : value -> result string) (state : AnalysisState)
  : result AnalysisState :=
  ad_insights <-
    map_result
      (fun row =>
         StatusDecisionAgent.decide_status repr row (all_insights state))
      (normalized_data state) ;;
  Ok {| normalized_data := normalized_data state;
        roas_insights := roas_insights state;
        ctr_insights := ctr_insights state;
        conversion_insights := conversion_insights state;
        frequency_insights := frequency_insights state;
        all_insights := all_insights state;
        ad_insights := ad_insights;
        metrics_overview := metrics_overview state |}.

(** The compiled workflow up to the summary node, which only calls the
    language model: the nodes in the order of their edges. *)
Definition run (repr : value -> result string) (data : list (dict value))
  : result AnalysisState :=
  s1 <- _analyze_roas repr (initial_state data) ;;
  s2 <- _analyze_ctr repr s1 ;;
  s3 <- _analyze_conversion repr s2 ;;
  s4 <- _analyze_frequency repr s3 ;;
  s5 <- _aggregate_insights s4 ;;
  _decide_status repr s5.

End InsightGraph.

(* ================================================================= *)
(** * column_mapper.py *)

Module ColumnMapper.

Definition STANDARD_COLUMNS : dict (list string) :=
  [ ("campaign_name", ["campaign name"; "campaign"; "campaign_name"]);
    ("ad_set_name", ["ad set name"; "ad set"; "adset"; "ad_set_name"]);
    ("ad_name", ["ad name"; "ad"; "ad_name"; "creative name"]);
    ("ad_id", ["ad id"; "ad_id"; "adid"; "creative id"]);
    ("spend", ["spend"; "cost"; "amount spent"; "budget spent"]);
    ("impressions", ["impressions"; "impr"; "views"]);
    ("clicks", ["clicks"; "link clicks"; "click"]);
    ("ctr", ["ctr"; "ctr %"; "click through rate"; "clickthrough rate"]);
    ("frequency", ["frequency"; "freq"; "avg frequency"]);
    ("roas", ["roas"; "return on ad spend"; "roi"]);
    ("purchases", ["purchases"; "conversions"; "sales"; "purchase"]);
    ("purchase_value",
     ["purchase value"; "revenue"; "conversion value"; "sales value"]);
    ("add_to_cart", ["adds to cart"; "add to cart"; "atc"; "cart adds"]);
    ("atc_to_purchase",
     ["atc→purchase %"; "atc to purchase"; "cart to purchase";
      "conversion rate"]);
    ("ctr_7d", ["ctr 7d %"; "ctr 7d"; "ctr last 7 days"]);
    ("ctr_prev_7d", ["ctr prev7 %"; "ctr prev 7d"; "ctr previous 7 days"]);
    ("ctr_drop", ["ctr drop vs prev7 %"; "ctr drop"; "ctr decline"]);
    ("status", ["status"; "state"; "ad status"]) ].

(** The inner loop: some variant lies in the column or the column in it. *)
Definition partial_match (column_lower : string) (variations : list string)
  : bool :=
  existsb
    (fun variant =>
       contains variant column_lower || contains column_lower variant)
    variations.

(** The outer loop over the items of the table, left at the first
    [return]. *)
Fixpoint match_in (table : dict (list string)) (column_lower : string)
  : option string :=
  match table with
  | [] => None
  | (standard, variations) :: rest =>
      if mem column_lower variations then Some standard
      else if partial_match column_lower variations then Some standard
      else match_in rest column_lower
  end.

Definition fuzzy_match (column : string) : option string :=
  match_in STANDARD_COLUMNS (strip (lower column)).

(** [if matched:] on an [Optional[str]]. *)
Definition matched_name (matched : option string) : option string :=
  match matched with
  | Some m => if String.eqb m "" then None else Some m
  | None => None
  end.

(** The first pass: the mapping found by fuzzy matching and the columns
    left over. *)
Fixpoint first_pass (columns : list string) (mapping : anydict)
  (unmapped : list string) : anydict * list string :=
  match columns with
  | [] => (mapping, unmapped)
  | col :: rest =>
      match matched_name (fuzzy_match col) with
      | Some matched =>
          first_pass rest (aset mapping (VStr col) (VStr matched)) unmapped
      | None => first_pass rest mapping (unmapped ++ [col])
      end
  end.

(** One element of a sequence given to [dict.update]: it must itself be a
    sequence of length two, the key and the value.  A list of two elements
    is; so are a string of two characters and a dictionary of two keys, by
    their characters and their keys.  A sequence of another length raises
    [ValueError], what is no sequence raises [TypeError]. *)
Definition pair_of (item : value) : result (value * value) :=
  match item with
  | VList [k; v] => Ok (k, v)
  | VList _ => Raise ValueError
  | VStr s =>
      match characters s with
      | [k; v] => Ok (VStr k, VStr v)
      | _ => Raise ValueError
      end
  | VDict d =>
      match keys d with
      | [k; v] => Ok (VStr k, VStr v)
      | _ => Raise ValueError
      end
  | VNone | VBool _ | VInt _ | VFloat _ => Raise TypeError
  end.

(** [mapping.update(items)] for a sequence: the pairs are stored one after
    the other, and the mapping keeps what was stored before an element
    raised.  The result is the mapping as the call leaves it and the
    exception, if any. *)
Fixpoint update_items (mapping : anydict) (items : list value)
  : anydict * option exn :=
  match items with
  | [] => (mapping, None)
  | item :: rest =>
      match pair_of item with
      | Raise e => (mapping, Some e)
      | Ok (k, v) =>
          match setitem mapping k v with
          | Raise e => (mapping, Some e)
          | Ok mapping' => update_items mapping' rest
          end
      end
  end.

(** [mapping.update(other)] for a decoded JSON document: an object is merged
    key by key; a list and a string are taken as sequences of pairs; any
    other value is not iterable. *)
Definition update (mapping : anydict) (other : value) : anydict * option exn :=
  match other with
  | VDict d =>
      (fold_left (fun m kv => aset m (VStr (fst kv)) (snd kv)) d mapping, None)
  | VList items => update_items mapping items
  | VStr s => update_items mapping (map VStr (characters s))
  | VNone | VBool _ | VInt _ | VFloat _ => (mapping, Some TypeError)
  end.

(** The fallback of the [except] clause. *)
Definition mark_unknown (mapping : anydict) (unmapped : list string)
  : anydict :=
  fold_left (fun m col => aset m (VStr col) (VStr "unknown")) unmapped mapping.

(** [llm unmapped] stands for the body of the [try] up to [json.loads]: the
    call of the language model on the unmapped columns and the decoding of
    its answer, which gives a JSON document or the exception either of them
    raised.  The document is then merged by [update], still inside the
    [try]: when that raises, the fallback runs on the mapping as [update]
    left it. *)
Definition map_columns_with_llm (llm : list string -> result value)
  (columns : list string) : anydict :=
  let '(mapping, unmapped) := first_pass columns [] [] in
  match unmapped with
  | [] => mapping
  | _ :: _ =>
      match llm unmapped with
      | Ok llm_mapping =>
          match update mapping llm_mapping with
          | (mapping', None) => mapping'
          | (mapping', Some _) => mark_unknown mapping' unmapped
          end
      | Raise _ => mark_unknown mapping unmapped
      end
  end.

(** [std != "unknown"] *)
Definition is_unknown (std : value) : bool :=
  match std with
  | VStr s => String.eqb s "unknown"
  | _ => false
  end.

(** [{orig: std for orig, std in column_mapping.items() if std != "unknown"}] *)
Definition reverse_map (column_mapping : anydict) : anydict :=
  fold_left
    (fun m kv => if is_unknown (snd kv) then m else aset m (fst kv) (snd kv))
    column_mapping [].

(** The inner loop of [normalize_data] over the items of one row:
    [new_row[standard_col] = value] raises [TypeError] when the reverse map
    gives a list or a dictionary for the column. *)
Fixpoint normalize_items (reverse_map : anydict) (items : dict value)
  (new_row : anydict) : result anydict :=
  match items with
  | [] => Ok new_row
  | (orig_col, value) :: rest =>
      let standard_col :=
        aget_default reverse_map (VStr orig_col) (VStr orig_col) in
      new_row' <- setitem new_row standard_col value ;;
      normalize_items reverse_map rest new_row'
  end.

Definition normalize_row (reverse_map : anydict) (row : dict value)
  : result anydict :=
  normalize_items reverse_map row [].

Definition normalize_data (llm : list string -> result value)
  (data : list (dict value)) (column_mapping : option anydict)
  : result (list anydict) :=
  match data with
  | [] => Ok []
  | first :: _ =>
      let column_mapping :=
        match column_mapping with
        | Some m => m
        | None => map_columns_with_llm llm (keys first)
        end in
      map_result (normalize_row (reverse_map column_mapping)) data
  end.

End ColumnMapper.


(* ================================================================= *)
(** * graph.py: the summary node and the compiled workflow *)

Module InsightGraphSummary.

Import InsightGraph.

(** How a call that also looks up a key of the state can end: [KeyError] is
    the one exception the rule pipeline itself never raises. *)
Inductive outcome (A : Type) : Type :=
| Returned (a : A)
| Raised (e : exn)
| KeyError (key : string).

Arguments Returned {A} a.
Arguments Raised {A} e.
Arguments KeyError {A} key.

Definition AdStatus_eqb (a b : AdStatus) : bool :=
  match a, b with
  | PAUSE, PAUSE | FIX, FIX | TEST, TEST | KEEP, KEEP => true
  | _, _ => false
  end.

(** [sum(1 for ad in state["ad_insights"] if ad.status == s)] *)
Definition count_status (s : AdStatus) (ads : list AdInsight.t) : nat :=
  List.length (filter (fun ad => AdStatus_eqb (AdInsight.status ad) s) ads).

Definition nl : string := String (ascii_of_nat 10) EmptyString.

Definition str_of_nat (n : nat) : string := string_of_Z (Z.of_nat n).

(** The text of [summary_prompt]. *)
Definition summary_prompt (metrics : MetricsOverview)
  (high_priority pause_count fix_count test_count : nat) : string :=
  "Generate a concise executive summary (2-3 sentences) for this marketing analysis:"
    ++ nl ++ nl
    ++ "Total Spend: $" ++ format_f 2 (total_spend metrics) ++ nl
    ++ "Total Revenue: $" ++ format_f 2 (total_revenue metrics) ++ nl
    ++ "Overall ROAS: " ++ format_f 2 (overall_roas metrics) ++ nl
    ++ "Overall CTR: " ++ format_f 2 (overall_ctr metrics) ++ "%" ++ nl ++ nl
    ++ "High Priority Issues: " ++ str_of_nat high_priority ++ nl
    ++ "Ads to Pause: " ++ str_of_nat pause_count ++ nl
    ++ "Ads to Fix: " ++ str_of_nat fix_count ++ nl
    ++ "Ads to Test: " ++ str_of_nat test_count ++ nl ++ nl
    ++ "Focus on actionable insights and overall account health.".

(** [llm_invoke prompt] stands for [llm.invoke(summary_prompt)]: the content
    of the answer, or the exception the call raised.  An empty
    [metrics_overview] has no key to format. *)
Definition _generate_summary (llm_invoke : string -> result string)
  (state : AnalysisState) : outcome string :=
  let high_priority :=
    filter (fun i => String.eqb (InsightRecommendation.priority i) "high")
      (all_insights state) in
  let pause_count := count_status PAUSE (ad_insights state) in
  let fix_count := count_status FIX (ad_insights state) in
  let test_count := count_status TEST (ad_insights state) in
  match metrics_overview state with
  | None => KeyError "total_spend"
  | Some metrics =>
      match llm_invoke
              (summary_prompt metrics (List.length high_priority) pause_count
                 fix_count test_count) with
      | Ok content => Returned (strip content)
      | Raise e => Raised e
      end
  end.

(** [self.graph.invoke(initial_state)]: the nodes of [run], then the summary
    node; the final state and its summary. *)
Definition invoke (repr : value -> result string)
  (llm_invoke : string -> result string) (data : list (dict value))
  : outcome (AnalysisState * string) :=
  match run repr data with
  | Raise e => Raised e
  | Ok state =>
      match _generate_summary llm_invoke state with
      | Returned summary => Returned (state, summary)
      | Raised e => Raised e
      | KeyError key => KeyError key
      end
  end.

End InsightGraphSummary.

(* ================================================================= *)
(** * engine.py *)

Module AnalysisRequest.
Record t : Type := mk {
  data : list (dict value);
  column_mapping : option (dict string)
}.
End AnalysisRequest.

(** The entries of [execution_metadata] but the elapsed wall time. *)
Module ExecutionMetadata.
Record t : Type := mk {
  llm_model : string;
  total_ads_analyzed : nat;
  column_mapping : anydict;
  insights_generated : nat
}.
End ExecutionMetadata.

Module AnalysisResponse.
Record t : Type := mk {
  summary : string;
  insights : list InsightRecommendation.t;
  ad_insights : list AdInsight.t;
  metrics_overview : option InsightGraph.MetricsOverview;
  execution_metadata : ExecutionMetadata.t
}.
End AnalysisResponse.

Module InsightAgentEngine.

Import InsightGraphSummary.

(** Step 1 of [analyze]: the mapping used and the normalized records.  A
    mapping that is absent or empty is detected from the first record. *)
Definition normalize_columns (llm : list string -> result value)
  (request : AnalysisRequest.t) : result (anydict * list anydict) :=
  match AnalysisRequest.column_mapping request with
  | Some (kv :: m) =>
      let column_mapping := of_strs (kv :: m) in
      normalized_data <-
        ColumnMapper.normalize_data llm (AnalysisRequest.data request)
          (Some column_mapping) ;;
      Ok (column_mapping, normalized_data)
  | Some [] | None =>
      let columns :=
        match AnalysisRequest.data request with
        | first :: _ => keys first
        | [] => []
        end in
      let column_mapping := ColumnMapper.map_columns_with_llm llm columns in
      normalized_data <-
        ColumnMapper.normalize_data llm (AnalysisRequest.data request)
          (Some column_mapping) ;;
      Ok (column_mapping, normalized_data)
  end.

(** The nodes of the workflow read a record through [row.get] on a string
    only, so they are run on the items that stand under a [str] key. *)
Definition analyze (repr : value -> result string)
  (llm : list string -> result value)
  (llm_invoke : string -> result string) (llm_model : string)
  (request : AnalysisRequest.t) : outcome AnalysisResponse.t :=
  match normalize_columns llm request with
  | Raise e => Raised e
  | Ok (column_mapping, normalized_data) =>
      match invoke repr llm_invoke (map str_items normalized_data) with
      | Returned (result, summary) =>
          Returned
            (AnalysisResponse.mk summary
               (InsightGraph.all_insights result)
               (InsightGraph.ad_insights result)
               (InsightGraph.metrics_overview result)
               (ExecutionMetadata.mk llm_model (List.length normalized_data)
                  column_mapping
                  (List.length (InsightGraph.all_insights result))))
      | Raised e => Raised e
      | KeyError key => KeyError key
      end
  end.

End InsightAgentEngine.

(* ================================================================= *)
(** * Records of the specification's scenarios *)

(** A [repr] for the closed examples; none of them reaches it on a float or
    a container. *)
Definition repr_any : value -> result string := fun _ => Ok "".

(** The record of the precedence scenario. *)
Definition precedence_record : dict value :=
  [("roas", VFloat (lit 5 (-1))); ("spend", VInt 100);
   ("frequency", VInt 6); ("ctr", VFloat (lit 2 (-1)))].

(** A record that holds a roas and nothing else. *)
Definition roas_only (roas : float) : dict value := [("roas", VFloat roas)].

(** The record of the end-to-end scenario. *)
Definition scenario_record : dict value :=
  [("spend", VInt 1500); ("roas", VFloat (lit 18 (-1)));
   ("ctr", VFloat (lit 16 (-1))); ("frequency", VFloat (lit 28 (-1)));
   ("impressions", VInt 75000); ("purchases", VInt 45);
   ("purchase_value", VInt 2700); ("add_to_cart", VInt 120);
   ("atc_to_purchase", VFloat (lit 375 (-1)))].

(** A finding that carries nothing but a priority and a label. *)
Definition labelled (priority label : string) : InsightRecommendation.t :=
  InsightRecommendation.mk ROAS label "" priority [] [].

(** A record with a negative spend. *)
Definition refund_record : dict value :=
  [("spend", VInt (-10)); ("purchase_value", VInt 20)].

(** A language model that cannot be reached. *)
Definition llm_down : list string -> result value :=
  fun _ => Raise ValueError.

(** A finding that carries nothing but the ad it affects and a
    recommendation. *)
Definition finding_for (ad_id recommendation : string)
  : InsightRecommendation.t :=
  InsightRecommendation.mk ROAS "" recommendation "low" [ad_id] [].

(** Two raw columns, one of them known to no field, and a record over them. *)
Definition raw_columns : list string := ["Spend"; "Notes"].

Definition raw_record : dict value :=
  [("Spend", VInt 5); ("Notes", VStr "n/a")].

(** A record with infinite impressions and a low ctr. *)
Definition infinite_impressions_record : dict value :=
  [("ctr", VFloat (lit 5 (-1))); ("impressions", VStr "inf")].

(** The same with a ctr drop of 45.8. *)
Definition dropped_ctr_record : dict value :=
  [("ctr", VFloat (lit 5 (-1))); ("impressions", VStr "inf");
   ("ctr_drop", VFloat (lit 458 (-1)))].

(** A record with minus infinity for its cart adds. *)
Definition infinite_cart_record : dict value :=
  [("ctr", VInt 2); ("add_to_cart", VStr "-inf")].

(** A record with a frequency of 6. *)
Definition saturated_record : dict value := [("frequency", VInt 6)].

(** A high-priority finding for the ad without an id. *)
Definition urgent_finding (condition recommendation : string)
  : InsightRecommendation.t :=
  InsightRecommendation.mk CTR condition recommendation "high" ["unknown"] [].

(** A record in the test range of roas. *)
Definition midrange_record : dict value := [("roas", VFloat (lit 15 (-1)))].

(** A profitable record shown too often to people who do not click. *)
Definition fatigued_record : dict value :=
  [("roas", VInt 3); ("frequency", VInt 6); ("ctr", VFloat (lit 2 (-1)))].

(** A record that reports its spend and nothing else. *)
Definition spend_only_record : dict value := [("spend", VInt 100)].

(** A language model that answers with a mapping of its own for "Spend" and
    says nothing of the other columns. *)
Definition llm_overriding : list string -> result value :=
  fun _ => Ok (VDict [("Spend", VStr "roas")]).

(** A record with two columns for the same field. *)
Definition spend_and_cost_record : dict value :=
  [("Spend", VInt 5); ("Cost", VInt 9)].

(** The overview of no record at all. *)
Definition zero_overview : InsightGraph.MetricsOverview :=
  {| InsightGraph.total_spend := fzero;
     InsightGraph.total_revenue := fzero;
     InsightGraph.overall_roas := fzero;
     InsightGraph.total_purchases := fzero;
     InsightGraph.total_clicks := fzero;
     InsightGraph.total_impressions := fzero;
     InsightGraph.overall_ctr := fzero;
     InsightGraph.total_ads := 0 |}.

(** A language model that answers every prompt with the same text. *)
Definition llm_says (content : string) : string -> result string :=
  fun _ => Ok content.

(** The fields the analyzers, the aggregator and the decider read. *)
Definition metric_fields : list string :=
  ["roas"; "spend"; "frequency"; "ctr"; "ctr_7d"; "ctr_prev_7d"; "ctr_drop";
   "impressions"; "atc_to_purchase"; "add_to_cart"; "purchases";
   "purchase_value"; "clicks"].

(** An unprofitable record whose ctr is a list. *)
Definition uncoercible_ctr_record : dict value :=
  [("roas", VFloat (lit 5 (-1))); ("spend", VInt 100);
   ("ctr", VList [VInt 1])].

(** An unprofitable record whose id is an integer of 4301 digits. *)
Definition huge_id_record : dict value :=
  [("ad_id", VInt (10 ^ 4300)); ("roas", VFloat (lit 5 (-1)));
   ("spend", VInt 100)].

(** A record with an id, a name and a roas. *)
Definition identified_record (ad_id ad_name : value) (roas : float)
  : dict value :=
  [("ad_id", ad_id); ("ad_name", ad_name); ("roas", VFloat roas)].


(** A language model whose answer is a list: one pair, then a number. *)
Definition llm_malformed : list string -> result value :=
  fun _ => Ok (VList [VList [VStr "Spend"; VStr "roas"]; VInt 1]).

(** A language model that maps "Notes" to a list. *)
Definition llm_unhashable : list string -> result value :=
  fun _ => Ok (VDict [("Notes", VList [VStr "spend"])]).

(** The mapping of each column of a record to itself. *)
Definition identity_mapping (row : dict value) : dict string :=
  map (fun c => (c, c)) (keys row).
(* ================================================================= *)
(** * Properties *)

Arguments lit : simpl never.

(** ** The status cascade *)

Section StatusCascade.

Import StatusDecisionAgent.

Variable repr : value -> result string.

(** [decide_status] once its two texts are built and its four metrics are
    coerced. *)
Lemma decide_status_coerced (row : dict value)
  (insights : list InsightRecommendation.t) (ad_id ad_name : string)
  (roas ctr spend frequency : float) :
  str_field repr row "ad_id" = Ok ad_id ->
  str_field repr row "ad_name" = Ok ad_name ->
  _get_value row "roas" fzero = Ok roas ->
  _get_value row "ctr" fzero = Ok ctr ->
  _get_value row "spend" fzero = Ok spend ->
  _get_value row "frequency" fzero = Ok frequency ->
  decide_status repr row insights =
  let ad_insights := insights_for ad_id insights in
  let high :=
    filter (fun i => String.eqb (InsightRecommendation.priority i) "high")
      ad_insights in
  let c := cascade roas ctr spend frequency ad_insights high in
  Ok (AdInsight.mk ad_id ad_name
        (fst (fst c))
        (firstn 5 (default_recommendations (snd (fst c)) ad_insights))
        [("roas", roas); ("ctr", ctr); ("spend", spend);
         ("frequency", frequency)]
        (snd c)).
Proof.
  intros Hi Hn Hr Hc Hs Hf. unfold decide_status.
  rewrite Hi, Hn, Hr, Hc, Hs, Hf. cbn [bind].
  destruct (cascade roas ctr spend frequency _ _) as [[st recs] iss].
  reflexivity.
Qed.

(** A decision is returned only when the two texts were built and the four
    metrics were coerced. *)
Lemma decide_status_returns (row : dict value)
  (insights : list InsightRecommendation.t) (d : AdInsight.t) :
  decide_status repr row insights = Ok d ->
  exists ad_id ad_name roas ctr spend frequency,
    str_field repr row "ad_id" = Ok ad_id /\
    str_field repr row "ad_name" = Ok ad_name /\
    _get_value row "roas" fzero = Ok roas /\
    _get_value row "ctr" fzero = Ok ctr /\
    _get_value row "spend" fzero = Ok spend /\
    _get_value row "frequency" fzero = Ok frequency.
Proof.
  unfold decide_status. intros H.
  destruct (str_field repr row "ad_id") as [ad_id|]; [|discriminate].
  destruct (str_field repr row "ad_name") as [ad_name|]; [|discriminate].
  cbn [bind] in H.
  destruct (_get_value row "roas" fzero) as [roas|]; [|discriminate].
  destruct (_get_value row "ctr" fzero) as [ctr|]; [|discriminate].
  destruct (_get_value row "spend" fzero) as [spend|]; [|discriminate].
  destruct (_get_value row "frequency" fzero) as [frequency|]; [|discriminate].
  now exists ad_id, ad_name, roas, ctr, spend, frequency.
Qed.

(** C1. The first guard of the cascade comes first: on a record whose
    coerced roas is below 1.0 and whose coerced spend is above 50, every
    decision [decide_status] returns is a pause with the single issue
    "Unprofitable: ROAS <roas>", whatever the ctr, the frequency and the
    findings, and one is returned whenever the texts of [ad_id] and
    [ad_name] are built and ctr and frequency coerce.  It is not returned
    for every such record: a ctr that is the list [[1]] makes the coercion,
    and with it [decide_status], raise [TypeError], and an [ad_id] that is
    an integer of 4301 digits makes [str] raise [ValueError]. *)
Theorem C1_unprofitable_is_paused (insights : list InsightRecommendation.t) :
  (_get_value uncoercible_ctr_record "roas" fzero = Ok (lit 5 (-1)) /\
   _get_value uncoercible_ctr_record "spend" fzero = Ok (float_of_Z 100) /\
   flt (lit 5 (-1)) (lit 10 (-1)) = true /\
   fgt (float_of_Z 100) (lit 50 0) = true /\
   _get_value uncoercible_ctr_record "ctr" fzero = Raise TypeError /\
   decide_status repr uncoercible_ctr_record insights = Raise TypeError) /\
  (_get_value huge_id_record "roas" fzero = Ok (lit 5 (-1)) /\
   _get_value huge_id_record "spend" fzero = Ok (float_of_Z 100) /\
   str_field repr huge_id_record "ad_id" = Raise ValueError /\
   decide_status repr huge_id_record insights = Raise ValueError) /\
  forall (row : dict value) (roas spend : float),
    _get_value row "roas" fzero = Ok roas ->
    _get_value row "spend" fzero = Ok spend ->
    flt roas (lit 10 (-1)) = true ->
    fgt spend (lit 50 0) = true ->
    (forall ad_id ad_name ctr frequency,
        str_field repr row "ad_id" = Ok ad_id ->
        str_field repr row "ad_name" = Ok ad_name ->
        _get_value row "ctr" fzero = Ok ctr ->
        _get_value row "frequency" fzero = Ok frequency ->
        exists d, decide_status repr row insights = Ok d /\
                  AdInsight.status d = PAUSE /\
                  AdInsight.issues d
                  = ["Unprofitable: ROAS " ++ format_f 2 roas]) /\
    (forall d, decide_status repr row insights = Ok d ->
               AdInsight.status d = PAUSE /\
               AdInsight.issues d
               = ["Unprofitable: ROAS " ++ format_f 2 roas]) /\
    (forall e,
        _get_value row "ctr" fzero = Raise e \/
        _get_value row "frequency" fzero = Raise e ->
        exists e', decide_status repr row insights = Raise e').
Proof.
  split.
  { split; [|split; [|split; [|split; [|split]]]]; vm_compute; reflexivity. }
  split.
  { split; [|split; [|split]]; vm_compute; reflexivity. }
  intros row roas spend Hr Hs Hlt Hgt.
  assert (Hmain : forall ad_id ad_name ctr frequency,
             str_field repr row "ad_id" = Ok ad_id ->
             str_field repr row "ad_name" = Ok ad_name ->
             _get_value row "ctr" fzero = Ok ctr ->
             _get_value row "frequency" fzero = Ok frequency ->
             exists d, decide_status repr row insights = Ok d /\
                       AdInsight.status d = PAUSE /\
                       AdInsight.issues d
                       = ["Unprofitable: ROAS " ++ format_f 2 roas]).
  { intros ad_id ad_name ctr frequency Hi Hn Hc Hf.
    rewrite (decide_status_coerced row insights Hi Hn Hr Hc Hs Hf).
    cbv zeta. unfold cascade. rewrite Hlt, Hgt. cbn [andb fst snd].
    eexists. split; [reflexivity|]. split; reflexivity. }
  split; [exact Hmain|]. split.
  - intros d Hd.
    destruct (decide_status_returns _ _ Hd)
      as (ad_id & ad_name & roas' & ctr & spend' & frequency
          & Hi & Hn & _ & Hc & _ & Hf).
    destruct (Hmain ad_id ad_name ctr frequency Hi Hn Hc Hf)
      as (d' & Hd' & Hst & Hiss).
    rewrite Hd in Hd'. injection Hd' as <-. now split.
  - intros e He.
    destruct (decide_status repr row insights) as [d|e'] eqn:Hd;
      [|now exists e'].
    destruct (decide_status_returns _ _ Hd)
      as (ad_id & ad_name & roas' & ctr & spend' & frequency
          & _ & _ & _ & Hc & _ & Hf).
    destruct He as [He|He]; congruence.
Qed.

End StatusCascade.

(** The record of the scenario satisfies the second guard as well, and is
    paused by the first. *)
Lemma C1_precedence_record :
  (fgt (float_of_Z 6) (lit 50 (-1)) && flt (lit 2 (-1)) (lit 5 (-1))) = true /\
  exists d, StatusDecisionAgent.decide_status repr_any precedence_record [] = Ok d /\
            AdInsight.status d = PAUSE /\
            AdInsight.issues d = ["Unprofitable: ROAS 0.50"].
Proof.
  split; [vm_compute; reflexivity|].
  destruct (@C1_unprofitable_is_paused repr_any []) as (_ & _ & H).
  destruct (H precedence_record (lit 5 (-1)) (float_of_Z 100)
              ltac:(vm_compute; reflexivity) ltac:(vm_compute; reflexivity)
              ltac:(vm_compute; reflexivity) ltac:(vm_compute; reflexivity))
    as (H1 & _).
  destruct (H1 "unknown" "unknown" (lit 2 (-1)) (float_of_Z 6)
              ltac:(vm_compute; reflexivity) ltac:(vm_compute; reflexivity)
              ltac:(vm_compute; reflexivity) ltac:(vm_compute; reflexivity))
    as (d & Hd & Hst & Hiss).
  exists d. split; [exact Hd|]. split; [exact Hst|].
  rewrite Hiss. vm_compute. reflexivity.
Defined.

(** ** The analyzers' loop *)

Lemma for_each_map_result {A B : Type} (body : A -> result (list B))
  (data : list A) (insights : list B) :
  for_each body data insights
  = (news <- map_result body data ;; Ok (insights ++ List.concat news)%list).
Proof.
  revert insights. induction data as [|row rest IH]; intros insights; cbn.
  - now rewrite app_nil_r.
  - destruct (body row) as [new|e]; cbn; [|reflexivity].
    rewrite IH. destruct (map_result body rest) as [news|e]; cbn; [|reflexivity].
    now rewrite app_assoc.
Qed.

Lemma for_each_single {A B : Type} (body : A -> result (list B)) (row : A) :
  for_each body [row] [] = body row.
Proof. cbn. destruct (body row) as [new|e]; reflexivity. Qed.

Lemma map_result_Ok_Forall2 {A B : Type} (f : A -> result B) (l : list A)
  (ys : list B) :
  map_result f l = Ok ys -> Forall2 (fun x y => f x = Ok y) l ys.
Proof.
  revert ys. induction l as [|x l IH]; intros ys H; cbn in H.
  - injection H as <-. constructor.
  - destruct (f x) as [y|e] eqn:Hx; cbn in H; [|discriminate].
    destruct (map_result f l) as [ys'|e] eqn:Hl; cbn in H; [|discriminate].
    injection H as <-. constructor; auto.
Qed.

Lemma map_result_total {A B : Type} (f : A -> result B) (l : list A) :
  (forall x, In x l -> exists y, f x = Ok y) ->
  exists ys, map_result f l = Ok ys.
Proof.
  induction l as [|x l IH]; intros H; cbn.
  - now exists [].
  - destruct (H x (or_introl eq_refl)) as [y ->].
    destruct IH as [ys ->]; [intros; apply H; now right|].
    now exists (y :: ys).
Qed.

(** ** The ROAS analyzer at its bounds *)

Section ROASBoundaries.

Variable repr : value -> result string.

Lemma ROAS_analyze_row_coerced (row : dict value) (roas spend frequency : float) :
  _get_value row "roas" fzero = Ok roas ->
  _get_value row "spend" fzero = Ok spend ->
  _get_value row "frequency" fzero = Ok frequency ->
  ROASAgent.analyze repr [row] =
  (ad_id <- str_field repr row "ad_id" ;;
   if fle (lit 10 (-1)) roas && fle roas (lit 20 (-1)) then
     Ok [InsightRecommendation.mk ROAS
           ("ROAS " ++ format_f 2 roas ++ " (1-2 range)")
           "Test 2-3 new hooks/thumbnails; rotate in new ad creative; cap frequency to avoid fatigue"
           "high" [ad_id]
           [("roas", roas); ("spend", spend); ("frequency", frequency)]]
   else if flt roas (lit 10 (-1)) && fgt spend (lit 50 0) then
     Ok [InsightRecommendation.mk ROAS
           ("ROAS " ++ format_f 2 roas ++ " (unprofitable)")
           "Pause immediately or reduce budget by 75%; audit targeting and creative quality"
           "high" [ad_id]
           [("roas", roas); ("spend", spend)]]
   else if fgt roas (lit 30 (-1)) then
     Ok [InsightRecommendation.mk ROAS
           ("ROAS " ++ format_f 2 roas ++ " (high performance)")
           "Scale budget by 20-30%; create lookalike audiences; duplicate winning creative"
           "medium" [ad_id]
           [("roas", roas); ("spend", spend)]]
   else Ok []).
Proof.
  intros Hr Hs Hf. unfold ROASAgent.analyze. rewrite for_each_single.
  unfold ROASAgent.analyze_row. rewrite Hr, Hs, Hf. reflexivity.
Qed.

(** C2. On a record whose roas coerces to exactly 1.0 or exactly 2.0 the
    ROAS analyzer emits the high-priority "1-2 range" finding with the
    test-new-creatives recommendation; at 2.0001 it emits nothing; at
    exactly 3.0 it emits nothing, so no high-performance finding; at 3.0001
    it emits the medium-priority high-performance finding.  The finding
    names the text of the record's [ad_id]; when that text cannot be built,
    the analyzer raises what [str] raised, at any roas. *)
Theorem C2_roas_boundaries (row : dict value) (roas spend frequency : float) :
  _get_value row "roas" fzero = Ok roas ->
  _get_value row "spend" fzero = Ok spend ->
  _get_value row "frequency" fzero = Ok frequency ->
  (forall ad_id,
      str_field repr row "ad_id" = Ok ad_id ->
      (roas = lit 10 (-1) \/ roas = lit 20 (-1) ->
       exists f, ROASAgent.analyze repr [row] = Ok [f] /\
                 InsightRecommendation.priority f = "high" /\
                 InsightRecommendation.condition f
                 = "ROAS " ++ format_f 2 roas ++ " (1-2 range)" /\
                 InsightRecommendation.recommendation f
                 = "Test 2-3 new hooks/thumbnails; rotate in new ad creative; cap frequency to avoid fatigue" /\
                 InsightRecommendation.affected_ads f = [ad_id]) /\
      (roas = lit 20001 (-4) -> ROASAgent.analyze repr [row] = Ok []) /\
      (roas = lit 30 (-1) -> ROASAgent.analyze repr [row] = Ok []) /\
      (roas = lit 30001 (-4) ->
       exists f, ROASAgent.analyze repr [row] = Ok [f] /\
                 InsightRecommendation.priority f = "medium" /\
                 InsightRecommendation.condition f
                 = "ROAS " ++ format_f 2 roas ++ " (high performance)" /\
                 InsightRecommendation.affected_ads f = [ad_id])) /\
  (forall e,
      str_field repr row "ad_id" = Raise e ->
      ROASAgent.analyze repr [row] = Raise e).
Proof.
  intros Hr Hs Hf.
  rewrite (ROAS_analyze_row_coerced row Hr Hs Hf).
  split; [|intros e ->; reflexivity].
  intros ad_id ->. cbn [bind].
  split; [|split; [|split]].
  - intros [-> | ->].
    + replace (fle (lit 10 (-1)) (lit 10 (-1))) with true
        by (vm_compute; reflexivity).
      replace (fle (lit 10 (-1)) (lit 20 (-1))) with true
        by (vm_compute; reflexivity).
      cbn [andb]. eexists. repeat split.
    + replace (fle (lit 10 (-1)) (lit 20 (-1))) with true
        by (vm_compute; reflexivity).
      replace (fle (lit 20 (-1)) (lit 20 (-1))) with true
        by (vm_compute; reflexivity).
      cbn [andb]. eexists. repeat split.
  - intros ->.
    replace (fle (lit 20001 (-4)) (lit 20 (-1))) with false
      by (vm_compute; reflexivity).
    replace (flt (lit 20001 (-4)) (lit 10 (-1))) with false
      by (vm_compute; reflexivity).
    replace (fgt (lit 20001 (-4)) (lit 30 (-1))) with false
      by (vm_compute; reflexivity).
    rewrite andb_false_r. reflexivity.
  - intros ->.
    replace (fle (lit 30 (-1)) (lit 20 (-1))) with false
      by (vm_compute; reflexivity).
    replace (flt (lit 30 (-1)) (lit 10 (-1))) with false
      by (vm_compute; reflexivity).
    replace (fgt (lit 30 (-1)) (lit 30 (-1))) with false
      by (vm_compute; reflexivity).
    rewrite andb_false_r. reflexivity.
  - intros ->.
    replace (fle (lit 30001 (-4)) (lit 20 (-1))) with false
      by (vm_compute; reflexivity).
    replace (flt (lit 30001 (-4)) (lit 10 (-1))) with false
      by (vm_compute; reflexivity).
    replace (fgt (lit 30001 (-4)) (lit 30 (-1))) with true
      by (vm_compute; reflexivity).
    rewrite andb_false_r. cbn [andb]. eexists. repeat split.
Qed.

End ROASBoundaries.

(** The five boundary records, each holding its roas and nothing else, and a
    record at the lower bound whose id is the integer 7. *)
Lemma C2_boundary_records :
  (exists f, ROASAgent.analyze repr_any [roas_only (lit 10 (-1))] = Ok [f] /\
             InsightRecommendation.priority f = "high" /\
             InsightRecommendation.condition f = "ROAS 1.00 (1-2 range)") /\
  (exists f, ROASAgent.analyze repr_any [roas_only (lit 20 (-1))] = Ok [f] /\
             InsightRecommendation.priority f = "high" /\
             InsightRecommendation.condition f = "ROAS 2.00 (1-2 range)") /\
  ROASAgent.analyze repr_any [roas_only (lit 20001 (-4))] = Ok [] /\
  ROASAgent.analyze repr_any [roas_only (lit 30 (-1))] = Ok [] /\
  (exists f, ROASAgent.analyze repr_any [roas_only (lit 30001 (-4))] = Ok [f] /\
             InsightRecommendation.priority f = "medium" /\
             InsightRecommendation.condition f = "ROAS 3.00 (high performance)") /\
  (exists f, ROASAgent.analyze repr_any
               [identified_record (VInt 7) (VStr "Spring") (lit 10 (-1))]
             = Ok [f] /\
             InsightRecommendation.affected_ads f = ["7"]).
Proof.
  pose proof (fun r H =>
    proj1 (@C2_roas_boundaries repr_any (roas_only r) r fzero fzero
             H eq_refl eq_refl) "unknown" eq_refl) as C.
  destruct (C (lit 10 (-1)) ltac:(vm_compute; reflexivity)) as (H1 & _).
  destruct (C (lit 20 (-1)) ltac:(vm_compute; reflexivity)) as (H2 & _).
  destruct (C (lit 20001 (-4)) ltac:(vm_compute; reflexivity)) as (_ & H3 & _).
  destruct (C (lit 30 (-1)) ltac:(vm_compute; reflexivity)) as (_ & _ & H4 & _).
  destruct (C (lit 30001 (-4)) ltac:(vm_compute; reflexivity)) as (_ & _ & _ & H5).
  destruct (H1 (or_introl eq_refl)) as (f1 & E1 & P1 & C1 & _).
  destruct (H2 (or_intror eq_refl)) as (f2 & E2 & P2 & C2 & _).
  destruct (H5 eq_refl) as (f5 & E5 & P5 & C5 & _).
  destruct (proj1 (@C2_roas_boundaries repr_any
                     (identified_record (VInt 7) (VStr "Spring") (lit 10 (-1)))
                     (lit 10 (-1)) fzero fzero
                     ltac:(vm_compute; reflexivity) eq_refl eq_refl)
              "7" ltac:(vm_compute; reflexivity)) as (H6 & _).
  destruct (H6 (or_introl eq_refl)) as (f6 & E6 & _ & _ & _ & A6).
  split; [|split; [|split; [|split; [|split]]]].
  - exists f1. repeat split; [exact E1 | exact P1 | rewrite C1; vm_compute; reflexivity].
  - exists f2. repeat split; [exact E2 | exact P2 | rewrite C2; vm_compute; reflexivity].
  - exact (H3 eq_refl).
  - exact (H4 eq_refl).
  - exists f5. repeat split; [exact E5 | exact P5 | rewrite C5; vm_compute; reflexivity].
  - exists f6. split; [exact E6 | exact A6].
Defined.

(** ** The stable sort *)

Section StableSort.

Context {A : Type}.
Variable key : A -> nat.

Local Abbreviation key_le := (fun a b : A => key a <= key b).

Lemma insert_by_perm (x : A) (l : list A) :
  Permutation (x :: l) (insert_by key x l).
Proof.
  induction l as [|y l IH]; cbn; [reflexivity|].
  destruct (key x <=? key y)%nat; [reflexivity|].
  rewrite perm_swap. now constructor.
Qed.

Lemma sort_by_perm (l : list A) : Permutation l (sort_by key l).
Proof.
  induction l as [|x l IH]; cbn; [constructor|].
  rewrite <- insert_by_perm. now constructor.
Qed.

Lemma insert_by_sorted (x : A) (l : list A) :
  StronglySorted key_le l -> StronglySorted key_le (insert_by key x l).
Proof.
  induction 1 as [|y l Hs IH Hy]; cbn.
  - repeat constructor.
  - destruct (key x <=? key y)%nat eqn:E.
    + apply Nat.leb_le in E. constructor; [now constructor|].
      constructor; [exact E|].
      eapply Forall_impl; [|exact Hy]. cbv beta. intros; lia.
    + apply Nat.leb_gt in E. constructor; [exact IH|].
      eapply Permutation_Forall; [apply insert_by_perm|].
      constructor; [cbv beta; lia | exact Hy].
Qed.

Lemma sort_by_sorted (l : list A) : StronglySorted key_le (sort_by key l).
Proof.
  induction l as [|x l IH]; cbn; [constructor|].
  now apply insert_by_sorted.
Qed.

(** Inserting [x] passes only elements of a strictly smaller key, so among
    the elements of any one key [x] stays first. *)
Lemma filter_insert_by (k : nat) (x : A) (l : list A) :
  filter (fun a => key a =? k)%nat (insert_by key x l)
  = filter (fun a => key a =? k)%nat (x :: l).
Proof.
  induction l as [|y l IH]; [reflexivity|].
  cbn [insert_by]. destruct (key x <=? key y)%nat eqn:E; [reflexivity|].
  apply Nat.leb_gt in E.
  cbn [filter] in *. rewrite IH.
  destruct (key x =? k)%nat eqn:Ex, (key y =? k)%nat eqn:Ey; try reflexivity.
  apply Nat.eqb_eq in Ex, Ey. lia.
Qed.

Lemma sort_by_stable (k : nat) (l : list A) :
  filter (fun a => key a =? k)%nat (sort_by key l)
  = filter (fun a => key a =? k)%nat l.
Proof.
  induction l as [|x l IH]; [reflexivity|].
  cbn [sort_by]. rewrite filter_insert_by. cbn [filter]. now rewrite IH.
Qed.

(** Two lists ordered by key with the same elements of each key, in the
    same order, are equal. *)
Lemma sorted_classes_unique (l1 l2 : list A) :
  StronglySorted key_le l1 -> StronglySorted key_le l2 ->
  (forall k, filter (fun a => key a =? k)%nat l1
             = filter (fun a => key a =? k)%nat l2) ->
  l1 = l2.
Proof.
  intros H1. revert l2.
  induction H1 as [|x l1 Hs1 IH Hx]; intros l2 H2 Hf.
  - destruct l2 as [|y l2]; [reflexivity|].
    specialize (Hf (key y)). cbn in Hf. rewrite Nat.eqb_refl in Hf.
    discriminate.
  - destruct H2 as [|y l2 Hs2 Hy].
    { specialize (Hf (key x)). cbn in Hf. rewrite Nat.eqb_refl in Hf.
      discriminate. }
    assert (Hnone : forall (z : A) (l : list A) (k : nat),
               Forall (key_le z) l -> k < key z ->
               filter (fun a => key a =? k)%nat (z :: l) = []).
    { intros z l k Hz Hk. cbn [filter].
      destruct (key z =? k)%nat eqn:E; [apply Nat.eqb_eq in E; lia|].
      induction Hz as [|a l Ha Hz IHz]; [reflexivity|]. cbn [filter].
      cbv beta in Ha.
      destruct (key a =? k)%nat eqn:E'; [apply Nat.eqb_eq in E'; lia|].
      exact IHz. }
    assert (Hk : key x = key y).
    { destruct (Nat.lt_trichotomy (key x) (key y)) as [Hlt|[Heq|Hlt]];
        [|exact Heq|].
      - specialize (Hf (key x)). rewrite (Hnone y l2 (key x) Hy Hlt) in Hf.
        cbn in Hf. rewrite Nat.eqb_refl in Hf. discriminate.
      - specialize (Hf (key y)). rewrite (Hnone x l1 (key y) Hx Hlt) in Hf.
        cbn in Hf. rewrite Nat.eqb_refl in Hf. discriminate. }
    pose proof (Hf (key x)) as Hhead. cbn [filter] in Hhead.
    rewrite <- Hk, Nat.eqb_refl in Hhead. injection Hhead as -> Htail.
    f_equal. apply IH; [exact Hs2|].
    intros k. specialize (Hf k). cbn [filter] in Hf.
    destruct (key y =? k)%nat eqn:E; [|exact Hf].
    apply Nat.eqb_eq in E. subst k. exact Htail.
Qed.

(** So [sort_by] is the only stable sort. *)
Lemma sort_by_unique (l l' : list A) :
  StronglySorted key_le l' ->
  (forall k, filter (fun a => key a =? k)%nat l'
             = filter (fun a => key a =? k)%nat l) ->
  l' = sort_by key l.
Proof.
  intros Hs Hf. apply sorted_classes_unique; [exact Hs|apply sort_by_sorted|].
  intros k. now rewrite sort_by_stable.
Qed.

(** The same for any class of elements that share one key. *)
Lemma sort_by_stable_class (p : A -> bool) (k : nat) (l : list A) :
  (forall a, p a = true -> key a = k) ->
  filter p (sort_by key l) = filter p l.
Proof.
  intros Hp.
  assert (F : forall l', filter p l'
                         = filter p (filter (fun a => key a =? k)%nat l')).
  { induction l' as [|a l' IH]; [reflexivity|]. cbn [filter].
    destruct (p a) eqn:Ea.
    - rewrite (proj2 (Nat.eqb_eq _ _) (Hp a Ea)). cbn [filter].
      now rewrite Ea, IH.
    - destruct (key a =? k)%nat; cbn [filter]; now rewrite ?Ea, IH. }
  now rewrite (F (sort_by key l)), sort_by_stable, <- F.
Qed.

End StableSort.

(** ** The merge step of the aggregator *)

Section Aggregation.

Import InsightGraph.

Lemma priority_rank_of (x : InsightRecommendation.t) (p : string) :
  InsightRecommendation.priority x = p ->
  priority_rank x = dget_default priority_order p 3%nat.
Proof. intros <-. reflexivity. Qed.

Lemma aggregate_all_insights (state state' : AnalysisState) :
  _aggregate_insights state = Ok state' ->
  all_insights state' = merged_insights state.
Proof.
  unfold _aggregate_insights. intros H.
  destruct (overview (normalized_data state)) as [m|e]; cbn in H;
    [|discriminate].
  now injection H as <-.
Qed.

(** C3. The aggregation step leaves in [all_insights] the findings of the
    ROAS, CTR, conversion and frequency analyzers, concatenated in that
    order and sorted by the rank high = 0, medium = 1, low = 2, anything
    else = 3.  The result is a permutation of the concatenation, ordered by
    rank, and the findings of one rank (so those of one priority) stand in
    the order they had in the concatenation.  Priorities low, high, medium,
    high come out as high, high, medium, low, the two highs in their
    original order. *)
Theorem C3_merge_is_stable_sort (state : AnalysisState) :
  let concatenated :=
    (roas_insights state ++ ctr_insights state
       ++ conversion_insights state ++ frequency_insights state)%list in
  (forall state', _aggregate_insights state = Ok state' ->
                  all_insights state' = merged_insights state) /\
  merged_insights state = sort_by priority_rank concatenated /\
  Permutation concatenated (merged_insights state) /\
  StronglySorted (fun a b => priority_rank a <= priority_rank b)
    (merged_insights state) /\
  (forall k,
      filter (fun x => priority_rank x =? k)%nat (merged_insights state)
      = filter (fun x => priority_rank x =? k)%nat concatenated) /\
  (forall p,
      filter (fun x => String.eqb (InsightRecommendation.priority x) p)
        (merged_insights state)
      = filter (fun x => String.eqb (InsightRecommendation.priority x) p)
          concatenated) /\
  (forall x,
      priority_rank x
      = if String.eqb (InsightRecommendation.priority x) "high" then 0
        else if String.eqb (InsightRecommendation.priority x) "medium" then 1
        else if String.eqb (InsightRecommendation.priority x) "low" then 2
        else 3)%nat /\
  sort_by priority_rank
    [labelled "low" "a"; labelled "high" "b"; labelled "medium" "c";
     labelled "high" "d"]
  = [labelled "high" "b"; labelled "high" "d"; labelled "medium" "c";
     labelled "low" "a"].
Proof.
  cbv zeta.
  assert (E : merged_insights state
              = sort_by priority_rank
                  (roas_insights state ++ ctr_insights state
                     ++ conversion_insights state
                     ++ frequency_insights state)%list).
  { unfold merged_insights. cbn [app]. now rewrite <- !app_assoc. }
  split; [intros state'; apply aggregate_all_insights|].
  split; [exact E|]. rewrite E.
  split; [apply sort_by_perm|].
  split; [apply sort_by_sorted|].
  split; [intros k; apply sort_by_stable|].
  split.
  { intros p.
    apply sort_by_stable_class with (k := dget_default priority_order p 3%nat).
    intros a Ha. apply String.eqb_eq in Ha. now apply priority_rank_of. }
  split; [|reflexivity].
  intros x. unfold priority_rank, priority_order, dget_default. cbn [dget].
  destruct (String.eqb (InsightRecommendation.priority x) "high");
    [reflexivity|].
  destruct (String.eqb (InsightRecommendation.priority x) "medium");
    [reflexivity|].
  destruct (String.eqb (InsightRecommendation.priority x) "low"); reflexivity.
Qed.

End Aggregation.

(** ** Coercion never raises a division error *)

Lemma float_of_value_exn (v : value) (e : exn) :
  float_of_value v = Raise e ->
  e = TypeError \/ e = OverflowError \/ (e = ValueError /\ exists s, v = VStr s).
Proof.
  destruct v as [|b|z|f|s|l|d]; cbn; intros H; try discriminate;
    try (injection H as <-; now left).
  - unfold float_of_int in H. destruct (float_of_Z z); try discriminate.
    injection H as <-. right. now left.
  - destruct (float_of_str s); [discriminate|]. injection H as <-.
    right. right. split; [reflexivity|]. now exists s.
Qed.

Lemma _get_value_exn (row : dict value) (key : string) (default : float)
  (e : exn) :
  _get_value row key default = Raise e -> e = TypeError \/ e = OverflowError.
Proof.
  unfold _get_value.
  destruct (dget_default row key (VFloat default)) as [|b|z|f|s|l|d] eqn:E;
    try (destruct (truthy _); [|discriminate]; intros H;
         apply float_of_value_exn in H;
         destruct H as [H|[H|[_ [s' H]]]]; [now left | now right | discriminate]).
  destruct (float_of_value _); discriminate.
Qed.

(** A positive float is not zero. *)
Lemma fgt_zero_not_zero (x : float) : fgt x fzero = true -> feq x fzero = false.
Proof. destruct x as [[|]|[|]| |[|] m e]; cbn; congruence. Qed.

Lemma feq_zero_not_positive (x : float) : feq x fzero = true -> fgt x fzero = false.
Proof. destruct x as [[|]|[|]| |[|] m e]; cbn; congruence. Qed.

Lemma truediv_guarded (a b : float) :
  fgt b fzero = true -> truediv a b = Ok (fdiv a b).
Proof. intros H. unfold truediv. now rewrite (fgt_zero_not_zero _ H). Qed.

(** ** The account-level metrics *)

Section Overview.

Import InsightGraph.

Lemma total_exn (data : list (dict value)) (key : string) (e : exn) :
  total data key = Raise e -> e = TypeError \/ e = OverflowError.
Proof.
  unfold total.
  assert (M : forall l, map_result (fun row => _get_value row key fzero) l
                        = Raise e -> e = TypeError \/ e = OverflowError).
  { induction l as [|row l IH]; cbn; [discriminate|].
    destruct (_get_value row key fzero) as [x|e'] eqn:Ex; cbn.
    - destruct (map_result _ l) as [xs|e''] eqn:El; cbn; [discriminate|].
      intros H. injection H as ->. now apply IH.
    - intros H. injection H as ->. eapply _get_value_exn; eassumption. }
  destruct (map_result _ data) as [xs|e'] eqn:Ed; cbn; [discriminate|].
  intros H. injection H as ->. exact (M _ Ed).
Qed.

Lemma overview_coerced (data : list (dict value))
  (ts tr tp tc ti : float) :
  total data "spend" = Ok ts ->
  total data "purchase_value" = Ok tr ->
  total data "purchases" = Ok tp ->
  total data "clicks" = Ok tc ->
  total data "impressions" = Ok ti ->
  overview data
  = Ok {| total_spend := ts;
          total_revenue := tr;
          overall_roas := if fgt ts fzero then fdiv tr ts else fzero;
          total_purchases := tp;
          total_clicks := tc;
          total_impressions := ti;
          overall_ctr :=
            if fgt ti fzero then fmul (fdiv tc ti) (lit 100 0) else fzero;
          total_ads := List.length data |}.
Proof.
  intros Hs Hr Hp Hc Hi. unfold overview.
  rewrite Hs, Hr, Hp, Hc, Hi. cbn [bind].
  change (lit 0 0) with fzero.
  destruct (fgt ts fzero) eqn:Es, (fgt ti fzero) eqn:Ei;
    rewrite ?(truediv_guarded tr ts Es), ?(truediv_guarded tc ti Ei);
    reflexivity.
Qed.

Lemma overview_totals (data : list (dict value)) (m : MetricsOverview) :
  overview data = Ok m ->
  total data "spend" = Ok (total_spend m) /\
  total data "purchase_value" = Ok (total_revenue m) /\
  total data "purchases" = Ok (total_purchases m) /\
  total data "clicks" = Ok (total_clicks m) /\
  total data "impressions" = Ok (total_impressions m).
Proof.
  intros H.
  destruct (total data "spend") as [ts|] eqn:Hs;
    [|unfold overview in H; rewrite Hs in H; discriminate].
  destruct (total data "purchase_value") as [tr|] eqn:Hr;
    [|unfold overview in H; rewrite Hs, Hr in H; discriminate].
  destruct (total data "purchases") as [tp|] eqn:Hp;
    [|unfold overview in H; rewrite Hs, Hr, Hp in H; discriminate].
  destruct (total data "clicks") as [tc|] eqn:Hc;
    [|unfold overview in H; rewrite Hs, Hr, Hp, Hc in H; discriminate].
  destruct (total data "impressions") as [ti|] eqn:Hi;
    [|unfold overview in H; rewrite Hs, Hr, Hp, Hc, Hi in H; discriminate].
  rewrite (overview_coerced data Hs Hr Hp Hc Hi) in H. injection H as <-.
  cbn. repeat split; reflexivity.
Qed.

Lemma overview_exn (data : list (dict value)) (e : exn) :
  overview data = Raise e -> e = TypeError \/ e = OverflowError.
Proof.
  intros H.
  destruct (total data "spend") as [ts|e1] eqn:Hs;
    [|unfold overview in H; rewrite Hs in H; injection H as ->;
      eapply total_exn; eassumption].
  destruct (total data "purchase_value") as [tr|e1] eqn:Hr;
    [|unfold overview in H; rewrite Hs, Hr in H; injection H as ->;
      eapply total_exn; eassumption].
  destruct (total data "purchases") as [tp|e1] eqn:Hp;
    [|unfold overview in H; rewrite Hs, Hr, Hp in H; injection H as ->;
      eapply total_exn; eassumption].
  destruct (total data "clicks") as [tc|e1] eqn:Hc;
    [|unfold overview in H; rewrite Hs, Hr, Hp, Hc in H; injection H as ->;
      eapply total_exn; eassumption].
  destruct (total data "impressions") as [ti|e1] eqn:Hi;
    [|unfold overview in H; rewrite Hs, Hr, Hp, Hc, Hi in H;
      injection H as ->; eapply total_exn; eassumption].
  rewrite (overview_coerced data Hs Hr Hp Hc Hi) in H. discriminate.
Qed.

(** C4, as the code has it.  The aggregation step never raises a division
    error, on any record list.  When it returns, [overall_roas] is
    [total_revenue / total_spend] if the summed spend is greater than 0 and
    0 otherwise, and [overall_ctr] is [total_clicks / total_impressions * 100]
    if the summed impressions are greater than 0 and 0 otherwise; so a sum
    that is 0 gives 0, and so does one that is negative or not a number.
    It returns whenever the five summed fields of every record coerce, and
    on the empty list every metric is 0. *)
Theorem C4_division_is_guarded (state : AnalysisState) :
  (forall e, _aggregate_insights state = Raise e -> e <> ZeroDivisionError) /\
  (forall state',
      _aggregate_insights state = Ok state' ->
      exists m,
        metrics_overview state' = Some m /\
        total (normalized_data state) "spend" = Ok (total_spend m) /\
        total (normalized_data state) "purchase_value" = Ok (total_revenue m) /\
        total (normalized_data state) "clicks" = Ok (total_clicks m) /\
        total (normalized_data state) "impressions"
        = Ok (total_impressions m) /\
        overall_roas m
        = (if fgt (total_spend m) fzero
           then fdiv (total_revenue m) (total_spend m) else fzero) /\
        overall_ctr m
        = (if fgt (total_impressions m) fzero
           then fmul (fdiv (total_clicks m) (total_impressions m)) (lit 100 0)
           else fzero) /\
        (feq (total_spend m) fzero = true -> overall_roas m = fzero) /\
        (feq (total_impressions m) fzero = true -> overall_ctr m = fzero)) /\
  ((forall row key,
       In row (normalized_data state) ->
       In key ["spend"; "purchase_value"; "purchases"; "clicks"; "impressions"] ->
       exists x, _get_value row key fzero = Ok x) ->
   exists state', _aggregate_insights state = Ok state') /\
  (normalized_data state = [] ->
   exists state',
     _aggregate_insights state = Ok state' /\
     metrics_overview state'
     = Some {| total_spend := fzero; total_revenue := fzero;
               overall_roas := fzero; total_purchases := fzero;
               total_clicks := fzero; total_impressions := fzero;
               overall_ctr := fzero; total_ads := 0 |}).
Proof.
  split; [|split; [|split]].
  - intros e H. unfold _aggregate_insights in H.
    destruct (overview (normalized_data state)) as [m|e'] eqn:Ho;
      cbn in H; [discriminate|].
    injection H as ->. destruct (overview_exn _ Ho) as [-> | ->]; discriminate.
  - intros state' H. unfold _aggregate_insights in H.
    destruct (overview (normalized_data state)) as [m|e'] eqn:Ho;
      cbn in H; [|discriminate].
    injection H as <-. exists m. cbn [metrics_overview].
    destruct (overview_totals _ Ho) as (Hs & Hr & Hp & Hc & Hi).
    rewrite (overview_coerced _ Hs Hr Hp Hc Hi) in Ho. injection Ho as Hm.
    assert (R : overall_roas m
                = if fgt (total_spend m) fzero
                  then fdiv (total_revenue m) (total_spend m) else fzero)
      by (rewrite <- Hm at 1; reflexivity).
    assert (C : overall_ctr m
                = if fgt (total_impressions m) fzero
                  then fmul (fdiv (total_clicks m) (total_impressions m))
                         (lit 100 0)
                  else fzero)
      by (rewrite <- Hm at 1; reflexivity).
    split; [reflexivity|].
    split; [exact Hs|]. split; [exact Hr|]. split; [exact Hc|].
    split; [exact Hi|]. split; [exact R|]. split; [exact C|].
    split; intros Z; [rewrite R | rewrite C];
      now rewrite (feq_zero_not_positive _ Z).
  - intros Hall.
    assert (T : forall key,
               In key ["spend"; "purchase_value"; "purchases"; "clicks";
                       "impressions"] ->
               exists t, total (normalized_data state) key = Ok t).
    { intros key Hk. unfold total.
      destruct (map_result_total (fun row => _get_value row key fzero)
                  (normalized_data state)) as [xs ->];
        [intros row Hr; now apply Hall|].
      now exists (sum xs). }
    destruct (T "spend") as [ts E1]; [cbn; tauto|].
    destruct (T "purchase_value") as [tr E2]; [cbn; tauto|].
    destruct (T "purchases") as [tp E3]; [cbn; tauto|].
    destruct (T "clicks") as [tc E4]; [cbn; tauto|].
    destruct (T "impressions") as [ti E5]; [cbn; tauto|].
    unfold _aggregate_insights.
    rewrite (overview_coerced _ E1 E2 E3 E4 E5). cbn [bind].
    eexists. reflexivity.
  - intros E. unfold _aggregate_insights. rewrite E.
    eexists. split; reflexivity.
Qed.

End Overview.

(** C4 as stated fails on a single record with spend -10 and purchase value
    20: the summed spend, -10, is not 0, yet the reported [overall_roas] is 0
    and not the quotient 20 / -10 = -2. *)
Lemma C4_negative_total_spend :
  exists state' m,
    InsightGraph._aggregate_insights (InsightGraph.initial_state [refund_record])
    = Ok state' /\
    InsightGraph.metrics_overview state' = Some m /\
    InsightGraph.total_spend m = lit (-10) 0 /\
    feq (InsightGraph.total_spend m) fzero = false /\
    InsightGraph.overall_roas m = fzero /\
    fdiv (InsightGraph.total_revenue m) (InsightGraph.total_spend m)
    = lit (-2) 0 /\
    feq (InsightGraph.overall_roas m)
      (fdiv (InsightGraph.total_revenue m) (InsightGraph.total_spend m))
    = false.
Proof.
  do 2 eexists. split; [vm_compute; reflexivity|].
  split; [reflexivity|]. cbn [InsightGraph.total_spend InsightGraph.overall_roas
                               InsightGraph.total_revenue].
  repeat split; vm_compute; reflexivity.
Qed.

(** ** Value coercion *)

Lemma _get_value_str (row : dict value) (key s : string) (default : float) :
  dget row key = Some (VStr s) ->
  _get_value row key default
  = Ok match float_of_str (strip (remove_char "," (remove_char "%" s))) with
       | Some f => f
       | None => default
       end.
Proof.
  intros H. unfold _get_value, dget_default. rewrite H. cbn.
  now destruct (float_of_str _).
Qed.

Lemma _get_value_missing (row : dict value) (key : string) (default : float) :
  dget row key = None -> _get_value row key default = Ok default.
Proof.
  intros H. unfold _get_value, dget_default. rewrite H. cbn.
  now destruct (negb (feq default fzero)).
Qed.

Lemma _get_value_None (row : dict value) (key : string) (default : float) :
  dget row key = Some VNone -> _get_value row key default = Ok default.
Proof. intros H. unfold _get_value, dget_default. now rewrite H. Qed.

Lemma _get_value_float (row : dict value) (key : string) (default x : float) :
  dget row key = Some (VFloat x) ->
  _get_value row key default = Ok (if feq x fzero then default else x).
Proof.
  intros H. unfold _get_value, dget_default. rewrite H. cbn.
  now destruct (feq x fzero).
Qed.

(** The values on which coercion raises: a non-empty list or dictionary, and
    an integer beyond the range of a float. *)
Lemma _get_value_raises_iff (row : dict value) (key : string) (default : float) :
  (exists e, _get_value row key default = Raise e) <->
  (exists x l, dget row key = Some (VList (x :: l))) \/
  (exists x d, dget row key = Some (VDict (x :: d))) \/
  (exists z, dget row key = Some (VInt z) /\
             float_of_int z = Raise OverflowError).
Proof.
  unfold _get_value, dget_default.
  destruct (dget row key) as [[|b|z|f|s|[|x l]|[|x d]]|] eqn:E; cbn.
  all: try (split; [intros [e H]; try discriminate
                   | intros [(x' & l' & H) | [(x' & d' & H) | (z' & H & _)]];
                     discriminate]).
  - destruct b; discriminate.
  - split.
    + intros [e H]. right. right. exists z. split; [reflexivity|].
      destruct (z =? 0)%Z; [discriminate|]. cbn in H.
      unfold float_of_int in *. destruct (float_of_Z z); try discriminate.
      reflexivity.
    + intros [(x' & l' & H) | [(x' & d' & H) | (z' & H & Hz)]];
        try discriminate.
      injection H as <-. exists OverflowError.
      destruct (z =? 0)%Z eqn:Ez; [|exact Hz].
      apply Z.eqb_eq in Ez. subst z. discriminate.
  - destruct (negb (feq f fzero)); discriminate.
  - destruct (float_of_str _); discriminate.
  - split; [intros _; left; now exists x, l | intros _; now exists TypeError].
  - split; [intros _; right; left; now exists x, d
           | intros _; now exists TypeError].
  - destruct (negb (feq default fzero)); discriminate.
Qed.

(** The examples of the specification: a decorated number is parsed, text
    that is no number gives the default, and so do a missing key and [None]. *)
Lemma _get_value_examples (default : float) :
  _get_value [("v", VStr "  1,234.5% ")] "v" default = Ok (lit 12345 (-1)) /\
  _get_value [("v", VStr "abc")] "v" default = Ok default /\
  _get_value [] "v" default = Ok default /\
  _get_value [("v", VNone)] "v" default = Ok default.
Proof.
  split; [|split; [|split]].
  - rewrite (@_get_value_str [("v", VStr "  1,234.5% ")] "v" "  1,234.5% "
               default eq_refl).
    vm_compute. reflexivity.
  - now rewrite (@_get_value_str [("v", VStr "abc")] "v" "abc" default eq_refl).
  - now apply _get_value_missing.
  - now apply _get_value_None.
Qed.

(** C5. Coercion is not total: on a record whose roas is the list [[1.0]]
    the call [float(value)] raises [TypeError], and on one whose roas is the
    integer [10 ** 400] it raises [OverflowError]; nothing catches either, so
    [_get_value] raises, and with it the analyzer and the decider that called
    it. *)
Theorem C5_coercion_raises :
  _get_value [("roas", VList [VFloat (lit 10 (-1))])] "roas" fzero
  = Raise TypeError /\
  _get_value [("roas", VInt (10 ^ 400))] "roas" fzero = Raise OverflowError /\
  ROASAgent.analyze repr_any [[("roas", VList [VFloat (lit 10 (-1))])]]
  = Raise TypeError /\
  StatusDecisionAgent.decide_status repr_any
    [("roas", VList [VFloat (lit 10 (-1))])] []
  = Raise TypeError.
Proof. repeat split; vm_compute; reflexivity. Qed.

(** ** Fuzzy matching of the canonical names *)

(** C6. Fuzzy matching is not the identity on the canonical names: seven of
    the eighteen are taken to another field, because the partial matches of
    an earlier field are tried before the exact match of a later one
    ([ad_id] contains the variant [ad] of [ad_name], and so on).  The mapping
    built for the canonical column set is the one below whatever the language
    model would answer: it is never asked. *)
Theorem C6_canonical_names_are_remapped :
  ColumnMapper.fuzzy_match "ad_id" = Some "ad_name" /\
  map (fun c => (c, ColumnMapper.fuzzy_match c))
    (keys ColumnMapper.STANDARD_COLUMNS)
  = [ ("campaign_name", Some "campaign_name");
      ("ad_set_name", Some "ad_set_name");
      ("ad_name", Some "ad_name");
      ("ad_id", Some "ad_name");
      ("spend", Some "spend");
      ("impressions", Some "impressions");
      ("clicks", Some "clicks");
      ("ctr", Some "ctr");
      ("frequency", Some "frequency");
      ("roas", Some "roas");
      ("purchases", Some "purchases");
      ("purchase_value", Some "purchases");
      ("add_to_cart", Some "ad_name");
      ("atc_to_purchase", Some "purchases");
      ("ctr_7d", Some "ctr");
      ("ctr_prev_7d", Some "ctr");
      ("ctr_drop", Some "ctr");
      ("status", Some "status") ] /\
  forall llm,
    ColumnMapper.map_columns_with_llm llm (keys ColumnMapper.STANDARD_COLUMNS)
    = of_strs
      [ ("campaign_name", "campaign_name");
        ("ad_set_name", "ad_set_name");
        ("ad_name", "ad_name");
        ("ad_id", "ad_name");
        ("spend", "spend");
        ("impressions", "impressions");
        ("clicks", "clicks");
        ("ctr", "ctr");
        ("frequency", "frequency");
        ("roas", "roas");
        ("purchases", "purchases");
        ("purchase_value", "purchases");
        ("add_to_cart", "ad_name");
        ("atc_to_purchase", "purchases");
        ("ctr_7d", "ctr");
        ("ctr_prev_7d", "ctr");
        ("ctr_drop", "ctr");
        ("status", "status") ].
Proof.
  split; [vm_compute; reflexivity|].
  split; [vm_compute; reflexivity|].
  intros llm. vm_compute. reflexivity.
Qed.
(** ** Dictionaries *)

Section DictFacts.

Context {V : Type}.

Lemma dget_dset_same (d : dict V) (k : string) (v : V) :
  dget (dset d k v) k = Some v.
Proof.
  induction d as [|[k' v'] d IH]; cbn.
  - now rewrite String.eqb_refl.
  - destruct (String.eqb k k') eqn:E; cbn; rewrite E; [reflexivity|exact IH].
Qed.

Lemma dget_dset_other (d : dict V) (k k' : string) (v : V) :
  k <> k' -> dget (dset d k v) k' = dget d k'.
Proof.
  intros Hne. induction d as [|[k0 v0] d IH]; cbn.
  - destruct (String.eqb k' k) eqn:E; [|reflexivity].
    apply String.eqb_eq in E. congruence.
  - destruct (String.eqb k k0) eqn:E; cbn.
    + apply String.eqb_eq in E. subst k0.
      destruct (String.eqb k' k) eqn:E'; [|reflexivity].
      apply String.eqb_eq in E'. congruence.
    + now rewrite IH.
Qed.

Lemma dget_In_keys (d : dict V) (k : string) :
  In k (keys d) <-> dget d k <> None.
Proof.
  induction d as [|[k' v'] d IH]; cbn.
  - tauto.
  - destruct (String.eqb k k') eqn:E.
    + apply String.eqb_eq in E. subst. split; [discriminate|now left].
    + apply String.eqb_neq in E. rewrite <- IH. split; [|tauto].
      intros [H|H]; [congruence|exact H].
Qed.

Lemma keys_dset_grows (d : dict V) (k k' : string) (v : V) :
  In k' (keys d) -> In k' (keys (dset d k v)).
Proof.
  rewrite !dget_In_keys. intros H.
  destruct (string_dec k k') as [->|Hne].
  - rewrite dget_dset_same. discriminate.
  - now rewrite dget_dset_other.
Qed.

End DictFacts.

(** ** Dictionaries with keys of any kind *)

Section AnyDictFacts.

Lemma key_eqb_str_r (k : value) (c : string) :
  key_eqb k (VStr c) = true <-> k = VStr c.
Proof.
  destruct k as [|b|z|f|s|l|d]; cbn;
    try (split; discriminate);
    try (destruct f as [?|?| |? ? ?]; split; discriminate).
  rewrite String.eqb_eq. split; congruence.
Qed.

Lemma key_eqb_str_l (c : string) (k : value) :
  key_eqb (VStr c) k = true <-> k = VStr c.
Proof.
  destruct k as [|b|z|f|s|l|d]; cbn;
    try (split; discriminate);
    try (destruct f as [?|?| |? ? ?]; split; discriminate).
  rewrite String.eqb_eq. split; congruence.
Qed.

Lemma str_items_cons (k v : value) (d : anydict) :
  str_items ((k, v) :: d)
  = match k with
    | VStr c => (c, v) :: str_items d
    | _ => str_items d
    end.
Proof. destruct k; reflexivity. Qed.

(** A string finds under [get] what stands under it among the items with a
    [str] key. *)
Lemma aget_str (d : anydict) (c : string) :
  aget d (VStr c) = dget (str_items d) c.
Proof.
  induction d as [|[k v] d IH]; [reflexivity|].
  cbn [aget]. rewrite str_items_cons.
  destruct (key_eqb (VStr c) k) eqn:E.
  - apply key_eqb_str_l in E. subst k. cbn [dget].
    now rewrite String.eqb_refl.
  - destruct k as [|b|z|f|s|l|d0]; try exact IH.
    cbn [dget]. cbn in E. now rewrite E.
Qed.

Lemma str_items_aset_str (d : anydict) (c : string) (v : value) :
  str_items (aset d (VStr c) v) = dset (str_items d) c v.
Proof.
  induction d as [|[k x] d IH]; [reflexivity|].
  cbn [aset]. rewrite (str_items_cons k x d).
  destruct (key_eqb (VStr c) k) eqn:E.
  - apply key_eqb_str_l in E. subst k. rewrite str_items_cons.
    cbn [dset]. now rewrite String.eqb_refl.
  - rewrite str_items_cons.
    destruct k as [|b|z|f|s|l|d0]; try exact IH.
    cbn [dset]. cbn in E. now rewrite E, IH.
Qed.

Lemma str_items_aset_other (d : anydict) (k v : value) :
  (forall c, k <> VStr c) -> str_items (aset d k v) = str_items d.
Proof.
  intros Hk. induction d as [|[k' x] d IH]; cbn [aset].
  - destruct k; try reflexivity. now destruct (Hk s).
  - destruct (key_eqb k k') eqn:E; rewrite !str_items_cons.
    + destruct k' as [|b|z|f|s|l|d0]; try reflexivity.
      apply key_eqb_str_r in E. now destruct (Hk s).
    + destruct k' as [|b|z|f|s|l|d0]; try exact IH.
      now rewrite IH.
Qed.

Lemma str_items_of_record (row : dict value) : str_items (of_record row) = row.
Proof.
  induction row as [|[k v] row IH]; [reflexivity|].
  cbn [of_record map fst snd]. rewrite str_items_cons. f_equal. exact IH.
Qed.

Lemma aget_aset_same_str (d : anydict) (c : string) (v : value) :
  aget (aset d (VStr c) v) (VStr c) = Some v.
Proof. rewrite aget_str, str_items_aset_str. apply dget_dset_same. Qed.

Lemma aget_aset_other_str (d : anydict) (k v : value) (c : string) :
  k <> VStr c -> aget (aset d k v) (VStr c) = aget d (VStr c).
Proof.
  intros Hne. rewrite !aget_str.
  destruct k as [|b|z|f|s|l|d0];
    try (rewrite str_items_aset_other; [reflexivity|discriminate]).
  rewrite str_items_aset_str. apply dget_dset_other. congruence.
Qed.

Lemma NoDup_str_keys_aset (d : anydict) (k v : value) :
  NoDup (str_keys d) -> NoDup (str_keys (aset d k v)).
Proof.
  unfold str_keys. intros H.
  destruct k as [|b|z|f|s|l|d0];
    try (rewrite str_items_aset_other; [exact H|discriminate]).
  rewrite str_items_aset_str.
  revert H. generalize (str_items d). intros r.
  induction r as [|[k' v'] r IH]; cbn.
  - intros _. constructor; [tauto|constructor].
  - intros Hnd. inversion Hnd as [|? ? Hnot Hnd']; subst.
    destruct (String.eqb s k') eqn:E; cbn; [exact Hnd|].
    apply String.eqb_neq in E.
    constructor; [|now apply IH].
    change (~ In k' (keys (dset r s v))).
    rewrite dget_In_keys, dget_dset_other by exact E.
    rewrite <- dget_In_keys. exact Hnot.
Qed.

Lemma length_aset (d : anydict) (k v : value) :
  List.length (aset d k v) <= S (List.length d).
Proof.
  induction d as [|[k' v'] d IH]; cbn; [lia|].
  destruct (key_eqb k k'); cbn; lia.
Qed.

Lemma values_aset (d : anydict) (k v s : value) :
  In s (map snd (aset d k v)) -> s = v \/ In s (map snd d).
Proof.
  induction d as [|[k' v'] d IH]; cbn.
  - intros [H|[]]. now left.
  - destruct (key_eqb k k'); cbn.
    + intros [H|H]; [now left|right; now right].
    + intros [H|H]; [right; now left|].
      destruct (IH H) as [H'|H']; [now left|right; now right].
Qed.

Lemma aget_In_values (d : anydict) (k s : value) :
  aget d k = Some s -> In s (map snd d).
Proof.
  induction d as [|[k' v'] d IH]; cbn; [discriminate|].
  destruct (key_eqb k k'); [intros H; injection H as ->; now left|].
  intros H. right. now apply IH.
Qed.

End AnyDictFacts.

(** ** The column mapping when the language model fails *)

Section ColumnMapping.

Import ColumnMapper.

Lemma match_in_standard (table : dict (list string)) (c s : string) :
  match_in table c = Some s -> In s (keys table).
Proof.
  induction table as [|[standard variations] rest IH]; cbn; [discriminate|].
  destruct (mem c variations); [intros H; injection H as ->; now left|].
  destruct (partial_match c variations);
    [intros H; injection H as ->; now left|].
  intros H. right. now apply IH.
Qed.

(** Whatever fuzzy matching returns is a canonical name, and every canonical
    name is itself matched by something. *)
Lemma fuzzy_match_resolved (c s : string) :
  fuzzy_match c = Some s ->
  s <> "" /\ s <> "unknown" /\ fuzzy_match s <> None.
Proof.
  intros H. apply match_in_standard in H.
  cbn in H.
  repeat (destruct H as [<- | H];
          [repeat split; try discriminate; vm_compute; discriminate|]).
  destruct H.
Qed.

Lemma matched_name_fuzzy (c : string) :
  matched_name (fuzzy_match c) = fuzzy_match c.
Proof.
  destruct (fuzzy_match c) as [s|] eqn:E; [|reflexivity].
  destruct (fuzzy_match_resolved _ E) as (Hne & _). cbn.
  destruct (String.eqb s "") eqn:Es; [|reflexivity].
  apply String.eqb_eq in Es. contradiction.
Qed.

(** What [get] finds after the first pass and after the fallback. *)
Lemma first_pass_spec (columns : list string) (mapping : anydict)
  (unmapped : list string) :
  let r := first_pass columns mapping unmapped in
  (forall c, aget (fst r) (VStr c)
             = match fuzzy_match c with
               | Some s => if in_dec string_dec c columns then Some (VStr s)
                           else aget mapping (VStr c)
               | None => aget mapping (VStr c)
               end) /\
  (forall c, In c (snd r) <->
             In c unmapped \/ (In c columns /\ fuzzy_match c = None)).
Proof.
  revert mapping unmapped.
  induction columns as [|col rest IH]; intros mapping unmapped; cbn zeta.
  - cbn [first_pass fst snd In]. split; [|intros c; tauto].
    intros c. destruct (fuzzy_match c); [|reflexivity].
    now destruct (in_dec string_dec c []).
  - cbn [first_pass]. rewrite matched_name_fuzzy.
    destruct (fuzzy_match col) as [s|] eqn:E.
    + destruct (IH (aset mapping (VStr col) (VStr s)) unmapped) as [G U].
      split.
      * intros c. rewrite G.
        destruct (fuzzy_match c) as [t|] eqn:Ec.
        -- destruct (in_dec string_dec c rest) as [Hin|Hout].
           ++ destruct (in_dec string_dec c (col :: rest)) as [_|Hn];
                [reflexivity|]. exfalso. apply Hn. now right.
           ++ destruct (string_dec col c) as [->|Hne].
              ** rewrite aget_aset_same_str.
                 destruct (in_dec string_dec c (c :: rest)) as [_|Hn];
                   [congruence|]. exfalso. apply Hn. now left.
              ** rewrite aget_aset_other_str by congruence.
                 destruct (in_dec string_dec c (col :: rest)) as [[H|H]|_];
                   [contradiction|contradiction|reflexivity].
        -- destruct (string_dec col c) as [->|Hne]; [congruence|].
           rewrite aget_aset_other_str by congruence. reflexivity.
      * intros c. rewrite U. cbn [In]. split; [tauto|].
        intros [H|[[H|H] Hc]]; [tauto| |tauto]. subst. congruence.
    + destruct (IH mapping (unmapped ++ [col])%list) as [G U]. split.
      * intros c. rewrite G.
        destruct (fuzzy_match c) as [t|] eqn:Ec; [|reflexivity].
        destruct (in_dec string_dec c rest) as [Hin|Hout].
        -- destruct (in_dec string_dec c (col :: rest)) as [_|Hn];
             [reflexivity|]. exfalso. apply Hn. now right.
        -- destruct (in_dec string_dec c (col :: rest)) as [[H|H]|_];
             [congruence|contradiction|reflexivity].
      * intros c. rewrite U, in_app_iff. cbn [In]. split.
        -- intros [[H|[H|[]]]|[H Hc]]; [tauto| |tauto].
           subst. right. split; [now left|exact E].
        -- intros [H|[[H|H] Hc]]; [tauto| |tauto]. subst. tauto.
Qed.

Lemma mark_unknown_spec (mapping : anydict) (unmapped : list string)
  (c : string) :
  aget (mark_unknown mapping unmapped) (VStr c)
  = if in_dec string_dec c unmapped then Some (VStr "unknown")
    else aget mapping (VStr c).
Proof.
  unfold mark_unknown. revert mapping.
  induction unmapped as [|col rest IH]; intros mapping; [reflexivity|].
  cbn [fold_left]. rewrite IH.
  destruct (in_dec string_dec c rest) as [Hin|Hout].
  - destruct (in_dec string_dec c (col :: rest)) as [_|Hn]; [reflexivity|].
    exfalso. apply Hn. now right.
  - destruct (string_dec col c) as [->|Hne].
    + rewrite aget_aset_same_str.
      destruct (in_dec string_dec c (c :: rest)) as [_|Hn]; [reflexivity|].
      exfalso. apply Hn. now left.
    + rewrite aget_aset_other_str by congruence.
      destruct (in_dec string_dec c (col :: rest)) as [[H|H]|_];
        [contradiction|contradiction|reflexivity].
Qed.

(** The mapping returned when the call of the language model, or the
    decoding of its answer, raises. *)
Lemma map_columns_llm_raises (llm : list string -> result value)
  (columns : list string) (e : exn) (c : string) :
  llm (snd (first_pass columns [] [])) = Raise e ->
  aget (map_columns_with_llm llm columns) (VStr c)
  = if in_dec string_dec c columns
    then Some (VStr match fuzzy_match c with
                    | Some s => s
                    | None => "unknown"
                    end)
    else None.
Proof.
  intros Hllm. unfold map_columns_with_llm.
  destruct (first_pass_spec columns [] []) as [G U]. cbn zeta in G, U.
  destruct (first_pass columns [] []) as [mapping unmapped] eqn:E.
  cbn [fst snd] in *.
  assert (R : aget (mark_unknown mapping unmapped) (VStr c)
              = if in_dec string_dec c columns
                then Some (VStr match fuzzy_match c with
                                | Some s => s
                                | None => "unknown"
                                end)
                else None).
  { rewrite mark_unknown_spec, G.
    destruct (in_dec string_dec c unmapped) as [Hin|Hout].
    - apply U in Hin. destruct Hin as [[]|[Hc Hf]]. rewrite Hf.
      destruct (in_dec string_dec c columns); [reflexivity|contradiction].
    - destruct (fuzzy_match c) as [s|] eqn:Ec.
      + now destruct (in_dec string_dec c columns).
      + destruct (in_dec string_dec c columns) as [Hc|_]; [|reflexivity].
        exfalso. apply Hout. apply U. tauto. }
  destruct unmapped as [|u us]; [|now rewrite Hllm].
  rewrite <- R. now rewrite mark_unknown_spec.
Qed.

(** The mapping returned when the body of the [try] raises, at the call, at
    the decoding or in [update]: a column that fuzzy matching left
    unresolved is marked "unknown". *)
Lemma map_columns_try_raises (llm : list string -> result value)
  (columns : list string) (c : string) :
  (exists e, llm (snd (first_pass columns [] [])) = Raise e) \/
  (exists answer e,
      llm (snd (first_pass columns [] [])) = Ok answer /\
      snd (update (fst (first_pass columns [] [])) answer) = Some e) ->
  In c columns -> fuzzy_match c = None ->
  aget (map_columns_with_llm llm columns) (VStr c) = Some (VStr "unknown").
Proof.
  intros Hfail Hc Hf.
  destruct Hfail as [[e Hllm]|(answer & e & Hllm & Hup)].
  - rewrite (map_columns_llm_raises llm columns c Hllm), Hf.
    destruct (in_dec string_dec c columns); [reflexivity|contradiction].
  - unfold map_columns_with_llm.
    destruct (first_pass_spec columns [] []) as [_ U]. cbn zeta in U.
    destruct (first_pass columns [] []) as [mapping unmapped].
    cbn [fst snd] in *.
    assert (Hin : In c unmapped) by (apply U; tauto).
    destruct unmapped as [|u us]; [destruct Hin|].
    rewrite Hllm.
    destruct (update mapping answer) as [mapping' [e'|]];
      [|discriminate].
    rewrite mark_unknown_spec.
    destruct (in_dec string_dec c (u :: us)); [reflexivity|contradiction].
Qed.

End ColumnMapping.

(** ** Normalisation of the records *)

Section Normalisation.

Import ColumnMapper.

Lemma NoDup_str_keys_first_pass (columns : list string) (mapping : anydict)
  (unmapped : list string) :
  NoDup (str_keys mapping) ->
  NoDup (str_keys (fst (first_pass columns mapping unmapped))).
Proof.
  revert mapping unmapped.
  induction columns as [|col rest IH]; intros mapping unmapped Hnd;
    [exact Hnd|].
  cbn [first_pass]. destruct (matched_name (fuzzy_match col)).
  - apply IH. now apply NoDup_str_keys_aset.
  - now apply IH.
Qed.

Lemma NoDup_str_keys_mark_unknown (mapping : anydict)
  (unmapped : list string) :
  NoDup (str_keys mapping) -> NoDup (str_keys (mark_unknown mapping unmapped)).
Proof.
  unfold mark_unknown. revert mapping.
  induction unmapped as [|col rest IH]; intros mapping Hnd; [exact Hnd|].
  cbn [fold_left]. apply IH. now apply NoDup_str_keys_aset.
Qed.

Lemma NoDup_str_keys_update_items (items : list value) (mapping : anydict) :
  NoDup (str_keys mapping) ->
  NoDup (str_keys (fst (update_items mapping items))).
Proof.
  revert mapping. induction items as [|item rest IH]; intros mapping Hnd;
    [exact Hnd|].
  cbn [update_items]. destruct (pair_of item) as [[k v]|e]; [|exact Hnd].
  unfold setitem. destruct (hashable k); [|exact Hnd].
  apply IH. now apply NoDup_str_keys_aset.
Qed.

Lemma NoDup_str_keys_update (mapping : anydict) (other : value) :
  NoDup (str_keys mapping) -> NoDup (str_keys (fst (update mapping other))).
Proof.
  intros Hnd. destruct other as [|b|z|f|s|l|d]; cbn [update fst];
    try exact Hnd; try now apply NoDup_str_keys_update_items.
  revert mapping Hnd. induction d as [|[k v] d IH]; intros mapping Hnd;
    [exact Hnd|].
  cbn [fold_left]. apply IH. now apply NoDup_str_keys_aset.
Qed.

(** Whatever the language model does, the mapping has each column once. *)
Lemma NoDup_str_keys_map_columns (llm : list string -> result value)
  (columns : list string) :
  NoDup (str_keys (map_columns_with_llm llm columns)).
Proof.
  unfold map_columns_with_llm.
  pose proof (@NoDup_str_keys_first_pass columns [] [] (NoDup_nil _)) as Hnd.
  destruct (first_pass columns [] []) as [mapping unmapped].
  cbn [fst snd] in *.
  destruct unmapped as [|u us]; [exact Hnd|].
  destruct (llm (u :: us)) as [answer|e];
    [|now apply NoDup_str_keys_mark_unknown].
  pose proof (NoDup_str_keys_update mapping answer Hnd) as Hup.
  destruct (update mapping answer) as [mapping' [e|]]; cbn [fst] in Hup;
    [now apply NoDup_str_keys_mark_unknown | exact Hup].
Qed.

Lemma aget_cons_str (k v : value) (d : anydict) (c : string) :
  aget ((k, v) :: d) (VStr c)
  = if key_eqb (VStr c) k then Some v else aget d (VStr c).
Proof. reflexivity. Qed.

Lemma reverse_map_spec (column_mapping : anydict) (c : string) :
  NoDup (str_keys column_mapping) ->
  aget (reverse_map column_mapping) (VStr c)
  = match aget column_mapping (VStr c) with
    | Some s => if is_unknown s then None else Some s
    | None => None
    end.
Proof.
  unfold reverse_map.
  assert (G : forall m acc,
             NoDup (str_keys m) ->
             aget (fold_left
                     (fun a kv =>
                        if is_unknown (snd kv) then a
                        else aset a (fst kv) (snd kv)) m acc) (VStr c)
             = match aget m (VStr c) with
               | Some s => if is_unknown s then aget acc (VStr c) else Some s
               | None => aget acc (VStr c)
               end).
  { induction m as [|[k s] m IH]; intros acc Hnd; [reflexivity|].
    cbn [fold_left fst snd]. rewrite aget_cons_str.
    unfold str_keys in Hnd. rewrite str_items_cons in Hnd.
    destruct (key_eqb (VStr c) k) eqn:E.
    - apply key_eqb_str_l in E. subst k. cbn [keys map fst] in Hnd.
      inversion Hnd as [|? ? Hnot Hnd']; subst.
      rewrite (IH _ Hnd').
      assert (aget m (VStr c) = None) as ->.
      { rewrite aget_str. destruct (dget (str_items m) c) eqn:Hm;
          [|reflexivity].
        exfalso. apply Hnot. apply dget_In_keys. congruence. }
      destruct (is_unknown s); [reflexivity|].
      apply aget_aset_same_str.
    - assert (Hne : k <> VStr c).
      { intros ->. cbn in E. now rewrite String.eqb_refl in E. }
      assert (Hnd' : NoDup (str_keys m)).
      { destruct k; try exact Hnd. now inversion Hnd. }
      rewrite (IH _ Hnd').
      assert (aget (if is_unknown s then acc else aset acc k s) (VStr c)
              = aget acc (VStr c)) as ->.
      { destruct (is_unknown s); [reflexivity|].
        now apply aget_aset_other_str. }
      reflexivity. }
  intros Hnd. rewrite (G _ [] Hnd). cbn [aget].
  destruct (aget column_mapping (VStr c)) as [s|]; [|reflexivity].
  now destruct (is_unknown s).
Qed.

(** The values of the reverse map are values of the mapping. *)
Lemma reverse_map_values (column_mapping : anydict) (s : value) :
  In s (map snd (reverse_map column_mapping)) ->
  In s (map snd column_mapping).
Proof.
  unfold reverse_map.
  assert (G : forall m acc,
             In s (map snd
                     (fold_left
                        (fun a kv =>
                           if is_unknown (snd kv) then a
                           else aset a (fst kv) (snd kv)) m acc)) ->
             In s (map snd acc) \/ In s (map snd m)).
  { induction m as [|[k x] m IH]; intros acc H; [now left|].
    cbn [fold_left fst snd] in H. apply IH in H.
    destruct H as [H|H]; [|right; right; exact H].
    destruct (is_unknown x); [now left|].
    apply values_aset in H. destruct H as [->|H]; [right; now left|now left]. }
  intros H. destruct (G _ [] H) as [[]|H']. exact H'.
Qed.

(** The key under which the reverse map puts a column. *)
Local Abbreviation standard_col :=
  (fun (rm : anydict) (c : string) => aget_default rm (VStr c) (VStr c)).

Lemma normalize_items_app (rm : anydict) (row1 row2 : dict value)
  (acc : anydict) :
  normalize_items rm (row1 ++ row2)%list acc
  = (r <- normalize_items rm row1 acc ;; normalize_items rm row2 r).
Proof.
  revert acc. induction row1 as [|[k v] row1 IH]; intros acc; [reflexivity|].
  cbn [app normalize_items].
  destruct (setitem acc _ v) as [acc'|e]; cbn [bind]; [apply IH|reflexivity].
Qed.

Lemma normalize_row_snoc (rm : anydict) (row : dict value)
  (k : string) (v : value) :
  normalize_row rm (row ++ [(k, v)])%list
  = (r <- normalize_row rm row ;; setitem r (standard_col rm k) v).
Proof.
  unfold normalize_row. rewrite normalize_items_app.
  destruct (normalize_items rm row []) as [r|e]; cbn [bind normalize_items];
    [|reflexivity].
  now destruct (setitem r _ v).
Qed.

(** What a normalisation that returns went through at its last item. *)
Lemma normalize_row_snoc_inv (rm : anydict) (row : dict value)
  (k : string) (v : value) (new_row : anydict) :
  normalize_row rm (row ++ [(k, v)])%list = Ok new_row ->
  exists r,
    normalize_row rm row = Ok r /\
    hashable (standard_col rm k) = true /\
    new_row = aset r (standard_col rm k) v.
Proof.
  rewrite normalize_row_snoc.
  destruct (normalize_row rm row) as [r|e]; cbn [bind]; [|discriminate].
  unfold setitem. destruct (hashable _); [|discriminate].
  intros H. injection H as <-. now exists r.
Qed.

Lemma str_keys_aset_grows (d : anydict) (k v : value) (c : string) :
  In c (str_keys d) -> In c (str_keys (aset d k v)).
Proof.
  unfold str_keys. intros H.
  destruct k as [|b|z|f|s|l|d0];
    try (rewrite str_items_aset_other; [exact H|discriminate]).
  rewrite str_items_aset_str. now apply keys_dset_grows.
Qed.

Lemma str_keys_aget (d : anydict) (c : string) :
  In c (str_keys d) <-> aget d (VStr c) <> None.
Proof. unfold str_keys. rewrite aget_str. apply dget_In_keys. Qed.

(** A column the reverse map does not rename keeps its key. *)
Lemma normalize_row_keeps_key (rm : anydict) (row : dict value)
  (c : string) (new_row : anydict) :
  aget rm (VStr c) = None -> In c (keys row) ->
  normalize_row rm row = Ok new_row -> In c (str_keys new_row).
Proof.
  intros Hc. revert new_row.
  induction row as [|[k v] row IH] using rev_ind; intros new_row;
    [cbn; tauto|].
  unfold keys. rewrite map_app, in_app_iff. cbn [map fst In].
  intros Hin Hrow.
  destruct (normalize_row_snoc_inv _ _ _ _ Hrow) as (r & Hr & _ & ->).
  destruct Hin as [H|[H|[]]].
  - apply str_keys_aset_grows. now apply IH.
  - subst k. unfold aget_default. rewrite Hc.
    apply str_keys_aget. rewrite aget_aset_same_str. discriminate.
Qed.

(** It keeps its value too when no other column of the row is renamed to
    its key. *)
Lemma normalize_row_keeps_value (rm : anydict) (row : dict value)
  (c : string) (v : value) (new_row : anydict) :
  NoDup (keys row) ->
  In (c, v) row ->
  aget rm (VStr c) = None ->
  (forall c', In c' (keys row) -> aget rm (VStr c') <> Some (VStr c)) ->
  normalize_row rm row = Ok new_row ->
  aget new_row (VStr c) = Some v.
Proof.
  intros Hnd Hin Hc Hfree. revert new_row.
  induction row as [|[k x] row IH] using rev_ind; intros new_row Hrow;
    [destruct Hin|].
  destruct (normalize_row_snoc_inv _ _ _ _ Hrow) as (r & Hr & _ & ->).
  unfold keys in Hnd. rewrite map_app in Hnd. cbn [map fst] in Hnd.
  apply NoDup_remove in Hnd. rewrite app_nil_r in Hnd.
  destruct Hnd as [Hnd Hk].
  apply in_app_iff in Hin. destruct Hin as [Hin|[Hin|[]]].
  - assert (Hne : k <> c).
    { intros ->. apply Hk. change (In (fst (c, v)) (map fst row)).
      now apply in_map. }
    rewrite aget_aset_other_str.
    + apply IH; [exact Hnd|exact Hin| |exact Hr].
      intros c' Hc'. apply Hfree. unfold keys. rewrite map_app, in_app_iff.
      now left.
    + unfold aget_default.
      destruct (aget rm (VStr k)) as [t|] eqn:Et; [|congruence].
      intros ->. apply (Hfree k); [|exact Et].
      unfold keys. rewrite map_app, in_app_iff. right. now left.
  - injection Hin as -> ->. unfold aget_default. rewrite Hc.
    apply aget_aset_same_str.
Qed.

(** Normalisation returns when every column goes under a hashable key. *)
Lemma normalize_row_total (rm : anydict) (row : dict value) :
  (forall c, In c (keys row) -> hashable (standard_col rm c) = true) ->
  exists new_row, normalize_row rm row = Ok new_row.
Proof.
  induction row as [|[k v] row IH] using rev_ind; intros H;
    [now exists []|].
  rewrite normalize_row_snoc.
  destruct IH as [r ->].
  { intros c Hc. apply H. unfold keys. rewrite map_app, in_app_iff.
    now left. }
  cbn [bind]. unfold setitem. rewrite H; [eauto|].
  unfold keys. rewrite map_app, in_app_iff. right. now left.
Qed.

(** It raises nothing but the [TypeError] of an unhashable key. *)
Lemma normalize_row_exn (rm : anydict) (row : dict value) (e : exn) :
  normalize_row rm row = Raise e -> e = TypeError.
Proof.
  induction row as [|[k v] row IH] using rev_ind; [discriminate|].
  rewrite normalize_row_snoc.
  destruct (normalize_row rm row) as [r|e']; cbn [bind].
  - unfold setitem. destruct (hashable _); [discriminate|].
    intros H. now injection H as <-.
  - intros H. injection H as ->. now apply IH.
Qed.

(** C7. When the body of the [try] raises (the call of the language model,
    the decoding of its answer, or the merge of a decoded answer that is no
    object), [map_columns_with_llm] still returns a mapping, in which every
    column that fuzzy matching left unresolved is mapped to "unknown".  When
    it is the call or the decoding that raised, every other column has its
    fuzzy match, [normalize_data] returns on that mapping, and a column it
    marks "unknown" keeps its key and its value in the normalized record.
    For any mapping, [normalize_data] rewrites each record through the
    reverse map, in which a column mapped to "unknown" or absent from the
    mapping has no entry: in a record it returns, such a column stands under
    its original key, with its value unless another column of the record is
    renamed to that key. *)
Theorem C7_llm_failure_degrades (llm : list string -> result value)
  (columns : list string) :
  (exists e, llm (snd (first_pass columns [] [])) = Raise e) \/
  (exists answer e,
      llm (snd (first_pass columns [] [])) = Ok answer /\
      snd (update (fst (first_pass columns [] [])) answer) = Some e) ->
  (forall col, In col columns -> fuzzy_match col = None ->
               aget (map_columns_with_llm llm columns) (VStr col)
               = Some (VStr "unknown")) /\
  ((exists e, llm (snd (first_pass columns [] [])) = Raise e) ->
   (forall col s, In col columns -> fuzzy_match col = Some s ->
                  aget (map_columns_with_llm llm columns) (VStr col)
                  = Some (VStr s)) /\
   (forall data,
       exists normalized,
         normalize_data llm data (Some (map_columns_with_llm llm columns))
         = Ok normalized) /\
   (forall row col v,
       NoDup (keys row) -> In (col, v) row ->
       aget (map_columns_with_llm llm columns) (VStr col)
       = Some (VStr "unknown") ->
       exists new_row,
         normalize_row (reverse_map (map_columns_with_llm llm columns)) row
         = Ok new_row /\
         aget new_row (VStr col) = Some v)) /\
  (forall data mapping,
      normalize_data llm data (Some mapping)
      = map_result (normalize_row (reverse_map mapping)) data) /\
  (forall mapping row col new_row,
      NoDup (str_keys mapping) -> In col (keys row) ->
      aget mapping (VStr col) = Some (VStr "unknown") \/
      aget mapping (VStr col) = None ->
      normalize_row (reverse_map mapping) row = Ok new_row ->
      In col (str_keys new_row)) /\
  (forall mapping row col v new_row,
      NoDup (str_keys mapping) -> NoDup (keys row) -> In (col, v) row ->
      aget mapping (VStr col) = Some (VStr "unknown") \/
      aget mapping (VStr col) = None ->
      (forall c', In c' (keys row) ->
                  aget mapping (VStr c') <> Some (VStr col)) ->
      normalize_row (reverse_map mapping) row = Ok new_row ->
      aget new_row (VStr col) = Some v).
Proof.
  intros Hfail.
  pose proof (NoDup_str_keys_map_columns llm columns) as Hnd.
  assert (Habsent : forall mapping col,
             NoDup (str_keys mapping) ->
             aget mapping (VStr col) = Some (VStr "unknown") \/
             aget mapping (VStr col) = None ->
             aget (reverse_map mapping) (VStr col) = None).
  { intros mapping col Hm [H|H]; rewrite reverse_map_spec, H by exact Hm;
      reflexivity. }
  split; [|split; [|split; [|split]]].
  - intros col Hin Hf. now apply map_columns_try_raises.
  - intros [e Hllm].
    pose proof (fun c => map_columns_llm_raises llm columns c Hllm) as G.
    assert (Htarget : forall c,
               hashable
                 (aget_default
                    (reverse_map (map_columns_with_llm llm columns))
                    (VStr c) (VStr c)) = true).
    { intros c. unfold aget_default. rewrite reverse_map_spec by exact Hnd.
      rewrite G. destruct (in_dec string_dec c columns); [|reflexivity].
      destruct (is_unknown _); reflexivity. }
    split; [|split].
    + intros col s Hin Hf. rewrite G, Hf.
      destruct (in_dec string_dec col columns); [reflexivity|contradiction].
    + intros data. destruct data as [|first rest]; [now exists []|].
      cbn [normalize_data]. apply map_result_total.
      intros row _. apply normalize_row_total. intros c _. apply Htarget.
    + intros row col v Hrow Hin Hcol.
      destruct (@normalize_row_total
                  (reverse_map (map_columns_with_llm llm columns)) row)
        as [new_row Hnew]; [intros c _; apply Htarget|].
      exists new_row. split; [exact Hnew|].
      eapply normalize_row_keeps_value;
        [exact Hrow|exact Hin| | |exact Hnew].
      * apply Habsent; [exact Hnd|now left].
      * intros c' _. rewrite reverse_map_spec by exact Hnd.
        rewrite G in Hcol |- *.
        destruct (in_dec string_dec col columns); [|discriminate].
        destruct (in_dec string_dec c' columns); [|discriminate].
        destruct (fuzzy_match c') as [t|] eqn:Et.
        -- cbn [is_unknown]. destruct (String.eqb t "unknown");
             [discriminate|].
           intros H. injection H as ->.
           destruct (fuzzy_match_resolved _ Et) as (_ & _ & Hres).
           destruct (fuzzy_match col) as [u|] eqn:Eu; [|now apply Hres].
           injection Hcol as ->.
           destruct (fuzzy_match_resolved _ Eu) as (_ & Hunk & _).
           now apply Hunk.
        -- cbn. discriminate.
  - intros data mapping. now destruct data.
  - intros mapping row col new_row Hm Hin Hcol Hrow.
    eapply normalize_row_keeps_key; [|exact Hin|exact Hrow].
    now apply Habsent.
  - intros mapping row col v new_row Hm Hrow Hin Hcol Hfree Hnew.
    eapply normalize_row_keeps_value; [exact Hrow|exact Hin| | |exact Hnew].
    + now apply Habsent.
    + intros c' Hc'. rewrite reverse_map_spec by exact Hm.
      specialize (Hfree c' Hc').
      destruct (aget mapping (VStr c')) as [t|]; [|discriminate].
      destruct (is_unknown t); [discriminate|exact Hfree].
Qed.

End Normalisation.

(** With the language model down, the column "Notes" is marked "unknown" and
    stays under its own key with its value.  With an answer that is a list
    of one pair and a number, the pair is merged over the fuzzy match of
    "Spend" before the number raises, and "Notes" is marked "unknown" all
    the same. *)
Lemma C7_llm_down_example :
  ColumnMapper.map_columns_with_llm llm_down raw_columns
  = of_strs [("Spend", "spend"); ("Notes", "unknown")] /\
  ColumnMapper.normalize_data llm_down [raw_record] None
  = Ok [of_record [("spend", VInt 5); ("Notes", VStr "n/a")]] /\
  aget (ColumnMapper.map_columns_with_llm llm_down raw_columns) (VStr "Notes")
  = Some (VStr "unknown") /\
  (exists new_row,
      ColumnMapper.normalize_row
        (ColumnMapper.reverse_map
           (ColumnMapper.map_columns_with_llm llm_down raw_columns))
        raw_record = Ok new_row /\
      aget new_row (VStr "Notes") = Some (VStr "n/a")) /\
  ColumnMapper.map_columns_with_llm llm_malformed raw_columns
  = of_strs [("Spend", "roas"); ("Notes", "unknown")] /\
  aget (ColumnMapper.map_columns_with_llm llm_malformed raw_columns)
    (VStr "Notes")
  = Some (VStr "unknown").
Proof.
  split; [vm_compute; reflexivity|].
  split; [vm_compute; reflexivity|].
  destruct (@C7_llm_failure_degrades llm_down raw_columns
              (or_introl (ex_intro _ ValueError eq_refl)))
    as (Hunknown & Hdown & _).
  destruct (Hdown (ex_intro _ ValueError eq_refl)) as (_ & _ & Hvalue).
  assert (Hcol : aget (ColumnMapper.map_columns_with_llm llm_down raw_columns)
                   (VStr "Notes") = Some (VStr "unknown")).
  { apply Hunknown; [right; left; reflexivity | vm_compute; reflexivity]. }
  split; [exact Hcol|].
  split.
  { apply Hvalue; [|right; left; reflexivity|exact Hcol].
    repeat constructor; cbn; intuition discriminate. }
  split; [vm_compute; reflexivity|].
  destruct (@C7_llm_failure_degrades llm_malformed raw_columns) as (H & _).
  { right. exists (VList [VList [VStr "Spend"; VStr "roas"]; VInt 1]), TypeError.
    split; vm_compute; reflexivity. }
  apply H; [right; left; reflexivity | vm_compute; reflexivity].
Defined.

(** ** The end-to-end scenario *)

(** C8. Run on the single record of the scenario, the workflow yields one
    ROAS finding, of high priority, whose condition is "ROAS 1.80 (1-2
    range)"; no CTR finding; one conversion finding, of low priority, whose
    condition is "Strong ATC→Purchase rate 37.5%"; no frequency finding; and
    one decision, of status test, reached through the guard
    1.0 <= roas <= 2.5.  [analyze] does not give the workflow that record:
    without a mapping it first renames the columns by fuzzy matching, which
    takes [purchase_value] and [atc_to_purchase] to [purchases] and
    [add_to_cart] to [ad_name]; the conversion analyzer then sees no cart
    adds and reports "Low cart adds (0) despite clicks" with high priority,
    and the decision is fix.  With the mapping of each column to itself
    [analyze] gives the findings and the status of the scenario. *)
Theorem C8_end_to_end (repr : value -> result string)
  (llm : list string -> result value) (llm_model content : string) :
  (exists state f_roas f_conv d,
    InsightGraph.run repr [scenario_record] = Ok state /\
    InsightGraph.roas_insights state = [f_roas] /\
    InsightRecommendation.category f_roas = ROAS /\
    InsightRecommendation.priority f_roas = "high" /\
    InsightRecommendation.condition f_roas = "ROAS 1.80 (1-2 range)" /\
    contains "1-2 range" (InsightRecommendation.condition f_roas) = true /\
    InsightGraph.ctr_insights state = [] /\
    InsightGraph.conversion_insights state = [f_conv] /\
    InsightRecommendation.category f_conv = CONVERSION /\
    InsightRecommendation.priority f_conv = "low" /\
    InsightRecommendation.condition f_conv = "Strong ATC→Purchase rate 37.5%" /\
    contains "Strong ATC→Purchase rate" (InsightRecommendation.condition f_conv)
    = true /\
    InsightGraph.frequency_insights state = [] /\
    InsightGraph.all_insights state = [f_roas; f_conv] /\
    InsightGraph.ad_insights state = [d] /\
    AdInsight.status d = TEST /\
    AdInsight.issues d = [] /\
    AdInsight.recommendations d
    = [InsightRecommendation.recommendation f_roas;
       InsightRecommendation.recommendation f_conv] /\
    (fle (lit 10 (-1)) (lit 18 (-1)) && fle (lit 18 (-1)) (lit 25 (-1))) = true /\
    (flt (lit 18 (-1)) (lit 10 (-1)) && fgt (float_of_Z 1500) (lit 50 0)) = false /\
    (fgt (lit 28 (-1)) (lit 50 (-1)) && flt (lit 16 (-1)) (lit 5 (-1))) = false) /\
  InsightAgentEngine.normalize_columns llm
    (AnalysisRequest.mk [scenario_record] None)
  = Ok (of_strs
          [("spend", "spend"); ("roas", "roas"); ("ctr", "ctr");
           ("frequency", "frequency"); ("impressions", "impressions");
           ("purchases", "purchases"); ("purchase_value", "purchases");
           ("add_to_cart", "ad_name"); ("atc_to_purchase", "purchases")],
        [of_record
           [("spend", VInt 1500); ("roas", VFloat (lit 18 (-1)));
            ("ctr", VFloat (lit 16 (-1))); ("frequency", VFloat (lit 28 (-1)));
            ("impressions", VInt 75000); ("purchases", VFloat (lit 375 (-1)));
            ("ad_name", VInt 120)]]) /\
  (exists response f_roas f_conv d,
    InsightAgentEngine.analyze repr llm (llm_says content) llm_model
      (AnalysisRequest.mk [scenario_record] None)
    = InsightGraphSummary.Returned response /\
    AnalysisResponse.insights response = [f_roas; f_conv] /\
    InsightRecommendation.category f_roas = ROAS /\
    InsightRecommendation.priority f_roas = "high" /\
    InsightRecommendation.condition f_roas = "ROAS 1.80 (1-2 range)" /\
    InsightRecommendation.category f_conv = CONVERSION /\
    InsightRecommendation.priority f_conv = "high" /\
    InsightRecommendation.condition f_conv
    = "Low cart adds (0) despite clicks" /\
    AnalysisResponse.ad_insights response = [d] /\
    AdInsight.status d = FIX /\
    AdInsight.ad_name d = "120" /\
    AdInsight.issues d
    = ["ROAS 1.80 (1-2 range)"; "Low cart adds (0) despite clicks"]) /\
  (forall llm_invoke response,
      InsightAgentEngine.analyze repr llm llm_invoke llm_model
        (AnalysisRequest.mk [scenario_record] None)
      = InsightGraphSummary.Returned response ->
      map AdInsight.status (AnalysisResponse.ad_insights response) = [FIX] /\
      map InsightRecommendation.condition (AnalysisResponse.insights response)
      = ["ROAS 1.80 (1-2 range)"; "Low cart adds (0) despite clicks"]) /\
  (exists response,
    InsightAgentEngine.analyze repr llm (llm_says content) llm_model
      (AnalysisRequest.mk [scenario_record]
         (Some (identity_mapping scenario_record)))
    = InsightGraphSummary.Returned response /\
    map AdInsight.status (AnalysisResponse.ad_insights response) = [TEST] /\
    map InsightRecommendation.condition (AnalysisResponse.insights response)
    = ["ROAS 1.80 (1-2 range)"; "Strong ATC→Purchase rate 37.5%"] /\
    map InsightRecommendation.priority (AnalysisResponse.insights response)
    = ["high"; "low"]).
Proof.
  split; [|split; [|split; [|split]]].
  - destruct (InsightGraph.run repr [scenario_record]) as [state|e] eqn:E;
      vm_compute in E; [|discriminate].
    injection E as <-.
    do 4 eexists. split; [reflexivity|].
    cbn [InsightGraph.roas_insights InsightGraph.ctr_insights
         InsightGraph.conversion_insights InsightGraph.frequency_insights
         InsightGraph.all_insights InsightGraph.ad_insights].
    split; [reflexivity|].
    repeat (split; [vm_compute; reflexivity|]).
    vm_compute; reflexivity.
  - vm_compute. reflexivity.
  - destruct (InsightAgentEngine.analyze repr llm (llm_says content) llm_model
                (AnalysisRequest.mk [scenario_record] None))
      as [response|e|k] eqn:E; vm_compute in E; try discriminate.
    injection E as <-.
    do 4 eexists. split; [reflexivity|].
    cbn [AnalysisResponse.insights AnalysisResponse.ad_insights].
    split; [reflexivity|].
    repeat (split; [vm_compute; reflexivity|]).
    vm_compute; reflexivity.
  - intros llm_invoke response.
    unfold InsightAgentEngine.analyze.
    destruct (InsightAgentEngine.normalize_columns llm
                (AnalysisRequest.mk [scenario_record] None))
      as [[mapping normalized]|e] eqn:En; vm_compute in En; [|discriminate].
    injection En as <- <-.
    unfold InsightGraphSummary.invoke.
    destruct (InsightGraph.run repr _) as [state|e] eqn:Er;
      vm_compute in Er; [|discriminate].
    injection Er as <-.
    unfold InsightGraphSummary._generate_summary.
    cbn [InsightGraph.metrics_overview].
    destruct (llm_invoke _) as [c|e]; [|discriminate].
    intros H. injection H as <-.
    split; vm_compute; reflexivity.
  - destruct (InsightAgentEngine.analyze repr llm (llm_says content) llm_model
                (AnalysisRequest.mk [scenario_record]
                   (Some (identity_mapping scenario_record))))
      as [response|e|k] eqn:E; vm_compute in E; try discriminate.
    injection E as <-.
    eexists. split; [reflexivity|].
    split; [vm_compute; reflexivity|].
    split; vm_compute; reflexivity.
Qed.

(** The same record sent through [normalize_data] without a mapping, as
    [engine.analyze] does: the canonical names [purchase_value],
    [add_to_cart] and [atc_to_purchase] are renamed by fuzzy matching, the
    conversion analyzer then sees no cart adds, and the decision is fix. *)
Lemma scenario_through_fuzzy_matching (repr : value -> result string)
  (llm : list string -> result value) :
  ColumnMapper.normalize_data llm [scenario_record] None
  = Ok [of_record
          [("spend", VInt 1500); ("roas", VFloat (lit 18 (-1)));
           ("ctr", VFloat (lit 16 (-1))); ("frequency", VFloat (lit 28 (-1)));
           ("impressions", VInt 75000); ("purchases", VFloat (lit 375 (-1)));
           ("ad_name", VInt 120)]] /\
  exists state,
    InsightGraph.run repr
      [[("spend", VInt 1500); ("roas", VFloat (lit 18 (-1)));
        ("ctr", VFloat (lit 16 (-1))); ("frequency", VFloat (lit 28 (-1)));
        ("impressions", VInt 75000); ("purchases", VFloat (lit 375 (-1)));
        ("ad_name", VInt 120)]] = Ok state /\
    map AdInsight.status (InsightGraph.ad_insights state) = [FIX] /\
    map InsightRecommendation.condition (InsightGraph.conversion_insights state)
    = ["Low cart adds (0) despite clicks"].
Proof.
  split; [vm_compute; reflexivity|].
  destruct (InsightGraph.run repr _) as [state|e] eqn:E;
    vm_compute in E; [|discriminate].
  injection E as <-. eexists. split; [reflexivity|].
  split; vm_compute; reflexivity.
Qed.

(** ** The recommendations of a decision *)

Section Recommendations.

Import StatusDecisionAgent.

Variable repr : value -> result string.

Lemma firstn_length_le {A : Type} (n : nat) (l : list A) :
  List.length (firstn n l) <= n.
Proof. rewrite length_firstn. apply Nat.le_min_l. Qed.

(** C9. A decision that [decide_status] returns has at most five
    recommendations: the first five of what the matched branch of the
    cascade collected, and, when that branch collected none, the
    recommendations of the first three findings that affect the record, in
    the order of the supplied list of findings.  A decision is returned
    whenever the texts of [ad_id] and [ad_name] are built and the four
    metrics coerce. *)
Theorem C9_recommendations (row : dict value)
  (insights : list InsightRecommendation.t) :
  (forall d,
      decide_status repr row insights = Ok d ->
      List.length (AdInsight.recommendations d) <= 5 /\
      exists ad_id roas ctr spend frequency,
        str_field repr row "ad_id" = Ok ad_id /\
        _get_value row "roas" fzero = Ok roas /\
        _get_value row "ctr" fzero = Ok ctr /\
        _get_value row "spend" fzero = Ok spend /\
        _get_value row "frequency" fzero = Ok frequency /\
        let ad_insights :=
          filter (fun i => mem ad_id (InsightRecommendation.affected_ads i))
            insights in
        let high :=
          filter
            (fun i => String.eqb (InsightRecommendation.priority i) "high")
            ad_insights in
        let populated :=
          snd (fst (cascade roas ctr spend frequency ad_insights high)) in
        (populated = [] ->
         AdInsight.recommendations d
         = map InsightRecommendation.recommendation (firstn 3 ad_insights)) /\
        (populated <> [] ->
         AdInsight.recommendations d = firstn 5 populated)) /\
  (forall ad_id ad_name roas ctr spend frequency,
      str_field repr row "ad_id" = Ok ad_id ->
      str_field repr row "ad_name" = Ok ad_name ->
      _get_value row "roas" fzero = Ok roas ->
      _get_value row "ctr" fzero = Ok ctr ->
      _get_value row "spend" fzero = Ok spend ->
      _get_value row "frequency" fzero = Ok frequency ->
      exists d, decide_status repr row insights = Ok d).
Proof.
  split.
  - intros d Hd.
    destruct (decide_status_returns _ _ _ Hd)
      as (ad_id & ad_name & roas & ctr & spend & frequency
          & Hi & Hn & Hr & Hc & Hs & Hf).
    rewrite (decide_status_coerced repr row insights Hi Hn Hr Hc Hs Hf) in Hd.
    cbv zeta in Hd. unfold insights_for in Hd.
    set (ad_insights := filter _ insights) in Hd.
    set (c := cascade roas ctr spend frequency ad_insights _) in Hd.
    set (recs := firstn 5 _) in Hd.
    injection Hd as <-.
    cbn [AdInsight.recommendations]. subst recs.
    split; [apply firstn_length_le|].
    exists ad_id, roas, ctr, spend, frequency.
    repeat (split; [assumption|]). cbv zeta.
    fold ad_insights. fold c.
    split.
    + intros ->. cbn [default_recommendations].
      apply firstn_all2. rewrite length_map.
      etransitivity; [apply firstn_length_le|]. repeat constructor.
    + intros Hne. destruct (snd (fst c)); [contradiction|reflexivity].
  - intros ad_id ad_name roas ctr spend frequency Hi Hn Hr Hc Hs Hf.
    rewrite (decide_status_coerced repr row insights Hi Hn Hr Hc Hs Hf).
    eauto.
Qed.

End Recommendations.

(** A paused record with four findings of its own among five: the branch
    collects nothing and the decision carries the first three. *)
Lemma C9_first_three_example :
  exists d,
    StatusDecisionAgent.decide_status repr_any precedence_record
      [finding_for "unknown" "r1"; finding_for "ad_7" "x";
       finding_for "unknown" "r2"; finding_for "unknown" "r3";
       finding_for "unknown" "r4"] = Ok d /\
    AdInsight.recommendations d = ["r1"; "r2"; "r3"].
Proof.
  destruct (@C9_recommendations repr_any precedence_record
              [finding_for "unknown" "r1"; finding_for "ad_7" "x";
               finding_for "unknown" "r2"; finding_for "unknown" "r3";
               finding_for "unknown" "r4"]) as [Hany Hret].
  destruct (Hret "unknown" "unknown"
              (lit 5 (-1)) (lit 2 (-1)) (float_of_Z 100) (float_of_Z 6)
              ltac:(vm_compute; reflexivity) ltac:(vm_compute; reflexivity)
              ltac:(vm_compute; reflexivity) ltac:(vm_compute; reflexivity)
              ltac:(vm_compute; reflexivity) ltac:(vm_compute; reflexivity))
    as [d Hd].
  exists d. split; [exact Hd|].
  destruct (Hany d Hd)
    as (_ & ad_id & roas & ctr & spend & frequency
        & Hi & Hr & Hc & Hs & Hf & Hnone & _).
  vm_compute in Hi, Hr, Hc, Hs, Hf.
  injection Hi as <-. injection Hr as <-. injection Hc as <-.
  injection Hs as <-. injection Hf as <-.
  rewrite Hnone; vm_compute; reflexivity.
Defined.

(** ** The ads a finding affects *)

Section AffectedAds.

Variable repr : value -> result string.

Lemma for_each_Forall {A B : Type} (Q : B -> Prop)
  (body : A -> result (list B)) (data : list A) :
  (forall row new, In row data -> body row = Ok new -> Forall Q new) ->
  forall insights out,
    Forall Q insights -> for_each body data insights = Ok out -> Forall Q out.
Proof.
  induction data as [|row rest IH]; intros Hbody insights out Hacc H; cbn in H.
  - now injection H as <-.
  - destruct (body row) as [new|e] eqn:Hrow; cbn in H; [|discriminate].
    eapply IH; [| |exact H].
    + intros r n Hr. apply Hbody. now right.
    + apply Forall_app. split; [exact Hacc|].
      eapply Hbody; [now left|exact Hrow].
Qed.


(** The findings in [new] affect the ad [id] and no other. *)
Local Abbreviation sole_ad :=
  (fun (row : dict value) (new : list InsightRecommendation.t) =>
     exists id,
       str_field repr row "ad_id" = Ok id /\
       Forall (fun f => InsightRecommendation.affected_ads f = [id]) new).

Ltac coerce_all H :=
  repeat match type of H with
         | context [_get_value ?r ?k ?d] =>
             destruct (_get_value r k d); cbn [bind] in H; [|discriminate]
         end;
  match type of H with
  | context [str_field ?r ?row ?k] =>
      let id := fresh "id" in
      destruct (str_field r row k) as [id|]; cbn [bind] in H;
      [exists id; split; [reflexivity|] | discriminate]
  end.

Ltac branch_all H :=
  repeat match type of H with
         | (if ?b then _ else _) = _ => destruct b
         | context [int_of_float ?x] =>
             destruct (int_of_float x); cbn [bind] in H; [|discriminate]
         end;
  injection H as <-; repeat constructor.

Lemma ROAS_row_sole_ad (row : dict value) new :
  ROASAgent.analyze_row repr row = Ok new -> sole_ad row new.
Proof.
  unfold ROASAgent.analyze_row. intros H. coerce_all H. branch_all H.
Qed.

Lemma CTR_row_sole_ad (row : dict value) new :
  CTRAgent.analyze_row repr row = Ok new -> sole_ad row new.
Proof.
  unfold CTRAgent.analyze_row. intros H. coerce_all H. branch_all H.
Qed.

Lemma Conversion_row_sole_ad (row : dict value) new :
  ConversionAgent.analyze_row repr row = Ok new -> sole_ad row new.
Proof.
  unfold ConversionAgent.analyze_row. intros H. coerce_all H. branch_all H.
Qed.

Lemma Frequency_row_sole_ad (row : dict value) new :
  FrequencyAgent.analyze_row repr row = Ok new -> sole_ad row new.
Proof.
  unfold FrequencyAgent.analyze_row. intros H. coerce_all H. branch_all H.
Qed.

(** A finding names the text of the [ad_id] of a record of the input. *)
Local Abbreviation names_a_record :=
  (fun (data : list (dict value)) (f : InsightRecommendation.t) =>
     exists row id,
       In row data /\ str_field repr row "ad_id" = Ok id /\
       InsightRecommendation.affected_ads f = [id]).







End AffectedAds.



(* ================================================================= *)
(** * Further properties of the analyzers *)

Section AnalyzerRows.

Variable repr : value -> result string.

Lemma for_each_length {A B : Type} (body : A -> result (list B))
  (data : list A) :
  (forall row new, body row = Ok new -> List.length new <= 1) ->
  forall insights out,
    for_each body data insights = Ok out ->
    List.length out <= List.length insights + List.length data.
Proof.
  intros Hbody. induction data as [|row rest IH]; intros insights out H;
    cbn in H.
  - injection H as <-. cbn. lia.
  - destruct (body row) as [new|e] eqn:Hrow; cbn in H; [|discriminate].
    apply IH in H. rewrite length_app in H.
    pose proof (Hbody row new Hrow). cbn. lia.
Qed.

Lemma for_each_raises {A B : Type} (body : A -> result (list B))
  (data : list A) (row : A) (e : exn) :
  In row data -> body row = Raise e ->
  forall insights, exists e', for_each body data insights = Raise e'.
Proof.
  induction data as [|r rest IH]; intros Hin Hrow insights; [destruct Hin|].
  cbn. destruct (body r) as [new|e0] eqn:Hr; cbn; [|now exists e0].
  destruct Hin as [->|Hin]; [congruence|]. now apply IH.
Qed.

Ltac coerce_fields H :=
  repeat match type of H with
         | context [_get_value ?r ?k ?d] =>
             destruct (_get_value r k d); cbn [bind] in H; [|discriminate]
         end;
  match type of H with
  | context [str_field ?r ?row ?k] =>
      destruct (str_field r row k); cbn [bind] in H; [|discriminate]
  end.

Ltac take_branches H :=
  repeat match type of H with
         | (if ?b then _ else _) = _ => destruct b
         | context [int_of_float ?x] =>
             destruct (int_of_float x); cbn [bind] in H; [|discriminate]
         end;
  injection H as <-.

Local Abbreviation labelled_as :=
  (fun (c : InsightCategory) (ps : list string)
       (f : InsightRecommendation.t) =>
     InsightRecommendation.category f = c /\
     In (InsightRecommendation.priority f) ps).

Lemma ROAS_row_shape (row : dict value) new :
  ROASAgent.analyze_row repr row = Ok new ->
  List.length new <= 1 /\ Forall (labelled_as ROAS ["high"; "medium"]) new.
Proof.
  unfold ROASAgent.analyze_row. intros H. coerce_fields H. take_branches H;
    (split; [cbn; lia | repeat constructor; cbn; tauto]).
Qed.

Lemma CTR_row_shape (row : dict value) new :
  CTRAgent.analyze_row repr row = Ok new ->
  List.length new <= 1 /\ Forall (labelled_as CTR ["high"; "medium"]) new.
Proof.
  unfold CTRAgent.analyze_row. intros H. coerce_fields H. take_branches H;
    (split; [cbn; lia | repeat constructor; cbn; tauto]).
Qed.

Lemma Conversion_row_shape (row : dict value) new :
  ConversionAgent.analyze_row repr row = Ok new ->
  List.length new <= 1 /\ Forall (labelled_as CONVERSION ["high"; "low"]) new.
Proof.
  unfold ConversionAgent.analyze_row. intros H. coerce_fields H.
  take_branches H; (split; [cbn; lia | repeat constructor; cbn; tauto]).
Qed.

Lemma Frequency_row_shape (row : dict value) new :
  FrequencyAgent.analyze_row repr row = Ok new ->
  List.length new <= 1 /\ Forall (labelled_as FREQUENCY ["high"]) new.
Proof.
  unfold FrequencyAgent.analyze_row. intros H. coerce_fields H.
  take_branches H; (split; [cbn; lia | repeat constructor; cbn; tauto]).
Qed.

(** X1. An analyzer emits at most one finding per record: a run that returns
    returns no more findings than it was given records. *)
Theorem analyzers_emit_at_most_one_per_record (data : list (dict value)) :
  (forall out, ROASAgent.analyze repr data = Ok out ->
               List.length out <= List.length data) /\
  (forall out, CTRAgent.analyze repr data = Ok out ->
               List.length out <= List.length data) /\
  (forall out, ConversionAgent.analyze repr data = Ok out ->
               List.length out <= List.length data) /\
  (forall out, FrequencyAgent.analyze repr data = Ok out ->
               List.length out <= List.length data).
Proof.
  split; [|split; [|split]]; intros out H.
  - apply (for_each_length _ data
             (fun row new Hr => proj1 (ROAS_row_shape row Hr)) [] H).
  - apply (for_each_length _ data
             (fun row new Hr => proj1 (CTR_row_shape row Hr)) [] H).
  - apply (for_each_length _ data
             (fun row new Hr => proj1 (Conversion_row_shape row Hr)) [] H).
  - apply (for_each_length _ data
             (fun row new Hr => proj1 (Frequency_row_shape row Hr)) [] H).
Qed.

(** X2. Every finding carries the category of the analyzer that emitted it
    and one of its priorities: ROAS and CTR findings are high or medium,
    conversion findings high or low, frequency findings high.  So the sort
    key of an emitted finding is at most 2, never the rank of an unknown
    priority. *)
Theorem analyzers_label_their_findings (data : list (dict value)) :
  (forall out, ROASAgent.analyze repr data = Ok out ->
     Forall (fun f => InsightRecommendation.category f = ROAS /\
                      In (InsightRecommendation.priority f) ["high"; "medium"] /\
                      InsightGraph.priority_rank f <= 2) out) /\
  (forall out, CTRAgent.analyze repr data = Ok out ->
     Forall (fun f => InsightRecommendation.category f = CTR /\
                      In (InsightRecommendation.priority f) ["high"; "medium"] /\
                      InsightGraph.priority_rank f <= 2) out) /\
  (forall out, ConversionAgent.analyze repr data = Ok out ->
     Forall (fun f => InsightRecommendation.category f = CONVERSION /\
                      In (InsightRecommendation.priority f) ["high"; "low"] /\
                      InsightGraph.priority_rank f <= 2) out) /\
  (forall out, FrequencyAgent.analyze repr data = Ok out ->
     Forall (fun f => InsightRecommendation.category f = FREQUENCY /\
                      In (InsightRecommendation.priority f) ["high"] /\
                      InsightGraph.priority_rank f <= 2) out).
Proof.
  assert (R : forall (f : InsightRecommendation.t) ps,
             In (InsightRecommendation.priority f) ps ->
             incl ps ["high"; "medium"; "low"] ->
             InsightGraph.priority_rank f <= 2).
  { intros f ps Hin Hincl. apply Hincl in Hin. unfold InsightGraph.priority_rank.
    destruct Hin as [<-|[<-|[<-|[]]]]; cbn; lia. }
  split; [|split; [|split]]; intros out H;
    (eapply for_each_Forall; [| |exact H]; [|constructor]);
    intros row new _ Hr.
  - apply ROAS_row_shape in Hr. destruct Hr as [_ Hr].
    eapply Forall_impl; [|exact Hr]. cbv beta. intros f [Hc Hp].
    repeat split; try assumption. eapply R; [exact Hp|].
    intros p [<-|[<-|[]]]; cbn; tauto.
  - apply CTR_row_shape in Hr. destruct Hr as [_ Hr].
    eapply Forall_impl; [|exact Hr]. cbv beta. intros f [Hc Hp].
    repeat split; try assumption. eapply R; [exact Hp|].
    intros p [<-|[<-|[]]]; cbn; tauto.
  - apply Conversion_row_shape in Hr. destruct Hr as [_ Hr].
    eapply Forall_impl; [|exact Hr]. cbv beta. intros f [Hc Hp].
    repeat split; try assumption. eapply R; [exact Hp|].
    intros p [<-|[<-|[]]]; cbn; tauto.
  - apply Frequency_row_shape in Hr. destruct Hr as [_ Hr].
    eapply Forall_impl; [|exact Hr]. cbv beta. intros f [Hc Hp].
    repeat split; try assumption. eapply R; [exact Hp|].
    intros p [<-|[]]; cbn; tauto.
Qed.

End AnalyzerRows.

(** ** Where an analyzer raises *)

Section AnalyzerErrors.

Variable repr : value -> result string.

(** X3. [int(impressions)] is evaluated when the low-CTR branch of the CTR
    analyzer fires, and raises on an infinite value: a record whose
    impressions coerce to infinity (the text "inf", say), whose ctr is below
    1.0 and on which the first branch does not fire makes the analysis of
    any record list that holds it raise.  Alone, it raises [OverflowError]
    when the text of its [ad_id] is built, and what [str] raised when it is
    not: the text is built before the branches are tried. *)
Theorem CTR_infinite_impressions_raise (data : list (dict value))
  (row : dict value) (ctr ctr_7d ctr_prev_7d ctr_drop : float) :
  In row data ->
  _get_value row "ctr" fzero = Ok ctr ->
  _get_value row "ctr_7d" fzero = Ok ctr_7d ->
  _get_value row "ctr_prev_7d" fzero = Ok ctr_prev_7d ->
  _get_value row "ctr_drop" fzero = Ok ctr_drop ->
  _get_value row "impressions" fzero = Ok (S754_infinity false) ->
  (fgt ctr_drop (lit 30 0)
   || (fgt ctr_prev_7d (lit 0 0)
       && flt ctr_7d (fmul ctr_prev_7d (lit 7 (-1))))) = false ->
  flt ctr (lit 10 (-1)) = true ->
  (forall ad_id, str_field repr row "ad_id" = Ok ad_id ->
                 CTRAgent.analyze repr [row] = Raise OverflowError) /\
  (forall e, str_field repr row "ad_id" = Raise e ->
             CTRAgent.analyze repr [row] = Raise e) /\
  exists e, CTRAgent.analyze repr data = Raise e.
Proof.
  intros Hin Hc H7 Hp Hd Hi Hfirst Hlow.
  assert (Hrow : CTRAgent.analyze_row repr row
                 = (ad_id <- str_field repr row "ad_id" ;;
                    Raise OverflowError)).
  { unfold CTRAgent.analyze_row. rewrite Hc, H7, Hp, Hd, Hi. cbn [bind].
    rewrite Hfirst, Hlow.
    replace (fgt (S754_infinity false) (lit 1000 0)) with true
      by (vm_compute; reflexivity).
    reflexivity. }
  unfold CTRAgent.analyze. rewrite for_each_single, Hrow.
  split; [intros ad_id ->; reflexivity|].
  split; [intros e ->; reflexivity|].
  destruct (str_field repr row "ad_id") as [ad_id|e] eqn:E;
    cbn [bind] in Hrow; eapply for_each_raises; eassumption.
Qed.

(** X4. [int(add_to_cart)] is evaluated when the low-cart branch of the
    conversion analyzer fires: a record whose cart adds coerce to minus
    infinity and whose ctr is above 1.0 makes the analysis of any record
    list that holds it raise.  Alone, it raises [OverflowError] when the
    text of its [ad_id] is built, and what [str] raised when it is not. *)
Theorem Conversion_infinite_cart_adds_raise (data : list (dict value))
  (row : dict value) (atc_to_purchase ctr purchases : float) :
  In row data ->
  _get_value row "atc_to_purchase" fzero = Ok atc_to_purchase ->
  _get_value row "ctr" fzero = Ok ctr ->
  _get_value row "add_to_cart" fzero = Ok (S754_infinity true) ->
  _get_value row "purchases" fzero = Ok purchases ->
  fgt ctr (lit 10 (-1)) = true ->
  (forall ad_id, str_field repr row "ad_id" = Ok ad_id ->
                 ConversionAgent.analyze repr [row] = Raise OverflowError) /\
  (forall e, str_field repr row "ad_id" = Raise e ->
             ConversionAgent.analyze repr [row] = Raise e) /\
  exists e, ConversionAgent.analyze repr data = Raise e.
Proof.
  intros Hin Ha Hc Hcart Hp Hctr.
  assert (Hrow : ConversionAgent.analyze_row repr row
                 = (ad_id <- str_field repr row "ad_id" ;;
                    Raise OverflowError)).
  { unfold ConversionAgent.analyze_row. rewrite Ha, Hc, Hcart, Hp.
    cbn [bind]. rewrite Hctr.
    replace (fgt (S754_infinity true) (lit 10 0)) with false
      by (vm_compute; reflexivity).
    replace (flt (S754_infinity true) (lit 5 0)) with true
      by (vm_compute; reflexivity).
    rewrite andb_false_r. reflexivity. }
  unfold ConversionAgent.analyze. rewrite for_each_single, Hrow.
  split; [intros ad_id ->; reflexivity|].
  split; [intros e ->; reflexivity|].
  destruct (str_field repr row "ad_id") as [ad_id|e] eqn:E;
    cbn [bind] in Hrow; eapply for_each_raises; eassumption.
Qed.

(** X7. A ctr drop above 30 decides the CTR analyzer: the record gets the
    high-priority "CTR dropped" finding whatever its ctr and its impressions
    are, infinite impressions included.  The finding names the text of the
    record's [ad_id]; when that text cannot be built the analyzer raises
    what [str] raised. *)
Theorem CTR_drop_takes_precedence (row : dict value)
  (ctr ctr_7d ctr_prev_7d ctr_drop impressions : float) :
  _get_value row "ctr" fzero = Ok ctr ->
  _get_value row "ctr_7d" fzero = Ok ctr_7d ->
  _get_value row "ctr_prev_7d" fzero = Ok ctr_prev_7d ->
  _get_value row "ctr_drop" fzero = Ok ctr_drop ->
  _get_value row "impressions" fzero = Ok impressions ->
  fgt ctr_drop (lit 30 0) = true ->
  (forall ad_id,
      str_field repr row "ad_id" = Ok ad_id ->
      CTRAgent.analyze repr [row]
      = Ok [InsightRecommendation.mk CTR
              ("CTR dropped " ++ format_f 1 ctr_drop ++ "% vs previous period")
              "Creative fatigue detected; rotate in fresh ad creative; test new angles/hooks"
              "high" [ad_id]
              [("ctr", ctr); ("ctr_7d", ctr_7d); ("ctr_prev_7d", ctr_prev_7d);
               ("ctr_drop", ctr_drop)]]) /\
  (forall e, str_field repr row "ad_id" = Raise e ->
             CTRAgent.analyze repr [row] = Raise e).
Proof.
  intros Hc H7 Hp Hd Hi Hdrop.
  unfold CTRAgent.analyze. rewrite for_each_single.
  unfold CTRAgent.analyze_row. rewrite Hc, H7, Hp, Hd, Hi. cbn [bind].
  split.
  - intros ad_id ->. cbn [bind]. rewrite Hdrop. reflexivity.
  - intros e ->. reflexivity.
Qed.

(** Above 5 is above 3.5. *)
Lemma fgt_5_0_3_5 (x : float) :
  fgt x (lit 50 (-1)) = true -> fgt x (lit 35 (-1)) = true.
Proof.
  replace (lit 50 (-1)) with (S754_finite false 5629499534213120 (-50))
    by (vm_compute; reflexivity).
  replace (lit 35 (-1)) with (S754_finite false 7881299347898368 (-51))
    by (vm_compute; reflexivity).
  unfold fgt, SFltb, SFcompare.
  destruct x as [s|[|]| |[|] m e]; try discriminate; try reflexivity.
  destruct (Z.compare_spec (-50) e) as [E|E|E];
    destruct (Z.compare_spec (-51) e) as [E'|E'|E'];
    try lia; try discriminate; reflexivity.
Qed.

(** X8. The frequency analyzer by its thresholds, on a record the text of
    whose [ad_id] is built: a frequency above 5.0 always gives one
    high-priority frequency finding, through either branch; a frequency that
    is not above 3.5 gives none.  When the text cannot be built the analyzer
    raises what [str] raised, at any frequency. *)
Theorem Frequency_thresholds (row : dict value) (frequency ctr ctr_drop : float) :
  _get_value row "frequency" fzero = Ok frequency ->
  _get_value row "ctr" fzero = Ok ctr ->
  _get_value row "ctr_drop" fzero = Ok ctr_drop ->
  (forall ad_id,
      str_field repr row "ad_id" = Ok ad_id ->
      (fgt frequency (lit 50 (-1)) = true ->
       exists f, FrequencyAgent.analyze repr [row] = Ok [f] /\
                 InsightRecommendation.category f = FREQUENCY /\
                 InsightRecommendation.priority f = "high" /\
                 InsightRecommendation.affected_ads f = [ad_id]) /\
      (fgt frequency (lit 35 (-1)) = false ->
       FrequencyAgent.analyze repr [row] = Ok [])) /\
  (forall e, str_field repr row "ad_id" = Raise e ->
             FrequencyAgent.analyze repr [row] = Raise e).
Proof.
  intros Hf Hc Hd.
  unfold FrequencyAgent.analyze. rewrite for_each_single.
  unfold FrequencyAgent.analyze_row. rewrite Hf, Hc, Hd. cbn [bind].
  split; [|intros e ->; reflexivity].
  intros ad_id ->. cbn [bind]. split.
  - intros H5. rewrite H5, (fgt_5_0_3_5 _ H5). cbn [andb].
    destruct (fgt ctr_drop (lit 20 0) || flt ctr (lit 10 (-1)));
      eexists; repeat split.
  - intros H35. rewrite H35. cbn [andb].
    destruct (fgt frequency (lit 50 (-1))) eqn:H5; [|reflexivity].
    rewrite (fgt_5_0_3_5 _ H5) in H35. discriminate.
Qed.

End AnalyzerErrors.

(** X5. A field that is present but falsy (0, 0.0, -0.0, [False], [None], the
    empty string, an empty list or dictionary) coerces to the default, not to
    zero. *)
Theorem falsy_value_is_default (row : dict value) (key : string)
  (default : float) (v : value) :
  dget row key = Some v -> truthy v = false ->
  _get_value row key default = Ok default.
Proof.
  intros Hv Hf. unfold _get_value, dget_default. rewrite Hv.
  destruct v as [|b|z|f|s|l|d]; cbn in Hf |- *; try (now rewrite Hf).
  - reflexivity.
  - apply negb_false_iff, String.eqb_eq in Hf. subst s. reflexivity.
Qed.

(** X6. How a coercion ends, by the value stored under the key: on a list or
    a dictionary that is not empty it raises [TypeError]; on an integer too
    large for a float it raises [OverflowError]; on every other value, and
    on a missing key, it returns a float. *)
Theorem coercion_outcome (row : dict value) (key : string) (default : float) :
  (forall x l, dget row key = Some (VList (x :: l)) ->
               _get_value row key default = Raise TypeError) /\
  (forall x d, dget row key = Some (VDict (x :: d)) ->
               _get_value row key default = Raise TypeError) /\
  (forall z, dget row key = Some (VInt z) ->
             float_of_int z = Raise OverflowError ->
             _get_value row key default = Raise OverflowError) /\
  ((forall x l, dget row key <> Some (VList (x :: l))) ->
   (forall x d, dget row key <> Some (VDict (x :: d))) ->
   (forall z, dget row key = Some (VInt z) ->
              float_of_int z <> Raise OverflowError) ->
   exists y, _get_value row key default = Ok y).
Proof.
  split; [|split; [|split]].
  - intros x l H. unfold _get_value, dget_default. now rewrite H.
  - intros x d H. unfold _get_value, dget_default. now rewrite H.
  - intros z H Hz. unfold _get_value, dget_default. rewrite H. cbn.
    destruct (z =? 0)%Z eqn:E; [|exact Hz].
    apply Z.eqb_eq in E. subst z. discriminate.
  - intros Hl Hd Hz.
    destruct (_get_value row key default) as [y|e] eqn:E; [now exists y|].
    exfalso.
    destruct (proj1 (_get_value_raises_iff row key default)
                (ex_intro _ e E))
      as [(x & l & H)|[(x & d & H)|(z & H & Ho)]].
    + now apply (Hl x l).
    + now apply (Hd x d).
    + now apply (Hz z).
Qed.

Lemma CTR_infinite_impressions_example :
  CTRAgent.analyze repr_any [infinite_impressions_record]
  = Raise OverflowError /\
  exists e, CTRAgent.analyze repr_any
              [scenario_record; infinite_impressions_record] = Raise e.
Proof.
  split.
  - apply (@CTR_infinite_impressions_raise repr_any
             [infinite_impressions_record] infinite_impressions_record
             (lit 5 (-1)) fzero fzero fzero (or_introl eq_refl)
             ltac:(vm_compute; reflexivity) ltac:(vm_compute; reflexivity)
             ltac:(vm_compute; reflexivity) ltac:(vm_compute; reflexivity)
             ltac:(vm_compute; reflexivity) ltac:(vm_compute; reflexivity)
             ltac:(vm_compute; reflexivity)) with (ad_id := "unknown").
    reflexivity.
  - apply (@CTR_infinite_impressions_raise repr_any
             [scenario_record; infinite_impressions_record]
             infinite_impressions_record (lit 5 (-1)) fzero fzero fzero
             (or_intror (or_introl eq_refl))
             ltac:(vm_compute; reflexivity) ltac:(vm_compute; reflexivity)
             ltac:(vm_compute; reflexivity) ltac:(vm_compute; reflexivity)
             ltac:(vm_compute; reflexivity) ltac:(vm_compute; reflexivity)
             ltac:(vm_compute; reflexivity)).
Defined.

Lemma Conversion_infinite_cart_example :
  ConversionAgent.analyze repr_any [infinite_cart_record] = Raise OverflowError.
Proof.
  apply (@Conversion_infinite_cart_adds_raise repr_any [infinite_cart_record]
           infinite_cart_record fzero (float_of_Z 2) fzero
           (or_introl eq_refl)
           ltac:(vm_compute; reflexivity) ltac:(vm_compute; reflexivity)
           ltac:(vm_compute; reflexivity) ltac:(vm_compute; reflexivity)
           ltac:(vm_compute; reflexivity)) with (ad_id := "unknown").
  reflexivity.
Defined.

Lemma CTR_drop_example :
  exists f, CTRAgent.analyze repr_any [dropped_ctr_record] = Ok [f] /\
            InsightRecommendation.condition f
            = "CTR dropped 45.8% vs previous period".
Proof.
  eexists. split.
  - apply (@CTR_drop_takes_precedence repr_any dropped_ctr_record
             (lit 5 (-1)) fzero fzero (lit 458 (-1)) (S754_infinity false)
             ltac:(vm_compute; reflexivity) ltac:(vm_compute; reflexivity)
             ltac:(vm_compute; reflexivity) ltac:(vm_compute; reflexivity)
             ltac:(vm_compute; reflexivity) ltac:(vm_compute; reflexivity))
      with (ad_id := "unknown").
    reflexivity.
  - vm_compute. reflexivity.
Defined.

Lemma Frequency_thresholds_example :
  (exists f, FrequencyAgent.analyze repr_any [saturated_record] = Ok [f] /\
             InsightRecommendation.priority f = "high") /\
  FrequencyAgent.analyze repr_any [scenario_record] = Ok [].
Proof.
  split.
  - destruct (@Frequency_thresholds repr_any saturated_record
                (float_of_Z 6) fzero fzero
                ltac:(vm_compute; reflexivity) ltac:(vm_compute; reflexivity)
                ltac:(vm_compute; reflexivity)) as [H _].
    destruct (H "unknown" eq_refl) as [H5 _].
    destruct (H5 ltac:(vm_compute; reflexivity)) as (f & Hf & _ & Hp & _).
    now exists f.
  - destruct (@Frequency_thresholds repr_any scenario_record
                (lit 28 (-1)) (lit 16 (-1)) fzero
                ltac:(vm_compute; reflexivity) ltac:(vm_compute; reflexivity)
                ltac:(vm_compute; reflexivity)) as [H _].
    destruct (H "unknown" eq_refl) as [_ H35].
    apply H35. vm_compute. reflexivity.
Defined.

Lemma falsy_value_example :
  _get_value [("spend", VInt 0)] "spend" (lit 75 (-1)) = Ok (lit 75 (-1)) /\
  _get_value [("spend", VStr "")] "spend" (lit 75 (-1)) = Ok (lit 75 (-1)).
Proof.
  split.
  - apply (@falsy_value_is_default [("spend", VInt 0)] "spend" (lit 75 (-1))
             (VInt 0)); reflexivity.
  - apply (@falsy_value_is_default [("spend", VStr "")] "spend" (lit 75 (-1))
             (VStr "")); reflexivity.
Defined.

(* ================================================================= *)
(** * Further properties of the status decider *)

Section DeciderBranches.

Import StatusDecisionAgent.

Variable repr : value -> result string.

(** X9. Fix is decided before test: a record that neither pause guard takes
    and that has two or more high-priority findings is given the status fix,
    also when its roas lies in the test range; its issues are the conditions
    of those findings and its recommendations the first five of theirs. *)
Theorem fix_is_decided_before_test (row : dict value)
  (insights : list InsightRecommendation.t) (ad_id ad_name : string)
  (roas ctr spend frequency : float) :
  str_field repr row "ad_id" = Ok ad_id ->
  str_field repr row "ad_name" = Ok ad_name ->
  _get_value row "roas" fzero = Ok roas ->
  _get_value row "ctr" fzero = Ok ctr ->
  _get_value row "spend" fzero = Ok spend ->
  _get_value row "frequency" fzero = Ok frequency ->
  (flt roas (lit 10 (-1)) && fgt spend (lit 50 0)) = false ->
  (fgt frequency (lit 50 (-1)) && flt ctr (lit 5 (-1))) = false ->
  2 <= List.length
         (filter (fun i => String.eqb (InsightRecommendation.priority i) "high")
            (insights_for ad_id insights)) ->
  exists d,
    decide_status repr row insights = Ok d /\
    AdInsight.status d = FIX /\
    AdInsight.issues d
    = map InsightRecommendation.condition
        (filter (fun i => String.eqb (InsightRecommendation.priority i) "high")
           (insights_for ad_id insights)) /\
    AdInsight.recommendations d
    = firstn 5
        (map InsightRecommendation.recommendation
           (filter (fun i => String.eqb (InsightRecommendation.priority i) "high")
              (insights_for ad_id insights))).
Proof.
  intros Hi Hn Hr Hc Hs Hf Hg1 Hg2 Hhigh.
  rewrite (decide_status_coerced repr row insights Hi Hn Hr Hc Hs Hf).
  cbv zeta. unfold cascade. rewrite Hg1, Hg2.
  set (high := filter _ (insights_for _ insights)) in *.
  rewrite (proj2 (Nat.leb_le 2 (List.length high)) Hhigh).
  cbn [fst snd]. eexists. split; [reflexivity|].
  cbn [AdInsight.status AdInsight.issues AdInsight.recommendations].
  split; [reflexivity|]. split; [reflexivity|].
  destruct high as [|a high']; [cbn in Hhigh; lia|]. reflexivity.
Qed.

(** X10. The second pause guard: a record the first guard does not take,
    whose frequency is above 5.0 and whose ctr is below 0.5, is paused with
    the single issue "Severe fatigue: Frequency <f>, CTR <c>%", and carries
    the recommendations of its first three findings. *)
Theorem severe_fatigue_is_paused (row : dict value)
  (insights : list InsightRecommendation.t) (ad_id ad_name : string)
  (roas ctr spend frequency : float) :
  str_field repr row "ad_id" = Ok ad_id ->
  str_field repr row "ad_name" = Ok ad_name ->
  _get_value row "roas" fzero = Ok roas ->
  _get_value row "ctr" fzero = Ok ctr ->
  _get_value row "spend" fzero = Ok spend ->
  _get_value row "frequency" fzero = Ok frequency ->
  (flt roas (lit 10 (-1)) && fgt spend (lit 50 0)) = false ->
  fgt frequency (lit 50 (-1)) = true ->
  flt ctr (lit 5 (-1)) = true ->
  exists d,
    decide_status repr row insights = Ok d /\
    AdInsight.status d = PAUSE /\
    AdInsight.issues d
    = ["Severe fatigue: Frequency " ++ format_f 2 frequency ++ ", CTR "
         ++ format_f 2 ctr ++ "%"] /\
    AdInsight.recommendations d
    = map InsightRecommendation.recommendation
        (firstn 3 (insights_for ad_id insights)).
Proof.
  intros Hi Hn Hr Hc Hs Hf Hg1 Hfreq Hctr.
  rewrite (decide_status_coerced repr row insights Hi Hn Hr Hc Hs Hf).
  cbv zeta. unfold cascade. rewrite Hg1, Hfreq, Hctr. cbn [andb fst snd].
  eexists. split; [reflexivity|].
  cbn [AdInsight.status AdInsight.issues AdInsight.recommendations
       default_recommendations].
  split; [reflexivity|]. split; [reflexivity|].
  apply firstn_all2. rewrite length_map, length_firstn. lia.
Qed.

(** X11. What a decision carries, by its status: a paused record has exactly
    one issue; a record to fix has the conditions of its high-priority
    findings as issues, at least two; a record to test or to keep has none.
    Its id and name are the string forms of the record's fields. *)
Theorem issues_follow_the_status (row : dict value)
  (insights : list InsightRecommendation.t) (d : AdInsight.t) :
  decide_status repr row insights = Ok d ->
  str_field repr row "ad_id" = Ok (AdInsight.ad_id d) /\
  str_field repr row "ad_name" = Ok (AdInsight.ad_name d) /\
  match AdInsight.status d with
  | PAUSE => List.length (AdInsight.issues d) = 1
  | FIX =>
      AdInsight.issues d
      = map InsightRecommendation.condition
          (filter
             (fun i => String.eqb (InsightRecommendation.priority i) "high")
             (insights_for (AdInsight.ad_id d) insights)) /\
      2 <= List.length (AdInsight.issues d)
  | TEST | KEEP => AdInsight.issues d = []
  end.
Proof.
  intros H.
  destruct (decide_status_returns _ _ _ H)
    as (ad_id & ad_name & roas & ctr & spend & frequency
        & Hi & Hn & Hr & Hc & Hs & Hf).
  rewrite (decide_status_coerced repr row insights Hi Hn Hr Hc Hs Hf) in H.
  cbv zeta in H. injection H as <-.
  cbn [AdInsight.ad_id AdInsight.ad_name AdInsight.status AdInsight.issues].
  split; [exact Hi|]. split; [exact Hn|].
  unfold cascade.
  destruct (flt roas _ && fgt spend _); [reflexivity|].
  destruct (fgt frequency _ && flt ctr _); [reflexivity|].
  set (high := filter _ (insights_for _ insights)).
  destruct (2 <=? List.length high)%nat eqn:E.
  - cbn [fst snd]. split; [reflexivity|]. rewrite length_map.
    now apply Nat.leb_le.
  - destruct (_ || _); [reflexivity|].
    destruct (_ && _); reflexivity.
Qed.

(** X12. A record whose roas coerces to the default 0 (no roas field, say)
    and whose spend is above 50 is paused as unprofitable, with the issue
    "Unprofitable: ROAS 0.00". *)
Theorem absent_roas_is_unprofitable (row : dict value)
  (insights : list InsightRecommendation.t) (ad_id ad_name : string)
  (ctr spend frequency : float) :
  str_field repr row "ad_id" = Ok ad_id ->
  str_field repr row "ad_name" = Ok ad_name ->
  _get_value row "roas" fzero = Ok fzero ->
  _get_value row "ctr" fzero = Ok ctr ->
  _get_value row "spend" fzero = Ok spend ->
  _get_value row "frequency" fzero = Ok frequency ->
  fgt spend (lit 50 0) = true ->
  exists d,
    decide_status repr row insights = Ok d /\
    AdInsight.status d = PAUSE /\
    AdInsight.issues d = ["Unprofitable: ROAS 0.00"].
Proof.
  intros Hi Hn Hr Hc Hs Hf Hspend.
  rewrite (decide_status_coerced repr row insights Hi Hn Hr Hc Hs Hf).
  cbv zeta. unfold cascade. rewrite Hspend.
  replace (flt fzero (lit 10 (-1))) with true by (vm_compute; reflexivity).
  cbn [andb fst snd]. eexists. split; [reflexivity|].
  split; [reflexivity|]. cbn [AdInsight.issues].
  replace (format_f 2 fzero) with "0.00" by (vm_compute; reflexivity).
  reflexivity.
Qed.

End DeciderBranches.

Lemma fix_before_test_example :
  (fle (lit 10 (-1)) (lit 15 (-1)) && fle (lit 15 (-1)) (lit 25 (-1))) = true /\
  exists d,
    StatusDecisionAgent.decide_status repr_any midrange_record
      [urgent_finding "c1" "r1"; urgent_finding "c2" "r2"] = Ok d /\
    AdInsight.status d = FIX /\
    AdInsight.issues d = ["c1"; "c2"].
Proof.
  split; [vm_compute; reflexivity|].
  destruct (@fix_is_decided_before_test repr_any midrange_record
              [urgent_finding "c1" "r1"; urgent_finding "c2" "r2"]
              "unknown" "unknown" (lit 15 (-1)) fzero fzero fzero
              eq_refl eq_refl
              ltac:(vm_compute; reflexivity) ltac:(vm_compute; reflexivity)
              ltac:(vm_compute; reflexivity) ltac:(vm_compute; reflexivity)
              ltac:(vm_compute; reflexivity) ltac:(vm_compute; reflexivity)
              ltac:(vm_compute; lia))
    as (d & Hd & Hst & Hiss & _).
  exists d. split; [exact Hd|]. split; [exact Hst|].
  rewrite Hiss. vm_compute. reflexivity.
Defined.

Lemma severe_fatigue_example :
  exists d,
    StatusDecisionAgent.decide_status repr_any fatigued_record [] = Ok d /\
    AdInsight.status d = PAUSE /\
    AdInsight.issues d = ["Severe fatigue: Frequency 6.00, CTR 0.20%"].
Proof.
  destruct (@severe_fatigue_is_paused repr_any fatigued_record []
              "unknown" "unknown"
              (float_of_Z 3) (lit 2 (-1)) fzero (float_of_Z 6)
              eq_refl eq_refl
              ltac:(vm_compute; reflexivity) ltac:(vm_compute; reflexivity)
              ltac:(vm_compute; reflexivity) ltac:(vm_compute; reflexivity)
              ltac:(vm_compute; reflexivity) ltac:(vm_compute; reflexivity)
              ltac:(vm_compute; reflexivity))
    as (d & Hd & Hst & Hiss & _).
  exists d. split; [exact Hd|]. split; [exact Hst|].
  rewrite Hiss. vm_compute. reflexivity.
Defined.

Lemma issues_follow_the_status_example :
  exists d,
    StatusDecisionAgent.decide_status repr_any precedence_record [] = Ok d /\
    AdInsight.ad_id d = "unknown" /\
    List.length (AdInsight.issues d) = 1.
Proof.
  destruct (StatusDecisionAgent.decide_status repr_any precedence_record [])
    as [d|e] eqn:E; [|vm_compute in E; discriminate].
  exists d. split; [reflexivity|].
  destruct (@issues_follow_the_status repr_any precedence_record [] d E)
    as (Hid & _ & Hiss).
  split; [injection Hid as <-; reflexivity|].
  assert (Hst : AdInsight.status d = PAUSE).
  { vm_compute in E. injection E as <-. reflexivity. }
  rewrite Hst in Hiss. exact Hiss.
Defined.

Lemma absent_roas_example :
  dget spend_only_record "roas" = None /\
  exists d,
    StatusDecisionAgent.decide_status repr_any spend_only_record [] = Ok d /\
    AdInsight.status d = PAUSE /\
    AdInsight.issues d = ["Unprofitable: ROAS 0.00"].
Proof.
  split; [reflexivity|].
  apply (@absent_roas_is_unprofitable repr_any spend_only_record []
           "unknown" "unknown" fzero (float_of_Z 100) fzero eq_refl eq_refl);
    vm_compute; reflexivity.
Defined.

(* ================================================================= *)
(** * Further properties of the workflow *)

Section Workflow.

Import InsightGraph.

Variable repr : value -> result string.

(** What a run that returns went through. *)
Lemma run_inv (data : list (dict value)) (state : AnalysisState) :
  run repr data = Ok state ->
  exists r c v f m ds,
    ROASAgent.analyze repr data = Ok r /\
    CTRAgent.analyze repr data = Ok c /\
    ConversionAgent.analyze repr data = Ok v /\
    FrequencyAgent.analyze repr data = Ok f /\
    overview data = Ok m /\
    map_result
      (fun row =>
         StatusDecisionAgent.decide_status repr row
           (sort_by priority_rank (r ++ c ++ v ++ f)%list)) data = Ok ds /\
    state = {| normalized_data := data;
               roas_insights := r; ctr_insights := c;
               conversion_insights := v; frequency_insights := f;
               all_insights := sort_by priority_rank (r ++ c ++ v ++ f)%list;
               ad_insights := ds;
               metrics_overview := Some m |}.
Proof.
  unfold run, _analyze_roas, _analyze_ctr, _analyze_conversion,
    _analyze_frequency, _aggregate_insights, _decide_status.
  cbn [initial_state normalized_data]. intros H.
  destruct (ROASAgent.analyze repr data) as [r|] eqn:Er; [|discriminate].
  cbn [bind normalized_data roas_insights ctr_insights conversion_insights
       frequency_insights all_insights ad_insights metrics_overview] in H.
  destruct (CTRAgent.analyze repr data) as [c|] eqn:Ec; [|discriminate].
  cbn [bind normalized_data roas_insights ctr_insights conversion_insights
       frequency_insights all_insights ad_insights metrics_overview] in H.
  destruct (ConversionAgent.analyze repr data) as [v|] eqn:Ev; [|discriminate].
  cbn [bind normalized_data roas_insights ctr_insights conversion_insights
       frequency_insights all_insights ad_insights metrics_overview] in H.
  destruct (FrequencyAgent.analyze repr data) as [f|] eqn:Ef; [|discriminate].
  cbn [bind normalized_data roas_insights ctr_insights conversion_insights
       frequency_insights all_insights ad_insights metrics_overview] in H.
  destruct (overview data) as [m|] eqn:Em; [|discriminate].
  unfold merged_insights in H.
  cbn [bind normalized_data roas_insights ctr_insights conversion_insights
       frequency_insights all_insights ad_insights metrics_overview app] in H.
  rewrite <- !app_assoc in H.
  destruct (map_result _ data) as [ds|] eqn:Ed; [|discriminate].
  cbn [bind] in H. injection H as <-.
  now exists r, c, v, f, m, ds.
Qed.

Lemma map_result_ok_map {A B C : Type} (f : A -> result B)
  (g : A -> result C) (h : B -> C) (l : list A) (ys : list B) :
  (forall x y, f x = Ok y -> g x = Ok (h y)) ->
  map_result f l = Ok ys -> map_result g l = Ok (map h ys).
Proof.
  intros Hfg. revert ys. induction l as [|x l IH]; intros ys H; cbn in H.
  - now injection H as <-.
  - destruct (f x) as [y|] eqn:Hx; cbn in H; [|discriminate].
    destruct (map_result f l) as [ys'|] eqn:Hl; cbn in H; [|discriminate].
    injection H as <-. cbn [map_result map].
    now rewrite (Hfg x y Hx), (IH ys' eq_refl).
Qed.

Lemma decide_status_ids (row : dict value)
  (insights : list InsightRecommendation.t) (d : AdInsight.t) :
  StatusDecisionAgent.decide_status repr row insights = Ok d ->
  str_field repr row "ad_id" = Ok (AdInsight.ad_id d) /\
  str_field repr row "ad_name" = Ok (AdInsight.ad_name d).
Proof.
  intros H.
  destruct (decide_status_returns _ _ _ H)
    as (ad_id & ad_name & roas & ctr & spend & frequency
        & Hi & Hn & Hr & Hc & Hs & Hf).
  rewrite (decide_status_coerced repr row insights Hi Hn Hr Hc Hs Hf) in H.
  cbv zeta in H. injection H as <-. now split.
Qed.

(** X13. A run that returns has decided every record, in the order of the
    input: the ids and the names of its decisions are those of the records,
    one decision per record, and the overview counts the records. *)
Theorem run_decides_every_record (data : list (dict value))
  (state : AnalysisState) :
  run repr data = Ok state ->
  normalized_data state = data /\
  map_result (fun row => str_field repr row "ad_id") data
  = Ok (map AdInsight.ad_id (ad_insights state)) /\
  map_result (fun row => str_field repr row "ad_name") data
  = Ok (map AdInsight.ad_name (ad_insights state)) /\
  List.length (ad_insights state) = List.length data /\
  exists m, metrics_overview state = Some m /\ total_ads m = List.length data.
Proof.
  intros H. destruct (@run_inv data state H) as (r & c & v & f & m & ds & _ & _ & _ & _
                                      & Hm & Hds & ->).
  cbn [normalized_data ad_insights metrics_overview].
  assert (Hid : map_result (fun row => str_field repr row "ad_id") data
                = Ok (map AdInsight.ad_id ds)).
  { eapply map_result_ok_map; [|exact Hds]. intros row d Hd.
    now destruct (decide_status_ids row _ Hd). }
  assert (Hname : map_result (fun row => str_field repr row "ad_name") data
                  = Ok (map AdInsight.ad_name ds)).
  { eapply map_result_ok_map; [|exact Hds]. intros row d Hd.
    now destruct (decide_status_ids row _ Hd). }
  split; [reflexivity|]. split; [exact Hid|]. split; [exact Hname|].
  split.
  - apply map_result_Ok_Forall2 in Hds. symmetry.
    eapply Forall2_length; exact Hds.
  - exists m. split; [reflexivity|].
    destruct (overview_totals _ Hm) as (H1 & H2 & H3 & H4 & H5).
    rewrite (overview_coerced _ H1 H2 H3 H4 H5) in Hm.
    injection Hm as <-. reflexivity.
Qed.

(** X14. The findings of a run that returns: [all_insights] is a permutation
    of what the four analyzers returned on the records, so it holds at most
    four findings per record; each of them has a known priority and names,
    as its one affected ad, the id of a record of the input. *)
Theorem run_collects_the_findings (data : list (dict value))
  (state : AnalysisState) :
  run repr data = Ok state ->
  ROASAgent.analyze repr data = Ok (roas_insights state) /\
  CTRAgent.analyze repr data = Ok (ctr_insights state) /\
  ConversionAgent.analyze repr data = Ok (conversion_insights state) /\
  FrequencyAgent.analyze repr data = Ok (frequency_insights state) /\
  Permutation
    (roas_insights state ++ ctr_insights state ++ conversion_insights state
       ++ frequency_insights state)%list
    (all_insights state) /\
  List.length (all_insights state) <= 4 * List.length data /\
  Forall (fun i =>
            priority_rank i <= 2 /\
            exists row id,
              In row data /\ str_field repr row "ad_id" = Ok id /\
              InsightRecommendation.affected_ads i = [id])
    (all_insights state).
Proof.
  intros H. destruct (@run_inv data state H) as (r & c & v & f & m & ds & Hr & Hc & Hv
                                      & Hf & _ & _ & ->).
  cbn [roas_insights ctr_insights conversion_insights frequency_insights
       all_insights].
  repeat (split; [assumption|]).
  split; [apply sort_by_perm|].
  split.
  - rewrite <- (Permutation_length (sort_by_perm priority_rank _)).
    rewrite !length_app.
    pose proof (for_each_length _ data
                  (fun row new E => proj1 (@ROAS_row_shape repr row new E)) [] Hr).
    pose proof (for_each_length _ data
                  (fun row new E => proj1 (@CTR_row_shape repr row new E)) [] Hc).
    pose proof (for_each_length _ data
                  (fun row new E => proj1 (@Conversion_row_shape repr row new E))
                  [] Hv).
    pose proof (for_each_length _ data
                  (fun row new E => proj1 (@Frequency_row_shape repr row new E))
                  [] Hf).
    cbn in *. lia.
  - eapply Permutation_Forall; [apply sort_by_perm|].
    assert (R : forall (i : InsightRecommendation.t) ps,
               In (InsightRecommendation.priority i) ps ->
               incl ps ["high"; "medium"; "low"] -> priority_rank i <= 2).
    { intros i ps Hin Hincl. apply Hincl in Hin. unfold priority_rank.
      destruct Hin as [<-|[<-|[<-|[]]]]; cbn; lia. }
    assert (G : forall body ps out,
               incl ps ["high"; "medium"; "low"] ->
               (forall row new, body row = Ok new ->
                  Forall (fun i => In (InsightRecommendation.priority i) ps)
                    new /\
                  exists id,
                    str_field repr row "ad_id" = Ok id /\
                    Forall (fun i => InsightRecommendation.affected_ads i
                                     = [id]) new) ->
               for_each body data [] = Ok out ->
               Forall (fun i =>
                         priority_rank i <= 2 /\
                         exists row id,
                           In row data /\
                           str_field repr row "ad_id" = Ok id /\
                           InsightRecommendation.affected_ads i = [id]) out).
    { intros body ps out Hps Hbody Hout.
      eapply for_each_Forall; [| |exact Hout]; [|constructor].
      intros row new Hin Hrow.
      destruct (Hbody row new Hrow) as (Hp & id & Hid & Ha).
      clear Hrow. induction Hp as [|i new Hi Hp IH]; [constructor|].
      inversion Ha; subst. constructor; [|now apply IH].
      split; [now apply (R i ps)|]. now exists row, id. }
    repeat (apply Forall_app; split).
    + eapply (G _ ["high"; "medium"]); [|intros row new E|exact Hr].
      * intros p [<-|[<-|[]]]; cbn; tauto.
      * split; [|exact (@ROAS_row_sole_ad repr row new E)].
        eapply Forall_impl; [|exact (proj2 (@ROAS_row_shape repr row new E))].
        cbv beta. tauto.
    + eapply (G _ ["high"; "medium"]); [|intros row new E|exact Hc].
      * intros p [<-|[<-|[]]]; cbn; tauto.
      * split; [|exact (@CTR_row_sole_ad repr row new E)].
        eapply Forall_impl; [|exact (proj2 (@CTR_row_shape repr row new E))].
        cbv beta. tauto.
    + eapply (G _ ["high"; "low"]); [|intros row new E|exact Hv].
      * intros p [<-|[<-|[]]]; cbn; tauto.
      * split; [|exact (@Conversion_row_sole_ad repr row new E)].
        eapply Forall_impl; [|exact (proj2 (@Conversion_row_shape repr row new E))].
        cbv beta. tauto.
    + eapply (G _ ["high"]); [|intros row new E|exact Hf].
      * intros p [<-|[]]; cbn; tauto.
      * split; [|exact (@Frequency_row_sole_ad repr row new E)].
        eapply Forall_impl; [|exact (proj2 (@Frequency_row_shape repr row new E))].
        cbv beta. tauto.
Qed.

End Workflow.

(** ** When the workflow returns *)

Section WorkflowReturns.

Import InsightGraph.

Variable repr : value -> result string.

Lemma for_each_total {A B : Type} (body : A -> result (list B))
  (data : list A) :
  (forall row, In row data -> exists new, body row = Ok new) ->
  forall insights, exists out, for_each body data insights = Ok out.
Proof.
  intros H insights. rewrite for_each_map_result.
  destruct (map_result_total body data H) as [news ->]. cbn. eauto.
Qed.

(** [int(x)] returns on every float that is not infinite and not a NaN. *)
Lemma int_of_float_finite (x : float) :
  (forall s, x <> S754_infinity s) -> x <> S754_nan ->
  exists n, int_of_float x = Ok n.
Proof.
  destruct x as [s|s| |s m e]; intros Hinf Hnan; cbn; eauto.
  - now destruct (Hinf s).
  - now destruct Hnan.
Qed.

(** The coercion of a field of a record: a float that is not infinite. *)
Local Abbreviation finite_field :=
  (fun (row : dict value) (key : string) =>
     exists x, _get_value row key fzero = Ok x /\
               forall s, x <> S754_infinity s).


(** The text of the [ad_id] of a record is built. *)
Local Abbreviation has_id :=
  (fun (row : dict value) => exists id, str_field repr row "ad_id" = Ok id).

Lemma ROAS_row_total (row : dict value) :
  (forall key, In key metric_fields -> finite_field row key) ->
  has_id row ->
  exists new, ROASAgent.analyze_row repr row = Ok new.
Proof.
  intros H [id Hid]. unfold ROASAgent.analyze_row.
  destruct (H "roas") as (roas & -> & _); [cbn; tauto|].
  destruct (H "spend") as (spend & -> & _); [cbn; tauto|].
  destruct (H "frequency") as (frequency & -> & _); [cbn; tauto|].
  rewrite Hid.
  cbn [bind]. repeat match goal with
                     | |- context [if ?b then _ else _] => destruct b
                     end; eauto.
Qed.

Lemma CTR_row_total (row : dict value) :
  (forall key, In key metric_fields -> finite_field row key) ->
  has_id row ->
  exists new, CTRAgent.analyze_row repr row = Ok new.
Proof.
  intros H [id Hid]. unfold CTRAgent.analyze_row.
  destruct (H "ctr") as (ctr & -> & _); [cbn; tauto|].
  destruct (H "ctr_7d") as (ctr_7d & -> & _); [cbn; tauto|].
  destruct (H "ctr_prev_7d") as (ctr_prev_7d & -> & _); [cbn; tauto|].
  destruct (H "ctr_drop") as (ctr_drop & -> & _); [cbn; tauto|].
  destruct (H "impressions") as (impressions & -> & Hfin); [cbn; tauto|].
  rewrite Hid. cbn [bind].
  destruct (fgt ctr_drop _ || _); [eauto|].
  destruct (flt ctr _ && fgt impressions _) eqn:E.
  - destruct (@int_of_float_finite impressions Hfin) as [n ->]; [|cbn; eauto].
    intros ->.
    replace (fgt S754_nan (lit 1000 0)) with false in E
      by (vm_compute; reflexivity).
    rewrite andb_false_r in E. discriminate.
  - destruct (fgt ctr _); eauto.
Qed.

Lemma Conversion_row_total (row : dict value) :
  (forall key, In key metric_fields -> finite_field row key) ->
  has_id row ->
  exists new, ConversionAgent.analyze_row repr row = Ok new.
Proof.
  intros H [id Hid]. unfold ConversionAgent.analyze_row.
  destruct (H "atc_to_purchase") as (atc & -> & _); [cbn; tauto|].
  destruct (H "ctr") as (ctr & -> & _); [cbn; tauto|].
  destruct (H "add_to_cart") as (cart & -> & Hfin); [cbn; tauto|].
  destruct (H "purchases") as (purchases & -> & _); [cbn; tauto|].
  rewrite Hid. cbn [bind].
  destruct (fgt ctr _ && flt atc _ && fgt cart _); [eauto|].
  destruct (flt cart _ && fgt ctr _) eqn:E.
  - destruct (@int_of_float_finite cart Hfin) as [n ->]; [|cbn; eauto].
    intros ->.
    replace (flt S754_nan (lit 5 0)) with false in E
      by (vm_compute; reflexivity).
    discriminate.
  - destruct (fgt atc _); eauto.
Qed.

Lemma Frequency_row_total (row : dict value) :
  (forall key, In key metric_fields -> finite_field row key) ->
  has_id row ->
  exists new, FrequencyAgent.analyze_row repr row = Ok new.
Proof.
  intros H [id Hid]. unfold FrequencyAgent.analyze_row.
  destruct (H "frequency") as (frequency & -> & _); [cbn; tauto|].
  destruct (H "ctr") as (ctr & -> & _); [cbn; tauto|].
  destruct (H "ctr_drop") as (ctr_drop & -> & _); [cbn; tauto|].
  rewrite Hid.
  cbn [bind]. repeat match goal with
                     | |- context [if ?b then _ else _] => destruct b
                     end; eauto.
Qed.

Lemma overview_total (data : list (dict value)) :
  (forall row key, In row data -> In key metric_fields ->
                   exists x, _get_value row key fzero = Ok x) ->
  exists m, overview data = Ok m.
Proof.
  intros Hall.
  assert (T : forall key, In key metric_fields ->
                          exists t, total data key = Ok t).
  { intros key Hk. unfold total.
    destruct (map_result_total (fun row => _get_value row key fzero) data)
      as [xs ->]; [intros row Hr; now apply Hall|].
    now exists (sum xs). }
  destruct (T "spend") as [ts E1]; [cbn; tauto|].
  destruct (T "purchase_value") as [tr E2]; [cbn; tauto|].
  destruct (T "purchases") as [tp E3]; [cbn; tauto|].
  destruct (T "clicks") as [tc E4]; [cbn; tauto|].
  destruct (T "impressions") as [ti E5]; [cbn; tauto|].
  rewrite (overview_coerced _ E1 E2 E3 E4 E5). eauto.
Qed.

(** X15. The workflow returns on every record list whose records coerce, in
    each field it reads, to a float that is not infinite, and have an
    [ad_id] and an [ad_name] of which [str] builds the text: absent fields,
    [None], numbers within the range of a float and text that does not
    spell an infinity all coerce so; an absent id or name, a text, [None], a
    truth value and an integer of at most 4300 digits all have their
    text. *)
Theorem run_returns_on_finite_metrics (data : list (dict value)) :
  (forall row key,
      In row data -> In key metric_fields ->
      exists x, _get_value row key fzero = Ok x /\
                forall s, x <> S754_infinity s) ->
  (forall row key,
      In row data -> In key ["ad_id"; "ad_name"] ->
      exists text, str_field repr row key = Ok text) ->
  exists state, run repr data = Ok state.
Proof.
  intros Hall Hstr.
  assert (Hid : forall row, In row data ->
                            exists id, str_field repr row "ad_id" = Ok id).
  { intros row Hr. apply Hstr; [exact Hr|now left]. }
  destruct (for_each_total (ROASAgent.analyze_row repr) data
              (fun row Hr => ROAS_row_total (fun key => Hall row key Hr)
                               (Hid row Hr)) [])
    as [r Er].
  destruct (for_each_total (CTRAgent.analyze_row repr) data
              (fun row Hr => CTR_row_total (fun key => Hall row key Hr)
                               (Hid row Hr)) [])
    as [c Ec].
  destruct (for_each_total (ConversionAgent.analyze_row repr) data
              (fun row Hr => Conversion_row_total
                               (fun key => Hall row key Hr) (Hid row Hr)) [])
    as [v Ev].
  destruct (for_each_total (FrequencyAgent.analyze_row repr) data
              (fun row Hr => Frequency_row_total
                               (fun key => Hall row key Hr) (Hid row Hr)) [])
    as [f Ef].
  destruct (overview_total data) as [m Em].
  { intros row key Hr Hk. destruct (Hall row key Hr Hk) as (x & Hx & _).
    now exists x. }
  destruct (map_result_total
              (fun row =>
                 StatusDecisionAgent.decide_status repr row
                   (sort_by priority_rank
                      (((([] ++ r) ++ c) ++ v) ++ f)%list))
              data) as [ds Ed].
  { intros row Hr.
    destruct (Hall row "roas" Hr) as (x1 & H1 & _); [cbn; tauto|].
    destruct (Hall row "ctr" Hr) as (x2 & H2 & _); [cbn; tauto|].
    destruct (Hall row "spend" Hr) as (x3 & H3 & _); [cbn; tauto|].
    destruct (Hall row "frequency" Hr) as (x4 & H4 & _); [cbn; tauto|].
    destruct (Hstr row "ad_id" Hr) as (id & Hi); [cbn; tauto|].
    destruct (Hstr row "ad_name" Hr) as (name & Hn); [cbn; tauto|].
    rewrite (decide_status_coerced repr row _ Hi Hn H1 H2 H3 H4). eauto. }
  unfold run, _analyze_roas, _analyze_ctr, _analyze_conversion,
    _analyze_frequency, _aggregate_insights, _decide_status.
  cbn [initial_state normalized_data].
  unfold ROASAgent.analyze. rewrite Er.
  cbn [bind normalized_data roas_insights ctr_insights conversion_insights
       frequency_insights all_insights ad_insights metrics_overview].
  unfold CTRAgent.analyze. rewrite Ec.
  cbn [bind normalized_data roas_insights ctr_insights conversion_insights
       frequency_insights all_insights ad_insights metrics_overview].
  unfold ConversionAgent.analyze. rewrite Ev.
  cbn [bind normalized_data roas_insights ctr_insights conversion_insights
       frequency_insights all_insights ad_insights metrics_overview].
  unfold FrequencyAgent.analyze. rewrite Ef.
  cbn [bind normalized_data roas_insights ctr_insights conversion_insights
       frequency_insights all_insights ad_insights metrics_overview].
  rewrite Em. unfold merged_insights.
  cbn [bind normalized_data roas_insights ctr_insights conversion_insights
       frequency_insights all_insights ad_insights metrics_overview].
  unfold initial_state.
  cbn [roas_insights ctr_insights conversion_insights frequency_insights
       app] in Ed |- *.
  rewrite Ed. cbn [bind]. eauto.
Qed.

End WorkflowReturns.

Lemma run_decides_example :
  exists state,
    InsightGraph.run repr_any
      [identified_record (VInt 7) (VStr "Spring") (lit 15 (-1));
       precedence_record] = Ok state /\
    map AdInsight.ad_id (InsightGraph.ad_insights state) = ["7"; "unknown"] /\
    map AdInsight.ad_name (InsightGraph.ad_insights state)
    = ["Spring"; "unknown"] /\
    List.length (InsightGraph.ad_insights state) = 2.
Proof.
  destruct (InsightGraph.run repr_any
              [identified_record (VInt 7) (VStr "Spring") (lit 15 (-1));
               precedence_record])
    as [state|e] eqn:E; [|vm_compute in E; discriminate].
  exists state. split; [reflexivity|].
  destruct (@run_decides_every_record repr_any _ _ E)
    as (_ & Hid & Hname & Hlen & _).
  replace (map_result _ _) with (@Ok (list string) ["7"; "unknown"]) in Hid
    by (vm_compute; reflexivity).
  replace (map_result _ _) with (@Ok (list string) ["Spring"; "unknown"])
    in Hname by (vm_compute; reflexivity).
  injection Hid as <-. injection Hname as <-.
  split; [reflexivity|]. split; [reflexivity|].
  rewrite Hlen; reflexivity.
Defined.

Lemma run_collects_example :
  exists state,
    InsightGraph.run repr_any [scenario_record; precedence_record] = Ok state /\
    List.length (InsightGraph.all_insights state) <= 8.
Proof.
  destruct (InsightGraph.run repr_any [scenario_record; precedence_record])
    as [state|e] eqn:E; [|vm_compute in E; discriminate].
  exists state. split; [reflexivity|].
  destruct (@run_collects_the_findings repr_any _ _ E)
    as (_ & _ & _ & _ & _ & Hlen & _).
  exact Hlen.
Defined.

Lemma run_returns_example :
  exists state, InsightGraph.run repr_any [scenario_record] = Ok state.
Proof.
  apply (@run_returns_on_finite_metrics repr_any [scenario_record]).
  - intros row key [<-|[]] Hk. cbn in Hk.
    repeat (destruct Hk as [<-|Hk];
            [eexists; split; [vm_compute; reflexivity | discriminate]|]).
    destruct Hk.
  - intros row key [<-|[]] [<-|[<-|[]]]; now exists "unknown".
Defined.

(* ================================================================= *)
(** * Further properties of the column mapper *)

Section FuzzyMatching.

Import ColumnMapper.

(** X16. Fuzzy matching answers [None] or one of the eighteen canonical names
    of the table, never the empty string and never "unknown". *)
Theorem fuzzy_match_range (column : string) :
  fuzzy_match column = None \/
  exists s, fuzzy_match column = Some s /\
            In s (keys STANDARD_COLUMNS) /\ s <> "" /\ s <> "unknown".
Proof.
  destruct (fuzzy_match column) as [s|] eqn:E; [right|now left].
  exists s. split; [reflexivity|].
  destruct (fuzzy_match_resolved _ E) as (H1 & H2 & _).
  split; [|now split]. unfold fuzzy_match in E.
  now apply match_in_standard in E.
Qed.

Lemma partial_match_variant (column_lower variant : string)
  (variations : list string) :
  In variant variations ->
  contains variant column_lower || contains column_lower variant = true ->
  partial_match column_lower variations = true.
Proof.
  intros Hin H. unfold partial_match. apply existsb_exists.
  now exists variant.
Qed.

(** X17. A column whose name, lower-cased and stripped, contains "ad" is
    matched by one of the first three fields of the table, [ad_name] at the
    latest: it is never mapped to [ad_id], [spend], [add_to_cart] or any
    later field. *)
Theorem ad_in_the_name_stops_at_ad_name (column : string) :
  contains "ad" (strip (lower column)) = true ->
  fuzzy_match column = Some "campaign_name" \/
  fuzzy_match column = Some "ad_set_name" \/
  fuzzy_match column = Some "ad_name".
Proof.
  intros H. unfold fuzzy_match, STANDARD_COLUMNS. cbn [match_in].
  destruct (mem _ _); [now left|].
  destruct (partial_match _ _); [now left|].
  destruct (mem _ _); [right; now left|].
  destruct (partial_match _ _); [right; now left|].
  destruct (mem _ _); [right; now right|].
  rewrite (@partial_match_variant (strip (lower column)) "ad"
             ["ad name"; "ad"; "ad_name"; "creative name"]);
    [right; now right | right; now left | now rewrite H].
Qed.

(** X18. A column whose name, lower-cased and stripped, is a piece of
    "campaign name" (the empty name, "name", "camp", a single "a") is mapped
    to [campaign_name]. *)
Theorem piece_of_campaign_name (column : string) :
  contains (strip (lower column)) "campaign name" = true ->
  fuzzy_match column = Some "campaign_name".
Proof.
  intros H. unfold fuzzy_match, STANDARD_COLUMNS. cbn [match_in].
  destruct (mem _ _); [reflexivity|].
  rewrite (@partial_match_variant (strip (lower column)) "campaign name"
             ["campaign name"; "campaign"; "campaign_name"]);
    [reflexivity | now left | now rewrite H, orb_true_r].
Qed.

End FuzzyMatching.

Lemma ad_in_the_name_example :
  ColumnMapper.fuzzy_match "Ad Spend" = Some "ad_name" /\
  ColumnMapper.fuzzy_match "Download" = Some "ad_name".
Proof.
  split.
  - destruct (@ad_in_the_name_stops_at_ad_name "Ad Spend" eq_refl)
      as [H|[H|H]]; [vm_compute in H; discriminate
                    | vm_compute in H; discriminate | exact H].
  - destruct (@ad_in_the_name_stops_at_ad_name "Download" eq_refl)
      as [H|[H|H]]; [vm_compute in H; discriminate
                    | vm_compute in H; discriminate | exact H].
Defined.

Lemma piece_of_campaign_name_example :
  ColumnMapper.fuzzy_match "   " = Some "campaign_name" /\
  ColumnMapper.fuzzy_match "Name" = Some "campaign_name".
Proof.
  split.
  - apply (@piece_of_campaign_name "   "). reflexivity.
  - apply (@piece_of_campaign_name "Name"). reflexivity.
Defined.

Section MappingWithAnswer.

Import ColumnMapper.

Lemma update_object_spec (mapping : anydict) (other : dict value)
  (c : string) :
  NoDup (keys other) ->
  aget (fst (update mapping (VDict other))) (VStr c)
  = match dget other c with
    | Some s => Some s
    | None => aget mapping (VStr c)
    end.
Proof.
  cbn [update fst]. revert mapping.
  induction other as [|[k s] rest IH]; intros mapping Hnd; [reflexivity|].
  inversion Hnd as [|? ? Hnot Hnd']; subst.
  cbn [fold_left fst snd dget]. rewrite (IH _ Hnd').
  destruct (String.eqb c k) eqn:E.
  - apply String.eqb_eq in E. subst k.
    assert (dget rest c = None) as ->.
    { destruct (dget rest c) eqn:Hr; [|reflexivity].
      exfalso. apply Hnot. apply dget_In_keys. congruence. }
    apply aget_aset_same_str.
  - apply String.eqb_neq in E.
    destruct (dget rest c); [reflexivity|].
    apply aget_aset_other_str. congruence.
Qed.

Lemma first_pass_get (columns : list string) (c : string) :
  aget (fst (first_pass columns [] [])) (VStr c)
  = if in_dec string_dec c columns then option_map VStr (fuzzy_match c)
    else None.
Proof.
  destruct (first_pass_spec columns [] []) as [G _]. cbn zeta in G.
  rewrite G. cbn [aget].
  destruct (fuzzy_match c); destruct (in_dec string_dec c columns);
    reflexivity.
Qed.

(** X19. When some column is left unresolved and the language model answers
    with a JSON object, the answer is merged over the fuzzy matches: a
    column in the answer gets the answer's value, whatever it is, also when
    fuzzy matching had resolved the column or the column was not asked for;
    a column the answer leaves out keeps its fuzzy match, and is absent from
    the mapping, not "unknown", when it had none. *)
Theorem llm_answer_is_merged (llm : list string -> result value)
  (columns : list string) (answer : dict value) (c : string) :
  snd (first_pass columns [] []) <> [] ->
  llm (snd (first_pass columns [] [])) = Ok (VDict answer) ->
  NoDup (keys answer) ->
  aget (map_columns_with_llm llm columns) (VStr c)
  = match dget answer c with
    | Some s => Some s
    | None => if in_dec string_dec c columns
              then option_map VStr (fuzzy_match c)
              else None
    end.
Proof.
  intros Hne Hllm Hnd. unfold map_columns_with_llm.
  pose proof (first_pass_get columns c) as G.
  destruct (first_pass columns [] []) as [mapping unmapped].
  cbn [fst snd] in *.
  destruct unmapped as [|u us]; [contradiction|].
  rewrite Hllm.
  pose proof (@update_object_spec mapping answer c Hnd) as U.
  cbn [update fst] in U |- *. now rewrite U, G.
Qed.

Lemma map_columns_all_resolved (llm : list string -> result value)
  (columns : list string) :
  (forall c, In c columns -> fuzzy_match c <> None) ->
  map_columns_with_llm llm columns = fst (first_pass columns [] []).
Proof.
  intros Hall. unfold map_columns_with_llm.
  destruct (first_pass_spec columns [] []) as [_ U]. cbn zeta in U.
  destruct (first_pass columns [] []) as [mapping unmapped].
  cbn [fst snd] in *.
  destruct unmapped as [|u us]; [reflexivity|].
  exfalso. destruct (proj1 (U u) (or_introl eq_refl)) as [[]|[Hin Hn]].
  now apply (Hall u).
Qed.

(** X20. When fuzzy matching resolves every column the language model is not
    consulted: the mapping is the same for every model and gives each column
    its fuzzy match.  This covers the empty column list, whose mapping is
    empty. *)
Theorem resolved_columns_need_no_llm
  (llm llm' : list string -> result value) (columns : list string) :
  (forall c, In c columns -> fuzzy_match c <> None) ->
  map_columns_with_llm llm columns = map_columns_with_llm llm' columns /\
  (forall c, In c columns ->
             aget (map_columns_with_llm llm columns) (VStr c)
             = option_map VStr (fuzzy_match c)) /\
  (columns = [] -> map_columns_with_llm llm columns = []).
Proof.
  intros Hall.
  split; [now rewrite !map_columns_all_resolved|]. split.
  - intros c Hc. rewrite map_columns_all_resolved, first_pass_get by exact Hall.
    destruct (in_dec string_dec c columns); [reflexivity|contradiction].
  - intros ->. reflexivity.
Qed.

End MappingWithAnswer.

Lemma llm_answer_example :
  ColumnMapper.map_columns_with_llm llm_overriding raw_columns
  = of_strs [("Spend", "roas")] /\
  aget (ColumnMapper.map_columns_with_llm llm_overriding raw_columns)
    (VStr "Spend")
  = Some (VStr "roas") /\
  aget (ColumnMapper.map_columns_with_llm llm_overriding raw_columns)
    (VStr "Notes")
  = None.
Proof.
  split; [vm_compute; reflexivity|].
  split.
  - rewrite (@llm_answer_is_merged llm_overriding raw_columns
               [("Spend", VStr "roas")] "Spend");
      [reflexivity | vm_compute; discriminate | reflexivity
      | repeat constructor; cbn; tauto].
  - rewrite (@llm_answer_is_merged llm_overriding raw_columns
               [("Spend", VStr "roas")] "Notes");
      [vm_compute; reflexivity | vm_compute; discriminate | reflexivity
      | repeat constructor; cbn; tauto].
Defined.

Lemma resolved_columns_example :
  ColumnMapper.map_columns_with_llm llm_down ["Spend"; "ROAS"]
  = ColumnMapper.map_columns_with_llm llm_overriding ["Spend"; "ROAS"] /\
  aget (ColumnMapper.map_columns_with_llm llm_down ["Spend"; "ROAS"])
    (VStr "ROAS")
  = Some (VStr "roas").
Proof.
  destruct (@resolved_columns_need_no_llm llm_down llm_overriding
              ["Spend"; "ROAS"]) as (H1 & H2 & _).
  { intros c [<-|[<-|[]]]; vm_compute; discriminate. }
  split; [exact H1|].
  rewrite H2; [vm_compute; reflexivity | right; now left].
Defined.

(* ================================================================= *)
(** * Further properties of the normalisation *)

Section NormalisedRows.

Import ColumnMapper.

(** The key under which the reverse map puts a column. *)
Local Abbreviation standard_col :=
  (fun (rm : anydict) (c : string) => aget_default rm (VStr c) (VStr c)).

Lemma aset_fresh_str (row : dict value) (k : string) (v : value) :
  ~ In k (keys row) ->
  aset (of_record row) (VStr k) v = (of_record row ++ [(VStr k, v)])%list.
Proof.
  induction row as [|[k' v'] row IH]; cbn; [reflexivity|].
  intros Hnot. destruct (String.eqb k k') eqn:E.
  - apply String.eqb_eq in E. subst. exfalso. apply Hnot. now left.
  - f_equal. apply IH. intros H. apply Hnot. now right.
Qed.

Lemma str_keys_aset_iff (d : anydict) (k v : value) (c : string) :
  In c (str_keys (aset d k v)) <-> k = VStr c \/ In c (str_keys d).
Proof.
  rewrite !str_keys_aget.
  destruct (key_eqb k (VStr c)) eqn:E.
  - apply key_eqb_str_r in E. subst k. rewrite aget_aset_same_str.
    split; [now left|discriminate].
  - assert (Hne : k <> VStr c).
    { intros ->. cbn in E. now rewrite String.eqb_refl in E. }
    rewrite aget_aset_other_str by exact Hne.
    split; [now right|]. intros [H|H]; [contradiction|exact H].
Qed.

Lemma normalize_row_unrenamed (rm : anydict) (row : dict value) :
  (forall c, aget rm (VStr c) = None) -> NoDup (keys row) ->
  normalize_row rm row = Ok (of_record row).
Proof.
  intros Hrm. induction row as [|[k v] row IH] using rev_ind; [reflexivity|].
  unfold keys. rewrite map_app. cbn [map fst]. intros Hnd.
  apply NoDup_remove in Hnd. rewrite app_nil_r in Hnd.
  destruct Hnd as [Hnd Hk].
  rewrite normalize_row_snoc, (IH Hnd). cbn [bind].
  unfold aget_default. rewrite Hrm. unfold setitem. cbn [hashable].
  rewrite aset_fresh_str by exact Hk.
  unfold of_record. now rewrite map_app.
Qed.

(** X21. A mapping that names no field, being empty or all "unknown", leaves
    the records as they are. *)
Theorem normalize_without_renaming
  (llm : list string -> result value) (data : list (dict value))
  (mapping : anydict) :
  NoDup (str_keys mapping) ->
  (forall c s, aget mapping (VStr c) = Some s -> s = VStr "unknown") ->
  (forall row, In row data -> NoDup (keys row)) ->
  normalize_data llm data (Some mapping) = Ok (map of_record data) /\
  map str_items (map of_record data) = data.
Proof.
  intros Hm Hunk Hrows.
  assert (Hrm : forall c, aget (reverse_map mapping) (VStr c) = None).
  { intros c. rewrite reverse_map_spec by exact Hm.
    destruct (aget mapping (VStr c)) as [s|] eqn:E; [|reflexivity].
    now rewrite (Hunk c s E). }
  split.
  - destruct data as [|first rest]; [reflexivity|].
    cbn [normalize_data]. set (data := first :: rest) in *.
    clearbody data. induction data as [|row data IH]; [reflexivity|].
    cbn [map map_result].
    rewrite normalize_row_unrenamed;
      [|exact Hrm|apply Hrows; now left].
    cbn [bind]. rewrite IH; [reflexivity|].
    intros r Hr. apply Hrows. now right.
  - rewrite map_map. clear. induction data as [|row data IH]; [reflexivity|].
    cbn [map]. now rewrite str_items_of_record, IH.
Qed.

(** X22. When several columns of a record are renamed to one field the last
    of them wins: in the normalized record the field holds the value of the
    last column of the record that is written under it. *)
Theorem later_column_wins (rm : anydict) (before after : dict value)
  (c field : string) (v : value) (new_row : anydict) :
  aget_default rm (VStr c) (VStr c) = VStr field ->
  (forall kv, In kv after ->
              aget_default rm (VStr (fst kv)) (VStr (fst kv)) <> VStr field) ->
  normalize_row rm (before ++ (c, v) :: after)%list = Ok new_row ->
  aget new_row (VStr field) = Some v.
Proof.
  intros Hc. revert new_row.
  induction after as [|[k x] after IH] using rev_ind;
    intros new_row Hafter Hrow.
  - destruct (normalize_row_snoc_inv _ _ _ _ Hrow) as (r & _ & _ & ->).
    rewrite Hc. apply aget_aset_same_str.
  - replace (before ++ (c, v) :: after ++ [(k, x)])%list
      with ((before ++ (c, v) :: after) ++ [(k, x)])%list in Hrow
      by (now rewrite <- app_assoc).
    destruct (normalize_row_snoc_inv _ _ _ _ Hrow) as (r & Hr & _ & ->).
    rewrite aget_aset_other_str.
    + apply IH; [|exact Hr]. intros kv Hkv. apply Hafter.
      apply in_app_iff. now left.
    + apply (Hafter (k, x)). apply in_app_iff. right. now left.
Qed.

Lemma normalize_row_shape (rm : anydict) (row : dict value)
  (new_row : anydict) :
  normalize_row rm row = Ok new_row ->
  NoDup (str_keys new_row) /\
  List.length new_row <= List.length row /\
  (forall k, In k (str_keys new_row) <->
             exists c, In c (keys row) /\ standard_col rm c = VStr k).
Proof.
  revert new_row. induction row as [|[c v] row IH] using rev_ind;
    intros new_row Hrow.
  - injection Hrow as <-. cbn. split; [constructor|]. split; [lia|].
    intros k. split; [tauto|]. now intros (c & [] & _).
  - destruct (normalize_row_snoc_inv _ _ _ _ Hrow) as (r & Hr & _ & ->).
    destruct (IH r Hr) as (Hnd & Hlen & Hkeys).
    split; [now apply NoDup_str_keys_aset|]. split.
    + rewrite length_app. cbn.
      pose proof (length_aset r (standard_col rm c) v). lia.
    + intros k. rewrite str_keys_aset_iff, Hkeys. unfold keys.
      split.
      * intros [H|(c' & Hc' & H)].
        -- exists c. rewrite map_app, in_app_iff. split; [|exact H].
           right. now left.
        -- exists c'. rewrite map_app, in_app_iff. split; [|exact H].
           now left.
      * intros (c' & Hc' & H). rewrite map_app, in_app_iff in Hc'.
        destruct Hc' as [Hc'|[<-|[]]]; [right; now exists c'|now left].
Qed.

Lemma map_result_exn {A B : Type} (P : exn -> Prop) (f : A -> result B)
  (l : list A) (e : exn) :
  (forall x e', f x = Raise e' -> P e') ->
  map_result f l = Raise e -> P e.
Proof.
  intros Hf. induction l as [|x l IH]; cbn; [discriminate|].
  destruct (f x) as [y|e'] eqn:Hx; cbn.
  - destruct (map_result f l) as [ys|e'']; cbn; [discriminate|].
    intros H. injection H as ->. now apply IH.
  - intros H. injection H as ->. eapply Hf; eassumption.
Qed.

(** X23. Normalisation keeps the records apart and in order: when it
    returns, as many records come out as went in, each rewritten through one
    reverse map; a normalized record has each [str] key once and no more
    items than the record it comes from, and its [str] keys are the names
    its columns are renamed to.  It raises nothing but the [TypeError] of a
    column renamed to a list or a dictionary, and it returns whenever the
    mapping is given and has hashable values, as every mapping of strings
    has. *)
Theorem normalize_data_shape (llm : list string -> result value)
  (data : list (dict value)) (column_mapping : option anydict) :
  (forall normalized,
      normalize_data llm data column_mapping = Ok normalized ->
      List.length normalized = List.length data /\
      exists rm,
        Forall2 (fun row new_row => normalize_row rm row = Ok new_row)
          data normalized /\
        forall row new_row,
          normalize_row rm row = Ok new_row ->
          NoDup (str_keys new_row) /\
          List.length new_row <= List.length row /\
          (forall k, In k (str_keys new_row) <->
                     exists c, In c (keys row) /\
                               aget_default rm (VStr c) (VStr c) = VStr k)) /\
  (forall e, normalize_data llm data column_mapping = Raise e ->
             e = TypeError) /\
  (forall mapping,
      column_mapping = Some mapping ->
      (forall s, In s (map snd mapping) -> hashable s = true) ->
      exists normalized,
        normalize_data llm data column_mapping = Ok normalized) /\
  (forall m, forall s, In s (map snd (of_strs m)) -> hashable s = true).
Proof.
  split; [|split; [|split]].
  - intros normalized H. destruct data as [|first rest].
    + injection H as <-. split; [reflexivity|]. exists [].
      split; [constructor|]. intros row new_row. apply normalize_row_shape.
    + cbn [normalize_data] in H. apply map_result_Ok_Forall2 in H.
      split; [symmetry; eapply Forall2_length; exact H|].
      eexists. split; [exact H|].
      intros row new_row. apply normalize_row_shape.
  - intros e H. destruct data as [|first rest]; [discriminate|].
    cbn [normalize_data] in H.
    eapply (map_result_exn (fun e => e = TypeError)); [|exact H].
    intros row e'. apply normalize_row_exn.
  - intros mapping -> Hm. destruct data as [|first rest]; [now exists []|].
    cbn [normalize_data]. apply map_result_total. intros row _.
    apply normalize_row_total. intros c _. unfold aget_default.
    destruct (aget (reverse_map mapping) (VStr c)) as [s|] eqn:E;
      [|reflexivity].
    apply Hm. apply reverse_map_values. eapply aget_In_values. exact E.
  - intros m s. unfold of_strs. rewrite map_map. cbn [snd].
    rewrite in_map_iff. intros (kv & <- & _). reflexivity.
Qed.

End NormalisedRows.

Lemma normalize_without_renaming_example :
  ColumnMapper.normalize_data llm_down [raw_record]
    (Some (of_strs [("Notes", "unknown")]))
  = Ok [of_record raw_record].
Proof.
  apply (@normalize_without_renaming llm_down [raw_record]
           (of_strs [("Notes", "unknown")])).
  - repeat constructor; cbn; tauto.
  - intros c s. cbn. destruct (String.eqb c "Notes"); [|discriminate].
    intros H. now injection H as <-.
  - intros row [<-|[]]. repeat constructor; cbn; intuition discriminate.
Defined.

Lemma later_column_example :
  ColumnMapper.normalize_data llm_down [spend_and_cost_record] None
  = Ok [of_record [("spend", VInt 9)]] /\
  forall new_row,
    ColumnMapper.normalize_row (of_strs [("Spend", "spend"); ("Cost", "spend")])
      spend_and_cost_record = Ok new_row ->
    aget new_row (VStr "spend") = Some (VInt 9).
Proof.
  split; [vm_compute; reflexivity|].
  intros new_row.
  apply (@later_column_wins (of_strs [("Spend", "spend"); ("Cost", "spend")])
           [("Spend", VInt 5)] [] "Cost" "spend" (VInt 9) new_row eq_refl).
  intros kv [].
Defined.

(** A column that the language model maps to a list makes the
    normalisation, and with it [analyze], raise [TypeError]; with the same
    mapping given as strings it returns. *)
Lemma normalize_data_shape_example :
  ColumnMapper.normalize_data llm_unhashable [raw_record] None
  = Raise TypeError /\
  (forall repr llm_invoke llm_model,
      InsightAgentEngine.analyze repr llm_unhashable llm_invoke llm_model
        (AnalysisRequest.mk [raw_record] None)
      = InsightGraphSummary.Raised TypeError) /\
  exists normalized,
    ColumnMapper.normalize_data llm_unhashable [raw_record]
      (Some (of_strs [("Notes", "spend")])) = Ok normalized /\
    List.length normalized = 1.
Proof.
  split; [vm_compute; reflexivity|].
  split; [intros repr llm_invoke llm_model; vm_compute; reflexivity|].
  destruct (@normalize_data_shape llm_unhashable [raw_record]
              (Some (of_strs [("Notes", "spend")])))
    as (Hshape & _ & Hret & Hstr).
  destruct (Hret _ eq_refl (Hstr [("Notes", "spend")])) as [normalized Hn].
  exists normalized. split; [exact Hn|].
  now destruct (Hshape normalized Hn) as [Hlen _].
Defined.

(* ================================================================= *)
(** * Properties of the engine *)

Section Engine.

Import InsightGraph InsightGraphSummary InsightAgentEngine.

Variable repr : value -> result string.

Lemma invoke_inv (llm_invoke : string -> result string)
  (data : list (dict value)) (state : AnalysisState) (summary : string) :
  invoke repr llm_invoke data = Returned (state, summary) ->
  run repr data = Ok state /\
  _generate_summary llm_invoke state = Returned summary.
Proof.
  unfold invoke. destruct (run repr data) as [st|e]; [|discriminate].
  destruct (_generate_summary llm_invoke st) as [s|e|k] eqn:E;
    try discriminate.
  intros H. injection H as <- <-. now split.
Qed.

Lemma invoke_finds_the_metrics (llm_invoke : string -> result string)
  (data : list (dict value)) (key : string) :
  invoke repr llm_invoke data <> KeyError key.
Proof.
  unfold invoke. destruct (run repr data) as [st|e] eqn:E; [|discriminate].
  destruct (@run_inv repr data st E)
    as (r & c & v & f & m & ds & _ & _ & _ & _ & _ & _ & ->).
  unfold _generate_summary. cbn [metrics_overview].
  destruct (llm_invoke _); discriminate.
Qed.

(** The items of a dictionary that a string reaches are those of its [str]
    keys: the workflow sees of a normalized record what [row.get] on a
    string sees. *)
Lemma str_items_get (row : anydict) (key : string) (dflt : value) :
  dget_default (str_items row) key dflt = aget_default row (VStr key) dflt.
Proof. unfold dget_default, aget_default. now rewrite aget_str. Qed.

Lemma normalize_data_length (llm : list string -> result value)
  (data : list (dict value)) (column_mapping : option anydict)
  (normalized : list anydict) :
  ColumnMapper.normalize_data llm data column_mapping = Ok normalized ->
  List.length normalized = List.length data.
Proof.
  destruct data as [|first rest]; [intros H; now injection H as <-|].
  cbn [ColumnMapper.normalize_data]. intros H.
  apply map_result_Ok_Forall2 in H. symmetry.
  eapply Forall2_length. exact H.
Qed.

Lemma normalize_columns_length (llm : list string -> result value)
  (request : AnalysisRequest.t) (mapping : anydict)
  (normalized : list anydict) :
  normalize_columns llm request = Ok (mapping, normalized) ->
  List.length normalized = List.length (AnalysisRequest.data request).
Proof.
  unfold normalize_columns.
  destruct (AnalysisRequest.column_mapping request) as [[|kv m]|];
    destruct (ColumnMapper.normalize_data llm _ _) as [n|e] eqn:E;
    cbn [bind]; try discriminate;
    intros H; injection H as <- <-;
    eapply normalize_data_length; exact E.
Qed.

(** X24. What a response says of its own size is true: [analyze] returns one
    decision per record of the request, in the order of the records, and its
    metadata and overview count the records and the findings it returns.  The
    summary node always finds the metrics: no [KeyError] leaves [analyze]. *)
Theorem analyze_counts_what_it_returns
  (llm : list string -> result value)
  (llm_invoke : string -> result string) (llm_model : string)
  (request : AnalysisRequest.t) :
  (forall key,
      analyze repr llm llm_invoke llm_model request <> KeyError key) /\
  (forall response,
      analyze repr llm llm_invoke llm_model request = Returned response ->
      List.length (AnalysisResponse.ad_insights response)
      = List.length (AnalysisRequest.data request) /\
      ExecutionMetadata.total_ads_analyzed
        (AnalysisResponse.execution_metadata response)
      = List.length (AnalysisRequest.data request) /\
      ExecutionMetadata.insights_generated
        (AnalysisResponse.execution_metadata response)
      = List.length (AnalysisResponse.insights response) /\
      (exists normalized,
          normalize_columns llm request
          = Ok (ExecutionMetadata.column_mapping
                  (AnalysisResponse.execution_metadata response),
                normalized) /\
          map_result (fun row => str_field repr row "ad_id")
            (map str_items normalized)
          = Ok (map AdInsight.ad_id (AnalysisResponse.ad_insights response))) /\
      exists m, AnalysisResponse.metrics_overview response = Some m /\
                total_ads m = List.length (AnalysisRequest.data request)).
Proof.
  unfold analyze.
  destruct (normalize_columns llm request) as [[mapping normalized]|e] eqn:En;
    [|split; [discriminate|discriminate]].
  pose proof (normalize_columns_length _ _ En) as Hlen.
  split.
  - intros key.
    pose proof (@invoke_finds_the_metrics llm_invoke
                  (map str_items normalized) key) as Hk.
    destruct (invoke repr llm_invoke (map str_items normalized))
      as [[st s]|e|k]; congruence.
  - intros response H.
    destruct (invoke repr llm_invoke (map str_items normalized))
      as [[st s]|e|k] eqn:E; try discriminate.
    injection H as <-.
    destruct (@invoke_inv llm_invoke _ st s E) as [Hrun _].
    destruct (@run_inv repr _ st Hrun)
      as (r & c & v & f & m & ds & _ & _ & _ & _ & Hm & Hds & ->).
    cbn [AnalysisResponse.ad_insights AnalysisResponse.insights
         AnalysisResponse.execution_metadata AnalysisResponse.metrics_overview
         ExecutionMetadata.total_ads_analyzed
         ExecutionMetadata.insights_generated ExecutionMetadata.column_mapping
         ad_insights all_insights metrics_overview].
    assert (Hid : map_result (fun row => str_field repr row "ad_id")
                    (map str_items normalized)
                  = Ok (map AdInsight.ad_id ds)).
    { eapply map_result_ok_map; [|exact Hds]. intros row d Hd.
      now destruct (@decide_status_ids repr row _ d Hd). }
    split.
    { apply map_result_Ok_Forall2 in Hds. apply Forall2_length in Hds.
      rewrite length_map in Hds. congruence. }
    split; [exact Hlen|]. split; [reflexivity|].
    split; [exists normalized; now split|].
    exists m. split; [reflexivity|].
    destruct (overview_totals _ Hm) as (H1 & H2 & H3 & H4 & H5).
    rewrite (overview_coerced _ H1 H2 H3 H4 H5) in Hm.
    injection Hm as <-. cbn [total_ads]. rewrite length_map. exact Hlen.
Qed.

(** X25. A request without records: whatever the mapping and the column
    model, the workflow still asks for a summary, with the prompt of an
    account of zeros; the response holds the stripped answer, no finding, no
    decision and the overview of zeros, and when the summary call raises,
    [analyze] raises the same exception. *)
Theorem analyze_no_record (llm : list string -> result value)
  (llm_invoke : string -> result string) (llm_model : string)
  (column_mapping : option (dict string)) :
  (forall content,
      llm_invoke (summary_prompt zero_overview 0 0 0 0) = Ok content ->
      analyze repr llm llm_invoke llm_model
        (AnalysisRequest.mk [] column_mapping)
      = Returned
          (AnalysisResponse.mk (strip content) [] [] (Some zero_overview)
             (ExecutionMetadata.mk llm_model 0
                match column_mapping with
                | Some m => of_strs m
                | None => []
                end 0))) /\
  (forall e,
      llm_invoke (summary_prompt zero_overview 0 0 0 0) = Raise e ->
      analyze repr llm llm_invoke llm_model
        (AnalysisRequest.mk [] column_mapping)
      = Raised e) /\
  contains "Total Spend: $0.00" (summary_prompt zero_overview 0 0 0 0) = true /\
  contains "Ads to Pause: 0" (summary_prompt zero_overview 0 0 0 0) = true.
Proof.
  assert (E : invoke repr llm_invoke []
              = match llm_invoke (summary_prompt zero_overview 0 0 0 0) with
                | Ok content =>
                    Returned
                      ({| normalized_data := []; roas_insights := [];
                          ctr_insights := []; conversion_insights := [];
                          frequency_insights := []; all_insights := [];
                          ad_insights := [];
                          metrics_overview := Some zero_overview |},
                       strip content)
                | Raise e => Raised e
                end).
  { unfold invoke.
    change (run repr [])
      with (Ok {| normalized_data := []; roas_insights := [];
                  ctr_insights := []; conversion_insights := [];
                  frequency_insights := []; all_insights := [];
                  ad_insights := [];
                  metrics_overview := Some zero_overview |}).
    unfold _generate_summary.
    cbn [metrics_overview all_insights ad_insights filter count_status
         List.length].
    destruct (llm_invoke _); reflexivity. }
  split; [|split; [|split; vm_compute; reflexivity]].
  - intros content H. unfold analyze, normalize_columns.
    destruct column_mapping as [[|kv m]|];
      cbn [AnalysisRequest.column_mapping AnalysisRequest.data
           ColumnMapper.normalize_data bind map];
      rewrite E, H; reflexivity.
  - intros e H. unfold analyze, normalize_columns.
    destruct column_mapping as [[|kv m]|];
      cbn [AnalysisRequest.column_mapping AnalysisRequest.data
           ColumnMapper.normalize_data bind map];
      rewrite E, H; reflexivity.
Qed.

(** X26. When the column model is consulted.  With a mapping that is not
    empty it never is; a mapping that is empty counts as none; and without a
    mapping it is not consulted when the request has no record or when
    fuzzy matching resolves every column of the first record.  In each of
    these cases [analyze] gives the same outcome for every column model. *)
Theorem column_model_is_rarely_consulted
  (llm llm' : list string -> result value)
  (llm_invoke : string -> result string) (llm_model : string)
  (data : list (dict value)) :
  (forall kv m,
      analyze repr llm llm_invoke llm_model
        (AnalysisRequest.mk data (Some (kv :: m)))
      = analyze repr llm' llm_invoke llm_model
          (AnalysisRequest.mk data (Some (kv :: m)))) /\
  analyze repr llm llm_invoke llm_model (AnalysisRequest.mk data (Some []))
  = analyze repr llm llm_invoke llm_model (AnalysisRequest.mk data None) /\
  (data = [] ->
   analyze repr llm llm_invoke llm_model (AnalysisRequest.mk data None)
   = analyze repr llm' llm_invoke llm_model (AnalysisRequest.mk data None)) /\
  (forall first rest,
      data = first :: rest ->
      (forall c, In c (keys first) -> ColumnMapper.fuzzy_match c <> None) ->
      analyze repr llm llm_invoke llm_model (AnalysisRequest.mk data None)
      = analyze repr llm' llm_invoke llm_model (AnalysisRequest.mk data None)).
Proof.
  split; [|split; [|split]].
  - intros kv m. unfold analyze, normalize_columns.
    cbn [AnalysisRequest.column_mapping AnalysisRequest.data].
    now destruct data.
  - reflexivity.
  - intros ->. reflexivity.
  - intros first rest -> Hall. unfold analyze, normalize_columns.
    cbn [AnalysisRequest.column_mapping AnalysisRequest.data
         ColumnMapper.normalize_data].
    now rewrite (map_columns_all_resolved llm _ Hall),
      (map_columns_all_resolved llm' _ Hall).
Qed.

End Engine.

Lemma analyze_counts_example :
  exists response,
    InsightAgentEngine.analyze repr_any llm_down (llm_says " Fine. ")
      "gpt-4o-mini" (AnalysisRequest.mk [scenario_record; raw_record] None)
    = InsightGraphSummary.Returned response /\
    AnalysisResponse.summary response = "Fine." /\
    List.length (AnalysisResponse.ad_insights response) = 2 /\
    ExecutionMetadata.total_ads_analyzed
      (AnalysisResponse.execution_metadata response) = 2.
Proof.
  destruct (InsightAgentEngine.analyze repr_any llm_down (llm_says " Fine. ")
              "gpt-4o-mini"
              (AnalysisRequest.mk [scenario_record; raw_record] None))
    as [response|e|k] eqn:E;
    [|vm_compute in E; discriminate|vm_compute in E; discriminate].
  exists response. split; [reflexivity|].
  destruct (@analyze_counts_what_it_returns repr_any llm_down
              (llm_says " Fine. ") "gpt-4o-mini"
              (AnalysisRequest.mk [scenario_record; raw_record] None))
    as [_ H].
  destruct (H response E) as (H1 & H2 & _).
  split; [|split; [exact H1|exact H2]].
  vm_compute in E. injection E as <-. reflexivity.
Defined.

Lemma analyze_no_record_example :
  InsightAgentEngine.analyze repr_any llm_down (llm_says " Nothing to report. ")
    "gpt-4o-mini" (AnalysisRequest.mk [] None)
  = InsightGraphSummary.Returned
      (AnalysisResponse.mk "Nothing to report." [] [] (Some zero_overview)
         (ExecutionMetadata.mk "gpt-4o-mini" 0 [] 0)).
Proof.
  destruct (@analyze_no_record repr_any llm_down
              (llm_says " Nothing to report. ") "gpt-4o-mini" None)
    as [H _].
  rewrite (H " Nothing to report. " eq_refl). reflexivity.
Defined.
